(** * BFT2F replica library: a shallow embedding of the Python sources

    The development follows the modules of [library/]:
    - [hashlib.sha256] (used by [hash_chain_digest.py]),
    - [hash_chain_digest.py]  : [HashChainBlock], [HashChainDigest],
    - [version_vector.py]     : [VersionVectorEntry], [VersionVector],
    - [reply_cache.py]        : [ReplyCache],
    - the message classes,
    - [replica.py]            : [Replica] and its message handlers,
    - [client.py]             : [Client.handle_reply].

    Python integers are [Z].  Exceptions are values of [pyexn]; a method
    that mutates its object, sends datagrams or may raise is a computation
    in the monad [Py].  Objects whose class defines no [__eq__] are compared
    by identity, so their records carry the address of the object. *)

From Stdlib Require Import ZArith List String Ascii Lia Bool.
From Stdlib Require Import DecimalString HexadecimalString DecimalZ.
From stdpp Require Import base decidable option list strings gmap.

Open Scope Z_scope.

(** ** SHA-256, as computed by [hashlib.sha256(...).hexdigest()] *)

Module SHA256.

Definition w32 (x : Z) : Z := x mod 2 ^ 32.
Definition add32 (x y : Z) : Z := w32 (x + y).
Definition not32 (x : Z) : Z := Z.lxor x (2 ^ 32 - 1).
Definition shr (n x : Z) : Z := Z.shiftr x n.
Definition rotr (n x : Z) : Z :=
  w32 (Z.lor (Z.shiftr x n) (Z.shiftl x (32 - n))).

Definition Ch (x y z : Z) : Z := Z.lxor (Z.land x y) (Z.land (not32 x) z).
Definition Maj (x y z : Z) : Z :=
  Z.lxor (Z.lxor (Z.land x y) (Z.land x z)) (Z.land y z).
Definition Sigma0 (x : Z) : Z := Z.lxor (Z.lxor (rotr 2 x) (rotr 13 x)) (rotr 22 x).
Definition Sigma1 (x : Z) : Z := Z.lxor (Z.lxor (rotr 6 x) (rotr 11 x)) (rotr 25 x).
Definition sigma0 (x : Z) : Z := Z.lxor (Z.lxor (rotr 7 x) (rotr 18 x)) (shr 3 x).
Definition sigma1 (x : Z) : Z := Z.lxor (Z.lxor (rotr 17 x) (rotr 19 x)) (shr 10 x).

(** The constants are the fractional parts of the square and cube roots
    of the first primes; they are computed rather than tabulated. *)
Definition is_prime (n : Z) : bool :=
  (1 <? n) && forallb (fun d => negb (n mod d =? 0))
                      (map Z.of_nat (seq 2 (Z.to_nat n - 2))).

Definition first_primes : list Z :=
  Eval vm_compute in filter is_prime (map Z.of_nat (seq 2 310)).

(** Integer cube root by bisection on the bits of the result. *)
Definition icbrt (n : Z) : Z :=
  fold_left (fun r b => let r' := r + 2 ^ b in
                        if r' * r' * r' <=? n then r' else r)
            (map Z.of_nat (rev (seq 0 40))) 0.

Definition H0 : list Z :=
  Eval vm_compute in
    map (fun p => w32 (Z.sqrt (p * 2 ^ 64))) (firstn 8 first_primes).

Definition K : list Z :=
  Eval vm_compute in
    map (fun p => w32 (icbrt (p * 2 ^ 96))) (firstn 64 first_primes).

(** Padding: a 1 bit, zeros up to 56 mod 64, the bit length on 8 bytes. *)
Definition be_bytes (n : nat) (x : Z) : list Z :=
  map (fun i => Z.shiftr x (8 * Z.of_nat i) mod 256) (rev (seq 0 n)).

Definition pad (msg : list Z) : list Z :=
  let len := Z.of_nat (length msg) in
  let zeros := Z.to_nat ((55 - len) mod 64) in
  msg ++ [128] ++ repeat 0 zeros ++ be_bytes 8 (8 * len).

Fixpoint words (fuel : nat) (bs : list Z) : list Z :=
  match fuel, bs with
  | S fuel', b0 :: b1 :: b2 :: b3 :: rest =>
      (((b0 * 256 + b1) * 256 + b2) * 256 + b3) :: words fuel' rest
  | _, _ => []
  end.

Fixpoint chunks (fuel : nat) (ws : list Z) : list (list Z) :=
  match fuel, ws with
  | _, [] => []
  | O, _ => []
  | S fuel', _ => firstn 16 ws :: chunks fuel' (skipn 16 ws)
  end.

Definition schedule (block : list Z) : list Z :=
  fold_left
    (fun w t =>
       w ++ [add32 (add32 (sigma1 (nth (t - 2) w 0)) (nth (t - 7) w 0))
                   (add32 (sigma0 (nth (t - 15) w 0)) (nth (t - 16) w 0))])
    (seq 16 48) block.

Record regs := Regs { ra : Z; rb : Z; rc : Z; rd : Z;
                      re : Z; rf : Z; rg : Z; rh : Z }.

Definition round (s : regs) (kw : Z * Z) : regs :=
  let t1 := add32 (add32 (add32 (rh s) (Sigma1 (re s)))
                         (add32 (Ch (re s) (rf s) (rg s)) (fst kw))) (snd kw) in
  let t2 := add32 (Sigma0 (ra s)) (Maj (ra s) (rb s) (rc s)) in
  Regs (add32 t1 t2) (ra s) (rb s) (rc s) (add32 (rd s) t1) (re s) (rf s) (rg s).

Definition compress (s : regs) (block : list Z) : regs :=
  let s' := fold_left round (combine K (schedule block)) s in
  Regs (add32 (ra s) (ra s')) (add32 (rb s) (rb s')) (add32 (rc s) (rc s'))
       (add32 (rd s) (rd s')) (add32 (re s) (re s')) (add32 (rf s) (rf s'))
       (add32 (rg s) (rg s')) (add32 (rh s) (rh s')).

Definition init : regs :=
  match H0 with
  | [a; b; c; d; e; f; g; h] => Regs a b c d e f g h
  | _ => Regs 0 0 0 0 0 0 0 0
  end.

Definition digest_words (msg : list Z) : list Z :=
  let bs := pad msg in
  let ws := words (length bs) bs in
  let s := fold_left compress (chunks (length ws) ws) init in
  [ra s; rb s; rc s; rd s; re s; rf s; rg s; rh s].

Definition hex_digit (x : Z) : ascii :=
  ascii_of_nat (Z.to_nat (if x <? 10 then 48 + x else 87 + x)).

Definition hex_word (x : Z) : list ascii :=
  map (fun i => hex_digit (Z.shiftr x (4 * Z.of_nat i) mod 16)) (rev (seq 0 8)).

Definition bytes_of_string (s : string) : list Z :=
  map (fun c => Z.of_nat (nat_of_ascii c)) (list_ascii_of_string s).

(** [hashlib.sha256(s.encode()).hexdigest()]; a [string] is read as the
    UTF-8 bytes of the Python string. *)
Definition hexdigest (s : string) : string :=
  string_of_list_ascii (concat (map hex_word (digest_words (bytes_of_string s)))).

End SHA256.




(** ** Python values, exceptions and effects *)

(** The exceptions the modelled methods can raise. *)
Inductive pyexn : Set :=
| AttributeError | IndexError | KeyError | ValueError
| UnboundLocalError | ZeroDivisionError | SystemExit.

Inductive outcome (A : Type) : Type :=
| Returned (a : A)
| Raised (e : pyexn).
Arguments Returned {A} a.
Arguments Raised {A} e.

Definition obind {A B} (o : outcome A) (k : A -> outcome B) : outcome B :=
  match o with
  | Returned a => k a
  | Raised e => Raised e
  end.

(** [time.time()] and request timestamps are floats that the code only
    compares and prints; they are modelled by the integer-valued floats
    (below [10^16], which [str] prints with a trailing [.0]). *)
Definition float := Z.

Definition str_int (z : Z) : string := DecimalString.NilEmpty.string_of_int (Z.to_int z).
Definition str_float (t : float) : string := str_int t +:+ ".0".

(** The default [repr] of an object of class [cls] living at [addr]. *)
Definition obj_repr (cls : string) (addr : nat) : string :=
  "<" +:+ cls +:+ " object at 0x"
  +:+ HexadecimalString.NilEmpty.string_of_uint (N.to_hex_uint (N.of_nat addr)) +:+ ">".

(** [l[i]] for a Python list, negative indices counting from the end. *)
Definition py_index {A} (l : list A) (i : Z) : outcome A :=
  let n := Z.of_nat (length l) in
  let j := if i <? 0 then i + n else i in
  if (j <? 0) || (n <=? j) then Raised IndexError
  else match l !! Z.to_nat j with
       | Some x => Returned x
       | None => Raised IndexError
       end.

(** [a % b] on Python integers. *)
Definition py_mod (a b : Z) : outcome Z :=
  if b =? 0 then Raised ZeroDivisionError else Returned (a mod b).

(** [min(l, key=key)]: the first element whose key is least. *)
Definition py_min {A} (key : A -> Z) (l : list A) : outcome A :=
  match l with
  | [] => Raised ValueError
  | x :: l' =>
      Returned (fold_left (fun best y => if key y <? key best then y else best) l' x)
  end.

(** An insertion-ordered [dict] whose values are lists, as built by
    [if k not in d: d[k] = []] followed by [d[k].append(v)]. *)
Section Dict.
Context {K V : Type} `{EqDecision K}.

Fixpoint dict_get (k : K) (d : list (K * V)) : option V :=
  match d with
  | [] => None
  | (k', v) :: d' => if decide (k' = k) then Some v else dict_get k d'
  end.

Fixpoint dict_append (k : K) (v : V) (d : list (K * list V)) : list (K * list V) :=
  match d with
  | [] => [(k, [v])]
  | (k', l) :: d' =>
      if decide (k' = k) then (k', l ++ [v]) :: d'
      else (k', l) :: dict_append k v d'
  end.
End Dict.

(** A computation over a mutable object of type [S] that emits events of
    type [E]: the final object, the events in order, and how it ended. *)
Definition Py (S E A : Type) : Type := S -> S * list E * outcome A.

Section PyMonad.
Context {S E : Type}.

Definition ret {A} (a : A) : Py S E A := fun s => (s, [], Returned a).

Definition bind {A B} (m : Py S E A) (k : A -> Py S E B) : Py S E B :=
  fun s =>
    match m s with
    | (s1, ev1, Returned a) =>
        match k a s1 with
        | (s2, ev2, r) => (s2, ev1 ++ ev2, r)
        end
    | (s1, ev1, Raised e) => (s1, ev1, Raised e)
    end.

Definition raise {A} (e : pyexn) : Py S E A := fun s => (s, [], Raised e).
Definition get : Py S E S := fun s => (s, [], Returned s).
Definition modify (f : S -> S) : Py S E unit := fun s => (f s, [], Returned tt).
Definition emit (e : E) : Py S E unit := fun s => (s, [e], Returned tt).
Definition lift {A} (o : outcome A) : Py S E A := fun s => (s, [], o).

(** [for x in l: body x] *)
Fixpoint for_each {A} (l : list A) (body : A -> Py S E unit) : Py S E unit :=
  match l with
  | [] => ret tt
  | x :: l' => bind (body x) (fun _ => for_each l' body)
  end.
End PyMonad.

Declare Scope py_scope.
Delimit Scope py_scope with py.
Notation "x <- c1 ;; c2" := (bind c1 (fun x => c2))
  (at level 100, c1 at next level, right associativity) : py_scope.
Notation "c1 ;;; c2" := (bind c1 (fun _ => c2))
  (at level 100, right associativity) : py_scope.
Notation "x <~ o ;; c2" := (obind o (fun x => c2))
  (at level 100, o at next level, right associativity) : py_scope.
Open Scope py_scope.

(** ** message.py, request_message.py *)

(** [Message.to_string] *)
Definition Message_to_string (message_type view sequence_number : string) : string :=
  "Type: " +:+ message_type +:+ ", View: " +:+ view
  +:+ ", Sequence Number: " +:+ sequence_number +:+ ", ".

Module RequestMessage.
(** [addr] is the identity of the object: the class defines no [__eq__],
    so [==], [in] and [list.remove] compare addresses. *)
Record t : Set := mk {
  addr : nat;
  operation : string;
  timestamp : float;
  client_id : Z;
  current_system_state : string;
}.

Definition to_string (self : t) : string :=
  Message_to_string "MessageType.REQUEST" "None" "None"
  +:+ "Client ID: " +:+ str_int (client_id self)
  +:+ ", Operation: " +:+ operation self
  +:+ ", Timestamp: " +:+ str_float (timestamp self)
  +:+ ", Current System State: " +:+ current_system_state self.
End RequestMessage.

(** The values stored as block data or carried as the request of a
    pre-prepare or prepare: a string (what [deserialize_message] builds)
    or a [RequestMessage] object. *)
Inductive pyval : Set :=
| PyStr (s : string)
| PyRequest (r : RequestMessage.t).

(** [str(v)]: a [RequestMessage] has no [__str__], so it prints as the
    default [repr] of the object. *)
Definition py_str (v : pyval) : string :=
  match v with
  | PyStr s => s
  | PyRequest r =>
      obj_repr "library.request_message.RequestMessage" (RequestMessage.addr r)
  end.

(** [v == w]: strings by value, request objects by identity. *)
Definition pyval_eqb (v w : pyval) : bool :=
  match v, w with
  | PyStr s, PyStr s' => bool_decide (s = s')
  | PyRequest r, PyRequest r' =>
      bool_decide (RequestMessage.addr r = RequestMessage.addr r')
  | _, _ => false
  end.

(** ** hash_chain_digest.py *)

Module HashChainBlock.
Record t : Set := mk {
  data : pyval;
  sequence_number : Z;
  timestamp : float;
  previous_hash : string;
  hash : string;
}.

Definition calculate_hash (self : t) : string :=
  let block_str := py_str (data self) +:+ previous_hash self in
  SHA256.hexdigest block_str.

(** [__init__]; [now] is the value [time.time()] returns. *)
Definition init (now : float) (d : pyval) (n : Z) (prev : string) : t :=
  let self := mk d n now prev "" in
  mk d n now prev (calculate_hash self).
End HashChainBlock.

Module HashChainDigest.
(** A [HashChainDigest] is its [chain] attribute. *)
Abbreviation t := (list HashChainBlock.t).

Definition get_last_block (chain : t) : option HashChainBlock.t :=
  if 0 <? Z.of_nat (length chain) then last chain else None.

Definition add_block (chain : t) (now : float) (block_data : pyval) (n : Z) : t :=
  let previous_hash :=
    if Z.of_nat (length chain) =? 0 then "0"%string
    else match last chain with
         | Some b => HashChainBlock.hash b
         | None => "0"%string
         end in
  let block := HashChainBlock.init now block_data n previous_hash in
  chain ++ [block].

(** A chain built from the empty chain by a sequence of [add_block]
    calls, each with its clock value, data and sequence number. *)
Definition build (calls : list (float * pyval * Z)) : t :=
  fold_left (fun c call => add_block c (call.1.1) (call.1.2) (call.2)) calls [].

(** The [previous_hash] a new block gets on top of [chain]. *)
Definition prev_of (chain : t) : string :=
  match last chain with
  | Some b => HashChainBlock.hash b
  | None => "0"%string
  end.
End HashChainDigest.

(** The preimage the specification asks for: [n || encode(data) || prev]. *)
Definition spec_preimage (n : Z) (d : pyval) (prev : string) : string :=
  str_int n +:+ py_str d +:+ prev.

(** Sequence numbers that grow by one from block to block. *)
Fixpoint contiguous (l : list Z) : bool :=
  match l with
  | a :: (b :: _) as l' => (b =? a + 1) && contiguous l'
  | _ => true
  end.

(** ** version_vector.py *)

(** The [hcd] carried by entries, commits and replies: a string when the
    message was built by [deserialize_message], a reference to a
    [HashChainDigest] object (compared by identity) otherwise. *)
Inductive hcd_val : Set :=
| HcdStr (s : string)
| HcdRef (addr : nat).

Global Instance hcd_val_eq_dec : EqDecision hcd_val.
Proof. solve_decision. Defined.

Definition hcd_str (h : hcd_val) : string :=
  match h with
  | HcdStr s => s
  | HcdRef addr => obj_repr "library.hash_chain_digest.HashChainDigest" addr
  end.

Module VersionVectorEntry.
Record t : Set := mk {
  replica_id : Z;
  view : Z;
  sequence_number : Z;
  hcd : hcd_val;
}.
End VersionVectorEntry.

(** A dictionary key as the callers of [get_entries] pass it: an integer,
    or a bound method (hashable, and equal to no integer). *)
Inductive pykey : Set :=
| KInt (z : Z)
| KMethod (name : string).

Module VersionVector.
(** The [vector] attribute: a [dict] from ids to lists of entries, in
    insertion order. *)
Abbreviation t := (list (Z * list VersionVectorEntry.t)).

Definition update_entry (vector : t) (vector_id entry_id view sequence_number : Z)
    (hcd : hcd_val) : t :=
  dict_append vector_id
    (VersionVectorEntry.mk entry_id view sequence_number hcd) vector.

Definition get_entries (vector : t) (replica_id : pykey)
  : outcome (list VersionVectorEntry.t) :=
  match replica_id with
  | KInt z =>
      match dict_get z vector with
      | Some entries => Returned entries
      | None => Raised KeyError
      end
  | KMethod _ => Raised KeyError
  end.

Definition get_entry (vector : t) (vector_replica_id : pykey) (entry_replica_id : Z)
  : outcome VersionVectorEntry.t :=
  entries <~ get_entries vector vector_replica_id ;;
  py_index entries entry_replica_id.

Definition is_empty (vector : t) : bool :=
  match vector with [] => true | _ => false end.

(** The key of the [counter] dictionary. *)
Definition key (entry : VersionVectorEntry.t) : string * hcd_val :=
  (str_int (VersionVectorEntry.sequence_number entry), VersionVectorEntry.hcd entry).

(** The first loop of [get_current_system_state]. *)
Definition counter (vector : t) : list (string * hcd_val * list VersionVectorEntry.t) :=
  fold_left
    (fun counter entries =>
       fold_left (fun counter entry => dict_append (key entry) entry counter)
                 entries counter)
    (map snd vector) [].

Definition get_current_system_state (vector : t) (f : Z)
  : outcome (option VersionVectorEntry.t) :=
  match find (fun kv => 2 * f + 1 <=? Z.of_nat (length kv.2)) (counter vector) with
  | Some (_, entries) =>
      e <~ py_min VersionVectorEntry.replica_id entries ;; Returned (Some e)
  | None => Returned None
  end.

(** What the [counter] dictionary holds once the entries [es] have been
    read: under each key, the entries with that key, in order. *)
Definition counts_for (c : list (string * hcd_val * list VersionVectorEntry.t))
    (es : list VersionVectorEntry.t) : Prop :=
  NoDup (c.*1)
  /\ forall k, dict_get k c
               = match filter (fun e => key e = k) es with
                 | [] => None
                 | l => Some l
                 end.

(** Every entry stored in the vector, in iteration order. *)
Definition all_entries (vector : t) : list VersionVectorEntry.t :=
  concat (map snd vector).

(** The stored entries with the [(seq, digest)] pair of [e]. *)
Definition same_state (e e' : VersionVectorEntry.t) : Prop :=
  VersionVectorEntry.sequence_number e' = VersionVectorEntry.sequence_number e
  /\ VersionVectorEntry.hcd e' = VersionVectorEntry.hcd e.

Global Instance same_state_dec e e' : Decision (same_state e e').
Proof. unfold same_state. apply _. Defined.

Definition group (vector : t) (e : VersionVectorEntry.t) : list VersionVectorEntry.t :=
  filter (same_state e) (all_entries vector).

(** The reading of the specification: only the latest entry of each
    principal counts, one vote per principal. *)
Definition latest_entries (vector : t) : list VersionVectorEntry.t :=
  omap (fun kv => last kv.2) vector.

Definition spec_quorum_entries (vector : t) (f : Z) : list VersionVectorEntry.t :=
  filter (fun e => 2 * f + 1
                   <= Z.of_nat (length (filter (same_state e) (latest_entries vector))))
         (latest_entries vector).
End VersionVector.

(** ** reply_message.py, reply_cache.py *)

(** The [result] of a reply: the boolean [execute_operation] returns, or
    the string [deserialize_message] reads. *)
Inductive result_val : Set :=
| ResBool (b : bool)
| ResStr (s : string).

Global Instance result_val_eq_dec : EqDecision result_val.
Proof. solve_decision. Defined.

Definition result_str (r : result_val) : string :=
  match r with
  | ResBool true => "True"
  | ResBool false => "False"
  | ResStr s => s
  end.

Module Entry.
(** The class [Entry] of [reply_message.py]; it defines no [__eq__], so
    two entries are [==] only when they are the same object. *)
Record t : Set := mk {
  addr : nat;
  replica_id : Z;
  view : Z;
  sequence_number : Z;
  hcd : hcd_val;
}.

Definition to_string (self : t) : string :=
  "Replica ID: " +:+ str_int (replica_id self)
  +:+ ", View: " +:+ str_int (view self)
  +:+ ", Sequence Number: " +:+ str_int (sequence_number self)
  +:+ ", HCD: " +:+ hcd_str (hcd self).

Definition eqb (e e' : t) : bool := bool_decide (addr e = addr e').
End Entry.

Module ReplyMessage.
Record t : Set := mk {
  addr : nat;
  client_id : Z;
  timestamp : float;
  result : result_val;
  entry : Entry.t;
}.

(** [__init__]: the constructor allocates the [Entry]; one entry per
    reply, identified here by the address of its reply. *)
Definition init (addr : nat) (client_id : Z) (timestamp : float) (result : result_val)
    (replica_id view sequence_number : Z) (hcd : hcd_val) : t :=
  mk addr client_id timestamp result
     (Entry.mk addr replica_id view sequence_number hcd).

Definition to_string (self : t) : string :=
  Message_to_string "MessageType.REPLY" "None" "None"
  +:+ "Client ID: " +:+ str_int (client_id self)
  +:+ ", Timestamp: " +:+ str_float (timestamp self)
  +:+ ", Result: " +:+ result_str (result self)
  +:+ ", Entry: " +:+ Entry.to_string (entry self).

Definition eqb (r r' : t) : bool := bool_decide (addr r = addr r').
End ReplyMessage.

(** What the cache holds for a client: [update_cache] stores whatever it is
    given, a [ReplyMessage] or the string [Replica.receive_commit] passes. *)
Inductive cached : Set :=
| CachedReply (r : ReplyMessage.t)
| CachedStr (s : string).

Module ReplyCache.
Abbreviation t := (gmap Z cached).

Definition update_cache (cache : t) (client_id : Z) (reply : cached) : t :=
  <[client_id := reply]> cache.

Definition get_reply (cache : t) (client_id : Z) : option cached :=
  cache !! client_id.
End ReplyCache.

(** ** The other message classes *)

Module PrePrepareMessage.
Record t : Set := mk {
  primary_replica_id : Z;
  view : Z;
  sequence_number : Z;
  request_msg : pyval;
}.
End PrePrepareMessage.

Module PrepareMessage.
Record t : Set := mk {
  replica_id : Z;
  view : Z;
  sequence_number : Z;
  request_msg : pyval;
}.
End PrepareMessage.

Module CommitMessage.
Record t : Set := mk {
  addr : nat;
  replica_id : Z;
  view : Z;
  sequence_number : Z;
  hcd : hcd_val;
}.
End CommitMessage.

Module ViewChangeMessage.
Record t : Set := mk {
  view : Z;
  replica_id : Z;
  version_vector_entry : VersionVectorEntry.t;
  P : list string;
}.
End ViewChangeMessage.

Module CheckpointMessage.
Record t : Set := mk {
  behind_replica_id : Z;
  sequence_number : Z;
  rcache_n : option cached;
  version_vector : list (Z * list VersionVectorEntry.t);
  E : list VersionVectorEntry.t;
}.
End CheckpointMessage.

(** What is handed to [socket.send]: the encoding of a message object, or
    the bytes of a string. *)
Inductive payload : Set :=
| MsgPrePrepare (m : PrePrepareMessage.t)
| MsgPrepare (m : PrepareMessage.t)
| MsgCommit (m : CommitMessage.t)
| MsgReply (m : ReplyMessage.t)
| MsgCheckpoint (m : CheckpointMessage.t)
| MsgStr (s : string).

(** The effects of a handler, in order.  The transport is outside the
    model: [connect] and [send] succeed. *)
Inductive event : Set :=
| Send (host : string) (port : Z) (m : payload)
| Print (s : string)
| TimerStart (seconds : Z).

(** ** client.py *)

Module Client.
(** The attributes the handlers read or write ([lock], [hcd] and
    [replicas] play no part in them). *)
Record t : Set := mk {
  host : string;
  port : Z;
  client_id : Z;
  version_vector : list (Z * list VersionVectorEntry.t);
  f : Z;
  received_replies : list ReplyMessage.t;
  pending_requests : list RequestMessage.t;
}.

Definition set_received_replies (v : list ReplyMessage.t) (c : t) : t :=
  mk (host c) (port c) (client_id c) (version_vector c) (f c) v (pending_requests c).
Definition set_pending_requests (v : list RequestMessage.t) (c : t) : t :=
  mk (host c) (port c) (client_id c) (version_vector c) (f c) (received_replies c) v.
Definition set_version_vector (v : list (Z * list VersionVectorEntry.t)) (c : t) : t :=
  mk (host c) (port c) (client_id c) v (f c) (received_replies c) (pending_requests c).

(** [received_replies] once [reply_message] has been recorded. *)
Definition recorded (self : t) (reply_message : ReplyMessage.t) : list ReplyMessage.t :=
  if existsb (ReplyMessage.eqb reply_message) (received_replies self)
  then received_replies self
  else received_replies self ++ [reply_message].

(** The condition under which [handle_reply] counts a received reply. *)
Definition counts (reply_message received_reply : ReplyMessage.t) : bool :=
  (ReplyMessage.timestamp received_reply =? ReplyMessage.timestamp reply_message)
  && (ReplyMessage.client_id received_reply =? ReplyMessage.client_id reply_message)
  && bool_decide (ReplyMessage.result received_reply = ReplyMessage.result reply_message)
  && Entry.eqb (ReplyMessage.entry received_reply) (ReplyMessage.entry reply_message).

(** The two nested loops: [total] and the last binding of
    [founded_request]. *)
Definition count_total (pending : list RequestMessage.t)
    (received : list ReplyMessage.t) (reply_message : ReplyMessage.t)
  : Z * option RequestMessage.t :=
  fold_left
    (fun acc pending_request =>
       if RequestMessage.timestamp pending_request =? ReplyMessage.timestamp reply_message
       then (fold_left (fun total received_reply =>
                          if counts reply_message received_reply
                          then total + 1 else total)
                       received acc.1,
             Some pending_request)
       else acc)
    pending (0, None).

(** [list.remove(x)] on a list of request objects. *)
Fixpoint remove_request (x : RequestMessage.t) (l : list RequestMessage.t)
  : outcome (list RequestMessage.t) :=
  match l with
  | [] => Raised ValueError
  | y :: l' =>
      if bool_decide (RequestMessage.addr y = RequestMessage.addr x)
      then Returned l'
      else l'' <~ remove_request x l' ;; Returned (y :: l'')
  end.

(** [handle_reply]: it returns [False], falls off its end ([None]), or
    leaves through [sys.exit()]. *)
Definition handle_reply (reply_message : ReplyMessage.t) : Py t event (option bool) :=
  self <- get ;;
  (if existsb (ReplyMessage.eqb reply_message) (received_replies self)
   then ret tt
   else modify (set_received_replies (received_replies self ++ [reply_message]))) ;;;
  self <- get ;;
  let '(total, founded) :=
    count_total (pending_requests self) (received_replies self) reply_message in
  if 2 * f self + 1 <=? total then
    founded_request <- match founded with
                       | Some q => ret q
                       | None => raise UnboundLocalError
                       end ;;
    pending <- lift (remove_request founded_request (pending_requests self)) ;;
    modify (set_pending_requests pending) ;;;
    for_each (received_replies self)
      (fun received_reply =>
         let e := ReplyMessage.entry received_reply in
         modify (fun c =>
           set_version_vector
             (VersionVector.update_entry (version_vector c) (client_id c)
                (Entry.replica_id e) (Entry.view e) (Entry.sequence_number e)
                (Entry.hcd e)) c)) ;;;
    self <- get ;;
    state <- lift (VersionVector.get_current_system_state (version_vector self) (f self)) ;;
    match state with
    | None => raise AttributeError
    | Some s =>
        if bool_decide (VersionVectorEntry.hcd s
                        = Entry.hcd (ReplyMessage.entry reply_message))
        then emit (Print "Consensus reached") ;;; raise SystemExit
        else ret None
    end
  else ret (Some false).

(** The reading of the specification: two replies match when they agree
    on everything but the replica of their entry, which differs. *)
Definition spec_match (r r' : ReplyMessage.t) : bool :=
  (ReplyMessage.timestamp r =? ReplyMessage.timestamp r')
  && (ReplyMessage.client_id r =? ReplyMessage.client_id r')
  && bool_decide (ReplyMessage.result r = ReplyMessage.result r')
  && (Entry.view (ReplyMessage.entry r) =? Entry.view (ReplyMessage.entry r'))
  && (Entry.sequence_number (ReplyMessage.entry r)
      =? Entry.sequence_number (ReplyMessage.entry r'))
  && bool_decide (Entry.hcd (ReplyMessage.entry r) = Entry.hcd (ReplyMessage.entry r'))
  && negb (Entry.replica_id (ReplyMessage.entry r)
           =? Entry.replica_id (ReplyMessage.entry r')).
End Client.

(** ** replica.py *)

Definition VIEW_TIMEOUT : Z := 10.
Definition CHECKPOINT_INTERVAL : Z := 100.
Definition I : Z := 128.

(** An element of [self.replicas]: the replica itself, another [Replica]
    object of the process (with the attributes the handlers read), or a
    string, which [add_replica] stores like anything else it is given. *)
Inductive peer : Set :=
| PeerSelf
| PeerReplica (replica_id : Z) (host : string) (port : Z)
              (version_vector : list (Z * list VersionVectorEntry.t))
| PeerStr (s : string).

(** The result of [find_client] and [find_replica]: the object, or the
    string the method returns when there is none. *)
Inductive found (A : Type) : Type :=
| Found (a : A)
| NotFound (s : string).
Arguments Found {A} a.
Arguments NotFound {A} s.

Module Replica.
(** [timer] is [true] when the attribute holds a [Timer], [false] when it
    is [None]; [hcd_addr] is the identity of the [hcd] object and
    [heap_next] the address of the next object to be allocated. *)
Record t : Set := mk {
  host : string;
  port : Z;
  f : Z;
  replica_id : Z;
  view : Z;
  reply_cache : gmap Z cached;
  version_vector : list (Z * list VersionVectorEntry.t);
  hcd_addr : nat;
  hcd : list HashChainBlock.t;
  clients : list Client.t;
  replicas : list peer;
  primary : bool;
  accepted_requests : list RequestMessage.t;
  received_pre_prepare_messages : list PrePrepareMessage.t;
  received_prepare_messages : list PrepareMessage.t;
  received_commit_messages : list CommitMessage.t;
  received_view_change_messages : list ViewChangeMessage.t;
  pending_checkpoints : gmap Z CheckpointMessage.t;
  timer : bool;
  heap_next : nat;
}.

(** [__init__]; [id_counter] is the value of [Replica._id_counter] and
    the thread started by [listen()] belongs to the transport. *)
Definition init (id_counter : Z) (hcd_addr heap_next : nat) (host : string) (port : Z)
    (f view : Z) (clients : list Client.t) (replicas : list peer) : outcome t :=
  m <~ py_mod view (3 * (f + 1)) ;;
  Returned (mk host port f id_counter view ∅ [] hcd_addr [] clients replicas
               (bool_decide (m = id_counter)) [] [] [] [] [] ∅ false heap_next).

Definition is_primary (self : t) : bool := primary self.

Definition set_reply_cache (v : gmap Z cached) (r : t) : t :=
  mk (host r) (port r) (f r) (replica_id r) (view r) v (version_vector r)
     (hcd_addr r) (hcd r) (clients r) (replicas r) (primary r) (accepted_requests r)
     (received_pre_prepare_messages r) (received_prepare_messages r)
     (received_commit_messages r) (received_view_change_messages r)
     (pending_checkpoints r) (timer r) (heap_next r).
Definition set_version_vector (v : list (Z * list VersionVectorEntry.t)) (r : t) : t :=
  mk (host r) (port r) (f r) (replica_id r) (view r) (reply_cache r) v
     (hcd_addr r) (hcd r) (clients r) (replicas r) (primary r) (accepted_requests r)
     (received_pre_prepare_messages r) (received_prepare_messages r)
     (received_commit_messages r) (received_view_change_messages r)
     (pending_checkpoints r) (timer r) (heap_next r).
Definition set_replicas (v : list peer) (r : t) : t :=
  mk (host r) (port r) (f r) (replica_id r) (view r) (reply_cache r) (version_vector r)
     (hcd_addr r) (hcd r) (clients r) v (primary r) (accepted_requests r)
     (received_pre_prepare_messages r) (received_prepare_messages r)
     (received_commit_messages r) (received_view_change_messages r)
     (pending_checkpoints r) (timer r) (heap_next r).
Definition set_primary (v : bool) (r : t) : t :=
  mk (host r) (port r) (f r) (replica_id r) (view r) (reply_cache r) (version_vector r)
     (hcd_addr r) (hcd r) (clients r) (replicas r) v (accepted_requests r)
     (received_pre_prepare_messages r) (received_prepare_messages r)
     (received_commit_messages r) (received_view_change_messages r)
     (pending_checkpoints r) (timer r) (heap_next r).
Definition set_accepted_requests (v : list RequestMessage.t) (r : t) : t :=
  mk (host r) (port r) (f r) (replica_id r) (view r) (reply_cache r) (version_vector r)
     (hcd_addr r) (hcd r) (clients r) (replicas r) (primary r) v
     (received_pre_prepare_messages r) (received_prepare_messages r)
     (received_commit_messages r) (received_view_change_messages r)
     (pending_checkpoints r) (timer r) (heap_next r).
Definition set_received_pre_prepare_messages (v : list PrePrepareMessage.t) (r : t) : t :=
  mk (host r) (port r) (f r) (replica_id r) (view r) (reply_cache r) (version_vector r)
     (hcd_addr r) (hcd r) (clients r) (replicas r) (primary r) (accepted_requests r)
     v (received_prepare_messages r)
     (received_commit_messages r) (received_view_change_messages r)
     (pending_checkpoints r) (timer r) (heap_next r).
Definition set_received_commit_messages (v : list CommitMessage.t) (r : t) : t :=
  mk (host r) (port r) (f r) (replica_id r) (view r) (reply_cache r) (version_vector r)
     (hcd_addr r) (hcd r) (clients r) (replicas r) (primary r) (accepted_requests r)
     (received_pre_prepare_messages r) (received_prepare_messages r)
     v (received_view_change_messages r)
     (pending_checkpoints r) (timer r) (heap_next r).
Definition set_received_view_change_messages (v : list ViewChangeMessage.t) (r : t) : t :=
  mk (host r) (port r) (f r) (replica_id r) (view r) (reply_cache r) (version_vector r)
     (hcd_addr r) (hcd r) (clients r) (replicas r) (primary r) (accepted_requests r)
     (received_pre_prepare_messages r) (received_prepare_messages r)
     (received_commit_messages r) v
     (pending_checkpoints r) (timer r) (heap_next r).
Definition set_pending_checkpoints (v : gmap Z CheckpointMessage.t) (r : t) : t :=
  mk (host r) (port r) (f r) (replica_id r) (view r) (reply_cache r) (version_vector r)
     (hcd_addr r) (hcd r) (clients r) (replicas r) (primary r) (accepted_requests r)
     (received_pre_prepare_messages r) (received_prepare_messages r)
     (received_commit_messages r) (received_view_change_messages r)
     v (timer r) (heap_next r).
Definition set_timer (v : bool) (r : t) : t :=
  mk (host r) (port r) (f r) (replica_id r) (view r) (reply_cache r) (version_vector r)
     (hcd_addr r) (hcd r) (clients r) (replicas r) (primary r) (accepted_requests r)
     (received_pre_prepare_messages r) (received_prepare_messages r)
     (received_commit_messages r) (received_view_change_messages r)
     (pending_checkpoints r) v (heap_next r).
Definition set_heap_next (v : nat) (r : t) : t :=
  mk (host r) (port r) (f r) (replica_id r) (view r) (reply_cache r) (version_vector r)
     (hcd_addr r) (hcd r) (clients r) (replicas r) (primary r) (accepted_requests r)
     (received_pre_prepare_messages r) (received_prepare_messages r)
     (received_commit_messages r) (received_view_change_messages r)
     (pending_checkpoints r) (timer r) v.

(** Attribute access on an element of [self.replicas]; a string has
    none of the methods of a [Replica]. *)
Definition peer_replica_id (self : t) (p : peer) : outcome Z :=
  match p with
  | PeerSelf => Returned (replica_id self)
  | PeerReplica id _ _ _ => Returned id
  | PeerStr _ => Raised AttributeError
  end.

Definition peer_address (self : t) (p : peer) : outcome (string * Z) :=
  match p with
  | PeerSelf => Returned (host self, port self)
  | PeerReplica _ h pt _ => Returned (h, pt)
  | PeerStr _ => Raised AttributeError
  end.

Definition peer_version_vector (self : t) (p : peer)
  : outcome (list (Z * list VersionVectorEntry.t)) :=
  match p with
  | PeerSelf => Returned (version_vector self)
  | PeerReplica _ _ _ vv => Returned vv
  | PeerStr _ => Raised AttributeError
  end.

(** [p == q] on elements of [self.replicas]: replicas by identity (their
    ids are distinct, being drawn from [_id_counter]), strings by value. *)
Definition peer_eqb (self : t) (p q : peer) : bool :=
  match p, q with
  | PeerStr s, PeerStr s' => bool_decide (s = s')
  | PeerStr _, _ | _, PeerStr _ => false
  | _, _ =>
      match peer_replica_id self p, peer_replica_id self q with
      | Returned i, Returned j => bool_decide (i = j)
      | _, _ => false
      end
  end.

Definition peer_of_found (x : found peer) : peer :=
  match x with
  | Found p => p
  | NotFound s => PeerStr s
  end.

Definition find_client (self : t) (client_id : Z) : found Client.t :=
  match find (fun c => bool_decide (Client.client_id c = client_id)) (clients self) with
  | Some c => Found c
  | None => NotFound "Client not found"
  end.

Fixpoint find_replica_in (self : t) (l : list peer) (replica_id : Z)
  : outcome (found peer) :=
  match l with
  | [] => Returned (NotFound "Replica not found")
  | p :: l' =>
      id <~ peer_replica_id self p ;;
      if bool_decide (id = replica_id) then Returned (Found p)
      else find_replica_in self l' replica_id
  end.

Definition find_replica (self : t) (replica_id : Z) : outcome (found peer) :=
  find_replica_in self (replicas self) replica_id.

Definition add_replica (replica : peer) : Py t event unit :=
  self <- get ;;
  if existsb (peer_eqb self replica) (replicas self) then ret tt
  else modify (set_replicas (replicas self ++ [replica])).

(** The first lines of the three replica-to-replica handlers. *)
Definition note_sender (replica_id : Z) : Py t event unit :=
  self <- get ;;
  replica <- lift (find_replica self replica_id) ;;
  if existsb (peer_eqb self (peer_of_found replica)) (replicas self) then ret tt
  else add_replica (peer_of_found replica).

Definition start_timer : Py t event unit :=
  self <- get ;;
  if timer self then ret tt
  else modify (set_timer true) ;;; emit (TimerStart VIEW_TIMEOUT).

Definition multicast_message (message : payload) : Py t event unit :=
  self <- get ;;
  for_each (replicas self)
    (fun replica =>
       a <- lift (peer_address self replica) ;;
       emit (Send a.1 a.2 message)).

(** [send_reply]: the reply is whatever the caller holds, an object, a
    string or [None]. *)
Definition send_reply (client_id : Z) (reply_message : option cached) : Py t event unit :=
  self <- get ;;
  match find_client self client_id with
  | NotFound _ => raise AttributeError
  | Found c =>
      match reply_message with
      | None => raise AttributeError
      | Some (CachedReply r) => emit (Send (Client.host c) (Client.port c) (MsgReply r))
      | Some (CachedStr s) => emit (Send (Client.host c) (Client.port c) (MsgStr s))
      end
  end.

(** The cases of [create_message]. *)
Definition create_pre_prepare (self : t) (view sequence_number : Z) (message : pyval)
  : PrePrepareMessage.t :=
  PrePrepareMessage.mk (replica_id self) view sequence_number message.
Definition create_prepare (self : t) (view sequence_number : Z) (message : pyval)
  : PrepareMessage.t :=
  PrepareMessage.mk (replica_id self) view sequence_number message.
Definition create_reply (self : t) (addr : nat) (client_id : Z) (timestamp : float)
    (result : result_val) (view sequence_number : Z) (message : hcd_val)
  : ReplyMessage.t :=
  ReplyMessage.init addr client_id timestamp result (replica_id self) view
                    sequence_number message.

(** [execute_operation] prints and returns [True]. *)
Definition execute_operation (operation : string) : Py t event bool :=
  self <- get ;;
  emit (Print ("Replica " +:+ str_int (replica_id self)
               +:+ " executed operation: " +:+ operation)) ;;;
  ret true.

(** The addresses [multicast_message] reaches before it meets an
    element that is not a [Replica]. *)
Fixpoint leading_addresses (self : t) (l : list peer) : list (string * Z) :=
  match l with
  | [] => []
  | p :: l' =>
      match peer_address self p with
      | Returned a => a :: leading_addresses self l'
      | Raised _ => []
      end
  end.

Definition all_replicas (l : list peer) : bool :=
  forallb (fun p => match p with PeerStr _ => false | _ => true end) l.

(** [self.hcd.get_chain() != [] and cmp(data.timestamp, last.timestamp)] *)
Definition against_last_block (cmp : float -> float -> bool) (self : t)
    (data : RequestMessage.t) : bool :=
  negb (bool_decide (hcd self = []))
  && match HashChainDigest.get_last_block (hcd self) with
     | Some b => cmp (RequestMessage.timestamp data) (HashChainBlock.timestamp b)
     | None => false
     end.

(** The guard of the first [if] of [receive_request]. *)
Definition not_cached (self : t) (data : RequestMessage.t) : outcome bool :=
  match ReplyCache.get_reply (reply_cache self) (RequestMessage.client_id data) with
  | None => Returned true
  | Some (CachedReply r) =>
      Returned (negb (bool_decide (RequestMessage.to_string data
                                   = ReplyMessage.to_string r)))
  | Some (CachedStr _) => Raised AttributeError
  end.

(** The guard on the client's known state. *)
Definition known_state_ok (self : t) (client_a : found Client.t)
    (data : RequestMessage.t) : outcome bool :=
  match client_a with
  | NotFound _ => Raised AttributeError
  | Found c =>
      state <~ VersionVector.get_current_system_state
                 (Client.version_vector c) (f self) ;;
      match state with
      | None => Returned true
      | Some s =>
          match ReplyCache.get_reply (reply_cache self)
                  (RequestMessage.client_id data) with
          | Some (CachedReply r) =>
              Returned (bool_decide (VersionVectorEntry.hcd s
                                     = Entry.hcd (ReplyMessage.entry r)))
          | _ => Raised AttributeError
          end
      end
  end.

Definition receive_request (data : RequestMessage.t) : Py t event unit :=
  self <- get ;;
  let client_a := find_client self (RequestMessage.client_id data) in
  fresh <- lift (not_cached self data) ;;
  if fresh then
    if against_last_block Z.ltb self data then ret tt
    else if against_last_block Z.eqb self data then
      send_reply (RequestMessage.client_id data)
        (ReplyCache.get_reply (reply_cache self) (RequestMessage.client_id data)) ;;;
      start_timer
    else
      ok <- lift (known_state_ok self client_a data) ;;
      if ok then
        modify (set_accepted_requests (accepted_requests self ++ [data])) ;;;
        (if is_primary self then
           let sequence_number :=
             match HashChainDigest.get_last_block (hcd self) with
             | Some b => HashChainBlock.sequence_number b + 1
             | None => 0
             end in
           multicast_message
             (MsgPrePrepare (create_pre_prepare self (view self) sequence_number
                                                (PyRequest data)))
         else ret tt) ;;;
        start_timer
      else ret tt
  else ret tt.

(** A stored pre-prepare with the sequence number of [data] and another
    request. *)
Definition conflicts (data received : PrePrepareMessage.t) : bool :=
  (PrePrepareMessage.sequence_number received =? PrePrepareMessage.sequence_number data)
  && negb (pyval_eqb (PrePrepareMessage.request_msg received)
                     (PrePrepareMessage.request_msg data)).

Definition out_of_window (self : t) (data : PrePrepareMessage.t) : bool :=
  match HashChainDigest.get_last_block (hcd self) with
  | Some b =>
      (HashChainBlock.sequence_number b + 2 <? PrePrepareMessage.sequence_number data)
      || (PrePrepareMessage.sequence_number data <? HashChainBlock.sequence_number b - 2)
  | None => false
  end.

Definition receive_pre_prepare (data : PrePrepareMessage.t) : Py t event unit :=
  note_sender (PrePrepareMessage.primary_replica_id data) ;;;
  self <- get ;;
  (if bool_decide (received_pre_prepare_messages self = [])
   then modify (set_received_pre_prepare_messages [data])
   else ret tt) ;;;
  self <- get ;;
  if existsb (conflicts data) (received_pre_prepare_messages self) then ret tt
  else if out_of_window self data then ret tt
  else
    modify (set_received_pre_prepare_messages
              (received_pre_prepare_messages self ++ [data])) ;;;
    multicast_message
      (MsgPrepare (create_prepare self (view self)
                     (PrePrepareMessage.sequence_number data)
                     (PrePrepareMessage.request_msg data))).

(** The commits counted towards the quorum of [data]. *)
Definition matching_commit (data received : CommitMessage.t) : bool :=
  (CommitMessage.sequence_number received =? CommitMessage.sequence_number data)
  && bool_decide (CommitMessage.hcd received = CommitMessage.hcd data).

Definition commit_total (self : t) (data : CommitMessage.t) : Z :=
  fold_left (fun total received =>
               if matching_commit data received then total + 1 else total)
            (received_commit_messages self) 0.

(** The body of the checkpoint loop for one element of [self.replicas];
    [self.sign] does not exist. *)
Definition checkpoint_entry (data : CommitMessage.t) (replica : peer) : Py t event unit :=
  self <- get ;;
  vv <- lift (peer_version_vector self replica) ;;
  if VersionVector.is_empty vv then
    id <- lift (peer_replica_id self replica) ;;
    e <- lift (VersionVector.get_entry vv (KInt (replica_id self)) id) ;;
    if VersionVectorEntry.sequence_number e
       <=? CommitMessage.sequence_number data - 2 * I
    then raise AttributeError
    else ret tt
  else ret tt.

(** The commit store once [data] has been recorded. *)
Definition recorded_commits (self : t) (data : CommitMessage.t) : list CommitMessage.t :=
  if existsb (fun c => bool_decide (CommitMessage.addr c = CommitMessage.addr data))
             (received_commit_messages self)
  then received_commit_messages self
  else received_commit_messages self ++ [data].

(** Lines 369-378 of [receive_commit]: the sender is noted, the version
    vector and the commit store are updated, and the matching commits
    are counted. *)
Definition count_commits (data : CommitMessage.t) : Py t event Z :=
  note_sender (CommitMessage.replica_id data) ;;;
  modify (fun self =>
    set_version_vector
      (VersionVector.update_entry (version_vector self) (replica_id self)
         (CommitMessage.replica_id data) (view self)
         (CommitMessage.sequence_number data) (CommitMessage.hcd data)) self) ;;;
  self <- get ;;
  (if existsb (fun c => bool_decide (CommitMessage.addr c = CommitMessage.addr data))
              (received_commit_messages self)
   then ret tt
   else modify (set_received_commit_messages (received_commit_messages self ++ [data]))) ;;;
  self <- get ;;
  ret (commit_total self data).

(** Lines 380-383: the request the reply is built from. *)
Definition select_request (self : t) : outcome RequestMessage.t :=
  let n := Z.of_nat (length (accepted_requests self)) in
  if 0 <? n then py_index (accepted_requests self) (n - 1)
  else py_index (accepted_requests self) 0.

Definition receive_commit (data : CommitMessage.t) : Py t event unit :=
  total <- count_commits data ;;
  self <- get ;;
  if 2 * f self + 1 <=? total then
    msg_n <- lift (select_request self) ;;
    let client_id := RequestMessage.client_id msg_n in
    result <- execute_operation (RequestMessage.operation msg_n) ;;
    (if result then
       let reply_message :=
         create_reply self (heap_next self) client_id (RequestMessage.timestamp msg_n)
                      (ResBool result) (view self) (CommitMessage.sequence_number data)
                      (HcdRef (hcd_addr self)) in
       modify (set_heap_next (S (heap_next self))) ;;;
       modify (fun s => set_reply_cache
                 (ReplyCache.update_cache (reply_cache s) client_id
                    (CachedStr (ReplyMessage.to_string reply_message))) s) ;;;
       send_reply client_id (Some (CachedReply reply_message))
     else ret tt) ;;;
    m <- lift (py_mod (CommitMessage.sequence_number data) CHECKPOINT_INTERVAL) ;;
    if m =? 0 then
      self <- get ;;
      let rcache_n := ReplyCache.get_reply (reply_cache self) client_id in
      for_each (replicas self) (checkpoint_entry data) ;;;
      let checkpoint_message :=
        CheckpointMessage.mk (replica_id self) (CommitMessage.sequence_number data)
                             rcache_n (version_vector self) [] in
      modify (fun s => set_pending_checkpoints
                (<[CommitMessage.sequence_number data := checkpoint_message]>
                   (pending_checkpoints s)) s) ;;;
      multicast_message (MsgCheckpoint checkpoint_message)
    else ret tt
  else ret tt.

Section ViewChange.
(** Lines 415-447 of [replica.py], which build and multicast the
    NEW_VIEW message, are taken as a continuation. *)
Variable new_view_tail : ViewChangeMessage.t -> Py t event unit.

(** The reply to a sender that is behind.  The argument of [connect] is
    [data.get_version_vector_entry().get_replica()], a method that
    [VersionVectorEntry] does not have, and the argument of [send] is
    [MessageType.PRIMARY_NOT_DOMINANT.encode()], which an enumeration
    member does not have either. *)
Definition reply_not_dominant (data : ViewChangeMessage.t) : Py t event unit :=
  address <- lift (@Raised (string * Z) AttributeError) ;;
  bytes <- lift (@Raised string AttributeError) ;;
  emit (Send address.1 address.2 (MsgStr bytes)).

Definition receive_view_change (data : ViewChangeMessage.t) : Py t event unit :=
  self <- get ;;
  modify (set_received_view_change_messages
            (received_view_change_messages self ++ [data])) ;;;
  let theirs := ViewChangeMessage.version_vector_entry data in
  own <- lift (VersionVector.get_entry (version_vector self)
                 (KInt (replica_id self)) (replica_id self)) ;;
  behind <-
    (if VersionVectorEntry.view theirs <? VersionVectorEntry.view own then ret true
     else
       own' <- lift (VersionVector.get_entry (version_vector self)
                       (KMethod "get_replica_id") (replica_id self)) ;;
       ret (VersionVectorEntry.sequence_number theirs
            <? VersionVectorEntry.sequence_number own')) ;;
  (if behind : bool then reply_not_dominant data else ret tt) ;;;
  new_view_tail data.
End ViewChange.
End Replica.

(** The order of the specification on [(view, seq)] pairs. *)
Definition lex_behind (e own : VersionVectorEntry.t) : bool :=
  (VersionVectorEntry.view e <? VersionVectorEntry.view own)
  || ((VersionVectorEntry.view e =? VersionVectorEntry.view own)
      && (VersionVectorEntry.sequence_number e <? VersionVectorEntry.sequence_number own)).

(** ** Running a handler *)

Definition final_state {S E A} (r : S * list E * outcome A) : S := r.1.1.
Definition events_of {S E A} (r : S * list E * outcome A) : list E := r.1.2.
Definition outcome_of {S E A} (r : S * list E * outcome A) : outcome A := r.2.

(** ** Concrete configurations *)

Module Scenario.
(** [tests/test_normal_scenario.py]: [f = 0], one client, replicas 0 and
    1, each knowing itself and the other; replica 0 is the primary of
    view 0. *)
Definition client0 : Client.t := Client.mk "localhost" 6000 0 [] 0 [] [].

Definition replica0 : Replica.t :=
  Replica.mk "localhost" 5000 0 0 0 ∅ [] 100 [] [client0]
             [PeerSelf; PeerReplica 1 "localhost" 5001 []]
             true [] [] [] [] [] ∅ false 200.

Definition request : RequestMessage.t := RequestMessage.mk 1 "log in" 5 0 "None".

(** The pre-prepare replica 0 multicasts for [request], as replica 0
    reads it back from the wire. *)
Definition pre_prepare0 : PrePrepareMessage.t :=
  PrePrepareMessage.mk 0 0 0 (PyStr (py_str (PyRequest request))).

(** A commit of replica 1 for sequence number 1. *)
Definition commit1 : CommitMessage.t := CommitMessage.mk 2 1 0 1 (HcdStr "h").

(** Replica 0 after it accepted [request] and then reached the commit
    quorum (one commit, as [f = 0]). *)
Definition replica0_replied : Replica.t :=
  final_state ((Replica.receive_request request ;;; Replica.receive_commit commit1)
                 replica0).

(** A replica of a system with [f = 1] whose own last committed entry is
    at view 1, sequence number 5, and a view change of replica 1 whose
    last committed entry is at view 0, sequence number 0. *)
Definition replica_ahead : Replica.t :=
  Replica.mk "localhost" 5000 1 0 1 ∅
             [(0, [VersionVectorEntry.mk 0 1 5 (HcdStr "h5")])] 100 [] []
             [PeerSelf; PeerReplica 1 "localhost" 5001 []]
             false [] [] [] [] [] ∅ false 200.

Definition view_change_behind : ViewChangeMessage.t :=
  ViewChangeMessage.mk 2 1 (VersionVectorEntry.mk 1 0 0 (HcdStr "h0")) [].

(** A client of a system with [f = 1] with one outstanding request, and
    the replies of replicas 0, 1 and 2 to it, equal but for the signer. *)
Definition client1 : Client.t :=
  Client.mk "localhost" 6000 0 [] 1 [] [request].

Definition reply_of (replica_id : Z) : ReplyMessage.t :=
  ReplyMessage.init (10 + Z.to_nat replica_id) 0 5 (ResStr "True")
                    replica_id 0 0 (HcdStr "h").

(** The version vector of a client that matched replies of replicas 0, 1
    and 2 at sequence number 5: one principal, three entries. *)
Definition one_principal_vector : VersionVector.t :=
  VersionVector.update_entry
    (VersionVector.update_entry
       (VersionVector.update_entry [] 7 0 0 5 (HcdStr "h"))
       7 1 0 5 (HcdStr "h"))
    7 2 0 5 (HcdStr "h").

(** Replica 0 with a [ReplyMessage] object for client 0 in its cache
    (timestamp 5) and an empty hash chain. *)
Definition replica0_cached_object : Replica.t :=
  Replica.set_reply_cache
    (ReplyCache.update_cache ∅ 0
       (CachedReply (ReplyMessage.init 200 0 5 (ResBool true) 0 0 1 (HcdRef 100))))
    replica0.

(** A replica with [f = 0] that accepted no request. *)
Definition replica_idle : Replica.t := replica0.
End Scenario.


(** * Further definitions *)

(** ** The order in which [get_current_system_state] meets the pairs *)

(** The keys of a list in the order of their first occurrence: the keys
    of a dictionary filled by reading the list from left to right,
    starting from the keys [acc]. *)
Definition first_keys_from {K} `{EqDecision K} (acc l : list K) : list K :=
  fold_left (fun acc k => if decide (k ∈ acc) then acc else acc ++ [k]) l acc.

Definition first_keys {K} `{EqDecision K} (l : list K) : list K :=
  first_keys_from [] l.

(** ** Further configurations *)

Module Scenario2.
(** A client's version vector after one reply at sequence number 1 and
    three replies, of replicas 0, 1 and 2, at sequence number 2. *)
Definition vector_two_states : VersionVector.t :=
  VersionVector.update_entry
    (VersionVector.update_entry
       (VersionVector.update_entry
          (VersionVector.update_entry [] 7 0 0 1 (HcdStr "h1"))
          7 2 0 2 (HcdStr "h2"))
       7 1 0 2 (HcdStr "h2"))
    7 0 0 2 (HcdStr "h2").
End Scenario2.

(** ** message_type.py, new_view_message.py *)

Inductive MessageType : Set :=
| PRE_PREPARE | PREPARE | COMMIT | REPLY | REQUEST | VIEW_CHANGE
| PRIMARY_NOT_DOMINANT | OPERATIONS_DICTIONARY | NEW_VIEW | CHECKPOINT.

(** [m.get_message_type()] on what a list of messages may hold; a string
    has no such method. *)
Definition get_message_type (m : payload) : outcome MessageType :=
  match m with
  | MsgPrePrepare _ => Returned PRE_PREPARE
  | MsgPrepare _ => Returned PREPARE
  | MsgCommit _ => Returned COMMIT
  | MsgReply _ => Returned REPLY
  | MsgCheckpoint _ => Returned CHECKPOINT
  | MsgStr _ => Raised AttributeError
  end.

Module NewViewMessage.
(** [V] and [O] as the lists the constructor is documented to take. *)
Record t : Set := mk {
  view : Z;
  V : list ViewChangeMessage.t;
  O : list payload;
}.
End NewViewMessage.

(** ** replica.py, continued *)

Module ReplicaRest.
Import Replica.

Definition set_view (v : Z) (r : t) : t :=
  mk (host r) (port r) (f r) (replica_id r) v (reply_cache r) (version_vector r)
     (hcd_addr r) (hcd r) (clients r) (replicas r) (primary r) (accepted_requests r)
     (received_pre_prepare_messages r) (received_prepare_messages r)
     (received_commit_messages r) (received_view_change_messages r)
     (pending_checkpoints r) (timer r) (heap_next r).
Definition set_hcd (v : list HashChainBlock.t) (r : t) : t :=
  mk (host r) (port r) (f r) (replica_id r) (view r) (reply_cache r) (version_vector r)
     (hcd_addr r) v (clients r) (replicas r) (primary r) (accepted_requests r)
     (received_pre_prepare_messages r) (received_prepare_messages r)
     (received_commit_messages r) (received_view_change_messages r)
     (pending_checkpoints r) (timer r) (heap_next r).
Definition set_received_prepare_messages (v : list PrepareMessage.t) (r : t) : t :=
  mk (host r) (port r) (f r) (replica_id r) (view r) (reply_cache r) (version_vector r)
     (hcd_addr r) (hcd r) (clients r) (replicas r) (primary r) (accepted_requests r)
     (received_pre_prepare_messages r) v
     (received_commit_messages r) (received_view_change_messages r)
     (pending_checkpoints r) (timer r) (heap_next r).

(** The two counts of [receive_prepare]: the stored prepares with the
    request of [data], and the stored pre-prepares with its sequence
    number. *)
Definition total_matching_prepare (self : t) (data : PrepareMessage.t) : Z :=
  fold_left (fun total received =>
               if pyval_eqb (PrepareMessage.request_msg received)
                            (PrepareMessage.request_msg data)
               then total + 1 else total)
            (received_prepare_messages self) 0.

Definition total_matching_sequence_number (self : t) (data : PrepareMessage.t) : Z :=
  fold_left (fun total received =>
               if PrePrepareMessage.sequence_number received
                  =? PrepareMessage.sequence_number data
               then total + 1 else total)
            (received_pre_prepare_messages self) 0.

(** [receive_prepare], called as the listen loop calls it: with a message
    it has just deserialized, a new object, which is therefore in no list
    yet ([PrepareMessage] defines no [__eq__]).  [now] is the value of
    [time.time()] when the block is built. *)
Definition receive_prepare (now : float) (data : PrepareMessage.t) : Py t event unit :=
  note_sender (PrepareMessage.replica_id data) ;;;
  modify (fun self =>
    set_received_prepare_messages (received_prepare_messages self ++ [data]) self) ;;;
  self <- get ;;
  if 2 * f self <=? total_matching_prepare self data then
    if 2 * f self <=? total_matching_sequence_number self data then
      modify (set_hcd (HashChainDigest.add_block (hcd self) now
                         (PrepareMessage.request_msg data)
                         (PrepareMessage.sequence_number data))) ;;;
      modify (set_version_vector
                (VersionVector.update_entry (version_vector self) (replica_id self)
                   (replica_id self) (view self) (PrepareMessage.sequence_number data)
                   (HcdRef (hcd_addr self)))) ;;;
      modify (set_heap_next (S (heap_next self))) ;;;
      multicast_message
        (MsgCommit (CommitMessage.mk (heap_next self) (replica_id self) (view self)
                      (PrepareMessage.sequence_number data) (HcdRef (hcd_addr self))))
    else ret tt
  else ret tt.

Section NewView.
(** Lines 466-468 of [replica.py], the re-issue of the messages of [O],
    are taken as a continuation. *)
Variable reissue : NewViewMessage.t -> Py t event unit.

(** The guard of line 465, [O] being a list: [O[0]] must exist and have a
    message type, and [O[1:]], a list, has no [get_message_type]. *)
Definition reissue_guard (O : list payload) : outcome bool :=
  first <~ py_index O 0 ;;
  ty <~ get_message_type first ;;
  match ty with
  | PRE_PREPARE =>
      rest_ty <~ @Raised MessageType AttributeError ;;
      Returned (match rest_ty with PREPARE => true | _ => false end)
  | _ => Returned false
  end.

Definition receive_new_view (data : NewViewMessage.t) : Py t event unit :=
  self <- get ;;
  if NewViewMessage.view data <=? view self then ret tt
  else
    modify (set_view (NewViewMessage.view data)) ;;;
    for_each (NewViewMessage.V data)
      (fun _ =>
         ok <- lift (reissue_guard (NewViewMessage.O data)) ;;
         if ok : bool then reissue data else ret tt).

(** A call of one of the handlers, and a run of calls, which ends with the
    first exception as the listen thread does. *)
Inductive call : Set :=
| CallRequest (data : RequestMessage.t)
| CallPrePrepare (data : PrePrepareMessage.t)
| CallPrepare (now : float) (data : PrepareMessage.t)
| CallCommit (data : CommitMessage.t)
| CallNewView (data : NewViewMessage.t).

Definition handle (c : call) : Py t event unit :=
  match c with
  | CallRequest data => receive_request data
  | CallPrePrepare data => receive_pre_prepare data
  | CallPrepare now data => receive_prepare now data
  | CallCommit data => receive_commit data
  | CallNewView data => receive_new_view data
  end.

Definition handle_all (cs : list call) : Py t event unit := for_each cs handle.
End NewView.

Definition is_prepare_call (c : call) : bool :=
  match c with CallPrepare _ _ => true | _ => false end.

(** What no handler undoes: the configuration is the same, the lists and
    the hash chain have only grown at their end, an armed timer is still
    armed, the view and the allocator have not gone back.  [appended]
    tells whether the hash chain may have grown. *)
Record grows (appended : bool) (s s' : t) : Prop := mk_grows {
  grows_hcd_same : appended = false -> hcd s' = hcd s;
  grows_host : host s' = host s;
  grows_port : port s' = port s;
  grows_f : f s' = f s;
  grows_replica_id : replica_id s' = replica_id s;
  grows_hcd_addr : hcd_addr s' = hcd_addr s;
  grows_clients : clients s' = clients s;
  grows_primary : primary s' = primary s;
  grows_view : view s <= view s';
  grows_timer : timer s = true -> timer s' = true;
  grows_heap_next : (heap_next s <= heap_next s')%nat;
  grows_hcd : hcd s `prefix_of` hcd s';
  grows_replicas : replicas s `prefix_of` replicas s';
  grows_accepted_requests : accepted_requests s `prefix_of` accepted_requests s';
  grows_pre_prepares :
    received_pre_prepare_messages s `prefix_of` received_pre_prepare_messages s';
  grows_prepares : received_prepare_messages s `prefix_of` received_prepare_messages s';
  grows_commits : received_commit_messages s `prefix_of` received_commit_messages s';
  grows_view_changes :
    received_view_change_messages s `prefix_of` received_view_change_messages s';
}.
End ReplicaRest.

(** ** A configuration with [f = 1] *)

Module PrepareScenario.
(** Replica 0 of a system with [f = 1] that knows itself and replica 1. *)
Definition replica_f1 : Replica.t :=
  Replica.mk "localhost" 5000 1 0 0 ∅ [] 100 [] [Scenario.client0]
             [PeerSelf; PeerReplica 1 "localhost" 5001 []]
             true [] [] [] [] [] ∅ false 200.

(** A PREPARE of replica 1 for the request of [Scenario.pre_prepare0]. *)
Definition prepare1 : PrepareMessage.t :=
  PrepareMessage.mk 1 0 0 (PyStr (py_str (PyRequest Scenario.request))).

(** The replica after the pre-prepare and one PREPARE of replica 1. *)
Definition replica_f1_one_prepare : Replica.t :=
  final_state ((Replica.receive_pre_prepare Scenario.pre_prepare0 ;;;
                ReplicaRest.receive_prepare 10 prepare1) replica_f1).
End PrepareScenario.

(** ** The checkpoint loop of [receive_commit] *)

(** An element of [self.replicas] that is a replica whose version vector
    is not empty. *)
Definition has_entries (self : Replica.t) (p : peer) : bool :=
  match Replica.peer_version_vector self p with
  | Returned vv => negb (VersionVector.is_empty vv)
  | Raised _ => false
  end.

(** ** client.py, continued *)

(** The body of the loop of lines 198-199 of [handle_reply]: the entry of
    a received reply is stored under the id of the client. *)
Definition store_entry (c : Client.t) (received_reply : ReplyMessage.t) : Client.t :=
  let e := ReplyMessage.entry received_reply in
  Client.set_version_vector
    (VersionVector.update_entry (Client.version_vector c) (Client.client_id c)
       (Entry.replica_id e) (Entry.view e) (Entry.sequence_number e) (Entry.hcd e)) c.

(** ** Counting the events of a run *)

Definition count_events (P : event -> bool) (evs : list event) : nat :=
  length (List.filter P evs).

Definition is_timer_start (e : event) : bool :=
  match e with TimerStart _ => true | _ => false end.

Definition is_pre_prepare_send (e : event) : bool :=
  match e with Send _ _ (MsgPrePrepare _) => true | _ => false end.

Definition is_commit_send (e : event) : bool :=
  match e with Send _ _ (MsgCommit _) => true | _ => false end.

(** [tracks Inv P mu m]: from a state that satisfies [Inv], the
    computation [m] ends in a state that satisfies [Inv], and the number
    of its events that satisfy [P] is the growth of the measure [mu]. *)
Definition tracks {A} (Inv : Replica.t -> Prop) (P : event -> bool)
    (mu : Replica.t -> nat) (m : Py Replica.t event A) : Prop :=
  forall s, Inv s ->
    Inv (final_state (m s))
    /\ (count_events P (events_of (m s)) + mu s = mu (final_state (m s)))%nat.

(** The measure of the timer: 1 when it is armed. *)
Definition armed (s : Replica.t) : nat := if Replica.timer s then 1%nat else 0%nat.

(** ** The wire format: [to_string] and [deserialize_message] *)

(** [s.split(sep)] for a non-empty separator: the pieces between the
    occurrences of [sep], found from left to right without overlap.
    [cur] is the piece being read and [skip] the number of characters of
    a separator just found that are still to be passed. *)
Fixpoint split_go (sep s cur : string) (skip : nat) : list string :=
  match s with
  | EmptyString => [cur]
  | String c s' =>
      match skip with
      | S k => split_go sep s' cur k
      | O =>
          if String.prefix sep s
          then cur :: split_go sep s' "" (String.length sep - 1)
          else split_go sep s' (cur +:+ String c "") 0
      end
  end.

Definition py_split (sep s : string) : list string := split_go sep s "" 0.

(** [sep.join(l)] *)
Fixpoint py_join (sep : string) (l : list string) : string :=
  match l with
  | [] => ""
  | [a] => a
  | a :: l' => a +:+ sep +:+ py_join sep l'
  end.

(** The character [c] does not occur in [s]. *)
Fixpoint no_char (c : ascii) (s : string) : bool :=
  match s with
  | EmptyString => true
  | String d s' => negb (Ascii.eqb d c) && no_char c s'
  end.

(** A string that can be a field of a message: it holds no comma and no
    colon, so it holds neither of the separators [', '] and [': ']. *)
Definition plain (s : string) : bool := no_char "," s && no_char ":" s.

(** [component.split(': ')[i]] *)
Definition field_at (component : string) (i : Z) : outcome string :=
  py_index (py_split ": " component) i.

(** [list(s)]: the characters of a string. *)
Fixpoint py_list_of_str (s : string) : list string :=
  match s with
  | EmptyString => []
  | String c s' => String c "" :: py_list_of_str s'
  end.

Module PrePrepareWire.
Definition to_string (self : PrePrepareMessage.t) : string :=
  Message_to_string "MessageType.PRE_PREPARE"
    (str_int (PrePrepareMessage.view self))
    (str_int (PrePrepareMessage.sequence_number self))
  +:+ "Primary Replica ID: " +:+ str_int (PrePrepareMessage.primary_replica_id self)
  +:+ ", Hashed Request Message: " +:+ py_str (PrePrepareMessage.request_msg self).
End PrePrepareWire.

Module PrepareWire.
Definition to_string (self : PrepareMessage.t) : string :=
  Message_to_string "MessageType.PREPARE"
    (str_int (PrepareMessage.view self))
    (str_int (PrepareMessage.sequence_number self))
  +:+ "Replica ID: " +:+ str_int (PrepareMessage.replica_id self)
  +:+ ", Hashed Request Message: " +:+ py_str (PrepareMessage.request_msg self).
End PrepareWire.

Module CommitWire.
Definition to_string (self : CommitMessage.t) : string :=
  Message_to_string "MessageType.COMMIT"
    (str_int (CommitMessage.view self))
    (str_int (CommitMessage.sequence_number self))
  +:+ "Replica ID: " +:+ str_int (CommitMessage.replica_id self)
  +:+ ", HCD: " +:+ hcd_str (CommitMessage.hcd self).
End CommitWire.

(** What [Replica.deserialize_message] builds. *)
Inductive message : Set :=
| MRequest (m : RequestMessage.t)
| MPrePrepare (m : PrePrepareMessage.t)
| MPrepare (m : PrepareMessage.t)
| MCommit (m : CommitMessage.t)
| MViewChange (m : ViewChangeMessage.t).

(** What [Replica.deserialize_message] returns: a message, or the
    exception its [except] clause caught: one of the exceptions above, the
    [TypeError] of [int] applied to a list, or
    [Exception("Invalid message type")]. *)
Inductive deserialized : Set :=
| Message (m : message)
| Error (e : pyexn)
| TypeError
| InvalidMessageType.

Definition of_outcome (o : outcome message) : deserialized :=
  match o with
  | Returned m => Message m
  | Raised e => Error e
  end.

Section Deserialize.
(** The builtins [int] and [float] on strings; a failure is a
    [ValueError]. *)
Variable py_int : string -> option Z.
Variable py_float : string -> option float.

Definition int_of (s : string) : outcome Z :=
  match py_int s with Some z => Returned z | None => Raised ValueError end.

Definition float_of (s : string) : outcome float :=
  match py_float s with Some t => Returned t | None => Raised ValueError end.

(** [components[i].split(': ')[1]] *)
Definition value_of (components : list string) (i : Z) : outcome string :=
  component <~ py_index components i ;; field_at component 1.

(** [Replica.deserialize_message]; [addr] is the address of the object
    that is built.  The arguments of a constructor are evaluated from
    left to right. *)
Definition deserialize_message (addr : nat) (msg : string) : deserialized :=
  let components := py_split ", " msg in
  match value_of components 0 with
  | Raised e => Error e
  | Returned ty =>
      if String.eqb ty "MessageType.REQUEST" then
        of_outcome
          (operation <~ value_of components 4 ;;
           timestamp <~ (s <~ value_of components 5 ;; float_of s) ;;
           client_id <~ (s <~ value_of components 3 ;; int_of s) ;;
           current_system_state <~ value_of components 6 ;;
           Returned (MRequest (RequestMessage.mk addr operation timestamp client_id
                                 current_system_state)))
      else if String.eqb ty "MessageType.PRE_PREPARE" then
        of_outcome
          (primary_replica_id <~ (s <~ value_of components 3 ;; int_of s) ;;
           view <~ (s <~ value_of components 1 ;; int_of s) ;;
           sequence_number <~ (s <~ value_of components 2 ;; int_of s) ;;
           request_msg <~ value_of components 4 ;;
           Returned (MPrePrepare (PrePrepareMessage.mk primary_replica_id view
                                    sequence_number (PyStr request_msg))))
      else if String.eqb ty "MessageType.PREPARE" then
        of_outcome
          (replica_id <~ (s <~ value_of components 3 ;; int_of s) ;;
           view <~ (s <~ value_of components 1 ;; int_of s) ;;
           sequence_number <~ (s <~ value_of components 2 ;; int_of s) ;;
           request_msg <~ value_of components 4 ;;
           Returned (MPrepare (PrepareMessage.mk replica_id view sequence_number
                                 (PyStr request_msg))))
      else if String.eqb ty "MessageType.COMMIT" then
        of_outcome
          (replica_id <~ (s <~ value_of components 3 ;; int_of s) ;;
           view <~ (s <~ value_of components 1 ;; int_of s) ;;
           sequence_number <~ (s <~ value_of components 2 ;; int_of s) ;;
           hcd <~ value_of components 4 ;;
           Returned (MCommit (CommitMessage.mk addr replica_id view sequence_number
                                (HcdStr hcd))))
      else if String.eqb ty "MessageType.VIEW_CHANGE" then
        of_outcome
          (new_view <~ (s <~ value_of components 1 ;; int_of s) ;;
           replica_id <~ (s <~ value_of components 2 ;; int_of s) ;;
           vv_replica_id <~ (s <~ value_of components 3 ;; int_of s) ;;
           vv_view <~ (s <~ value_of components 4 ;; int_of s) ;;
           vv_sequence_number <~ (s <~ value_of components 5 ;; int_of s) ;;
           vv_hcd <~ value_of components 6 ;;
           P <~ value_of components 7 ;;
           Returned (MViewChange
                       (ViewChangeMessage.mk new_view replica_id
                          (VersionVectorEntry.mk vv_replica_id vv_view vv_sequence_number
                             (HcdStr vv_hcd))
                          (py_list_of_str P))))
      else if String.eqb ty "MessageType.NEW_VIEW" then
        match py_index components 1 with
        | Raised e => Error e
        | Returned _ => TypeError
        end
      else InvalidMessageType
  end.

(** [Client.deserialize_message]: a [ReplyMessage], or [None] for the
    [Exception("Invalid message")] it returns in every other case. *)
Definition client_deserialize_message (addr : nat) (msg : string)
  : option ReplyMessage.t :=
  let components := py_split ", " msg in
  match value_of components 0 with
  | Raised _ => None
  | Returned ty =>
      if String.eqb ty "MessageType.REPLY" then
        match
          (client_id <~ (s <~ value_of components 3 ;; int_of s) ;;
           timestamp <~ (s <~ value_of components 4 ;; float_of s) ;;
           result <~ value_of components 5 ;;
           replica_id <~ (s <~ (component <~ py_index components 6 ;;
                                field_at component 2) ;; int_of s) ;;
           view <~ (s <~ value_of components 7 ;; int_of s) ;;
           sequence_number <~ (s <~ value_of components 8 ;; int_of s) ;;
           hcd <~ value_of components 9 ;;
           Returned (ReplyMessage.init addr client_id timestamp (ResStr result)
                       replica_id view sequence_number (HcdStr hcd)))
        with
        | Returned m => Some m
        | Raised _ => None
        end
      else None
  end.
End Deserialize.

(** Parsers of the strings [str] prints for an integer and for an
    integer-valued float. *)
Definition decimal_int (s : string) : option Z :=
  match DecimalString.NilEmpty.int_of_string s with
  | Some d => Some (Z.of_int d)
  | None => None
  end.

Fixpoint strip_dot0 (s : string) : option string :=
  match s with
  | EmptyString => None
  | String c s' =>
      if String.eqb s ".0" then Some ""
      else match strip_dot0 s' with
           | Some p => Some (String c p)
           | None => None
           end
  end.

Definition decimal_float (s : string) : option float :=
  match strip_dot0 s with
  | Some p => decimal_int p
  | None => None
  end.

(** * Properties *)

(** ** Checks of the embedding against known values *)

Example sha256_abc :
  SHA256.hexdigest "abc"
  = "ba7816bf8f01cfea414140de5dae2223b00361a396177a9cb410ff61f20015ad"%string.
Proof. vm_compute. reflexivity. Qed.

Example sha256_empty :
  SHA256.hexdigest ""
  = "e3b0c44298fc1c149afbf4c8996fb92427ae41e4649b934ca495991b7852b855"%string.
Proof. vm_compute. reflexivity. Qed.

Example sha256_two_blocks :
  SHA256.hexdigest "abcdbcdecdefdefgefghfghighijhijkijkljklmklmnlmnomnopnopq"
  = "248d6a61d20638b8e5c026930c3e6039a33ce45964ff2167f6ecedd419db06c1"%string.
Proof. vm_compute. reflexivity. Qed.

Example request_to_string_test :
  RequestMessage.to_string (RequestMessage.mk 0 "Login" 1622337200 1 "Initial State")
  = "Type: MessageType.REQUEST, View: None, Sequence Number: None, Client ID: 1, Operation: Login, Timestamp: 1622337200.0, Current System State: Initial State"%string.
Proof. reflexivity. Qed.

(** ** The hash chain *)

Arguments SHA256.hexdigest : simpl never.

Lemma add_block_prev (chain : HashChainDigest.t) :
  (if Z.of_nat (length chain) =? 0 then "0"%string
   else match last chain with Some b => HashChainBlock.hash b | None => "0"%string end)
  = HashChainDigest.prev_of chain.
Proof.
  unfold HashChainDigest.prev_of. destruct chain as [|b chain]; [reflexivity|].
  destruct (Z.eqb_spec (Z.of_nat (length (b :: chain))) 0) as [E|_];
    [simpl in E; lia | reflexivity].
Qed.

Lemma add_block_unfold (chain : HashChainDigest.t) now d n :
  HashChainDigest.add_block chain now d n
  = chain ++ [HashChainBlock.mk d n now (HashChainDigest.prev_of chain)
                (SHA256.hexdigest (py_str d +:+ HashChainDigest.prev_of chain))].
Proof. unfold HashChainDigest.add_block. rewrite add_block_prev. reflexivity. Qed.

Lemma build_chain_snoc calls now d n :
  HashChainDigest.build (calls ++ [(now, d, n)])
  = HashChainDigest.add_block (HashChainDigest.build calls) now d n.
Proof. unfold HashChainDigest.build. rewrite fold_left_app. reflexivity. Qed.

(** The hash of a block does not depend on its sequence number. *)
Lemma calculate_hash_ignores_seq now now' d n n' prev :
  HashChainBlock.hash (HashChainBlock.init now d n prev)
  = HashChainBlock.hash (HashChainBlock.init now' d n' prev).
Proof. reflexivity. Qed.

(** C2, as stated, fails: the block that [add_block] appends to the empty
    chain for data ["x"] and sequence number 0 does not carry the SHA-256 of
    [n || data || prev]. *)
Lemma add_block_hash_with_seq_cex :
  map HashChainBlock.hash (HashChainDigest.add_block [] 0 (PyStr "x") 0)
  <> [SHA256.hexdigest (spec_preimage 0 (PyStr "x") "0")]
  /\ map HashChainBlock.hash (HashChainDigest.add_block [] 0 (PyStr "x") 0)
     = ["b70a14ee1e15d7aa94bd810ec06f4cb77a346e8f33aef6bfeae3d7c4442d7a93"%string]
  /\ map HashChainBlock.hash (HashChainDigest.add_block [] 0 (PyStr "x") 1)
     = map HashChainBlock.hash (HashChainDigest.add_block [] 0 (PyStr "x") 0).
Proof.
  split; [vm_compute; intros H; discriminate H|].
  split; [vm_compute; reflexivity | reflexivity].
Qed.

(** C2, amended: the block appended by [add_block] stores the SHA-256 of
    [str(data)] followed by the previous hash (["0"] on the empty chain);
    the sequence number is stored in the block but is not hashed. *)
Theorem add_block_hash_preimage (chain : HashChainDigest.t) now d n :
  exists b,
    HashChainDigest.add_block chain now d n = chain ++ [b]
    /\ HashChainBlock.data b = d /\ HashChainBlock.sequence_number b = n
    /\ HashChainBlock.previous_hash b = HashChainDigest.prev_of chain
    /\ HashChainBlock.hash b
       = SHA256.hexdigest (py_str d +:+ HashChainDigest.prev_of chain)
    /\ forall n', (HashChainBlock.hash <$> last (HashChainDigest.add_block chain now d n'))
                  = Some (HashChainBlock.hash b).
Proof.
  eexists. rewrite add_block_unfold. split; [reflexivity|]. simpl.
  repeat split. intros n'. rewrite add_block_unfold, last_snoc. reflexivity.
Qed.

(** C3, as stated, fails: a sequence number different from the length of
    the chain is accepted and the chain changes. *)
Lemma add_block_sequence_gap_cex :
  1 <> Z.of_nat (length (@nil HashChainBlock.t))
  /\ HashChainDigest.add_block [] 0 (PyStr "Login") 1 <> []
  /\ map HashChainBlock.sequence_number
         (HashChainDigest.add_block [] 0 (PyStr "Login") 1) = [1].
Proof. split; [simpl; lia|]. split; [discriminate | reflexivity]. Qed.

(** C3, amended: [add_block] appends one block carrying the given sequence
    number whatever that number is; it has no failure case. *)
Theorem add_block_always_appends (chain : HashChainDigest.t) now d n :
  length (HashChainDigest.add_block chain now d n) = S (length chain)
  /\ firstn (length chain) (HashChainDigest.add_block chain now d n) = chain
  /\ (HashChainBlock.sequence_number <$> last (HashChainDigest.add_block chain now d n))
     = Some n
  /\ (HashChainBlock.data <$> last (HashChainDigest.add_block chain now d n)) = Some d.
Proof.
  rewrite add_block_unfold, last_snoc. repeat split.
  - rewrite length_app. simpl. lia.
  - rewrite firstn_app, Nat.sub_diag, firstn_all. simpl. apply app_nil_r.
Qed.

(** C4, as stated, fails: the stored sequence numbers are the callers'
    arguments and need not be contiguous. *)
Lemma build_chain_contiguous_cex :
  contiguous (map HashChainBlock.sequence_number
                (HashChainDigest.build [(0, PyStr "a", 1); (0, PyStr "b", 5)])) = false.
Proof. reflexivity. Qed.

(** C4, amended: in every chain built from the empty chain by [add_block]
    calls, block 0 has [prev = "0"], each later block has the hash of its
    predecessor as [prev], and the stored sequence numbers are, in order,
    the sequence numbers the calls were given. *)
Theorem build_chain_linked (calls : list (float * pyval * Z)) :
  (forall b, HashChainDigest.build calls !! 0%nat = Some b ->
             HashChainBlock.previous_hash b = "0"%string)
  /\ (forall (i : nat) b b',
        HashChainDigest.build calls !! i = Some b ->
        HashChainDigest.build calls !! S i = Some b' ->
        HashChainBlock.previous_hash b' = HashChainBlock.hash b)
  /\ map HashChainBlock.sequence_number (HashChainDigest.build calls) = map snd calls.
Proof.
  induction calls as [|[[now d] n] calls IH] using rev_ind.
  - repeat split; intros; discriminate.
  - destruct IH as (IH0 & IHs & IHn).
    rewrite build_chain_snoc, add_block_unfold.
    set (c := HashChainDigest.build calls) in *.
    set (blk := HashChainBlock.mk _ _ _ _ _).
    repeat split.
    + intros b Hb. destruct c as [|b0 c'] eqn:Ec.
      * simpl in Hb. inversion Hb; subst b. reflexivity.
      * apply IH0. exact Hb.
    + intros i b b' Hb Hb'.
      destruct (decide (S i < length c)%nat) as [Hlt|Hge].
      * rewrite lookup_app_l in Hb by lia. rewrite lookup_app_l in Hb' by lia.
        eapply IHs; eauto.
      * assert (Hi : S i = length c).
        { apply lookup_lt_Some in Hb'. rewrite length_app in Hb'. simpl in Hb'. lia. }
        rewrite lookup_app_l in Hb by lia.
        rewrite lookup_app_r in Hb' by lia.
        rewrite Hi, Nat.sub_diag in Hb'. simpl in Hb'. inversion Hb'; subst b'.
        subst blk. simpl. unfold HashChainDigest.prev_of.
        assert (Hl : last c = Some b).
        { rewrite last_lookup. rewrite <- Hi. simpl. exact Hb. }
        rewrite Hl. reflexivity.
    + rewrite !map_app, IHn. reflexivity.
Qed.

Lemma build_chain_linked_witness :
  exists b b',
    HashChainDigest.build [(0, PyStr "a", 1); (0, PyStr "b", 5)] !! 0%nat = Some b
    /\ HashChainDigest.build [(0, PyStr "a", 1); (0, PyStr "b", 5)] !! 1%nat = Some b'
    /\ HashChainBlock.previous_hash b' = HashChainBlock.hash b.
Proof.
  destruct (build_chain_linked [(0, PyStr "a", 1); (0, PyStr "b", 5)]) as (_ & H & _).
  eexists _, _. split; [reflexivity|]. split; [reflexivity|].
  apply (H 0%nat); reflexivity.
Defined.

(** ** Dictionaries of lists and [min] *)

Section DictFacts.
Context {K V : Type} `{EqDecision K}.
Implicit Types (d : list (K * list V)) (k : K) (v : V).

Lemma dict_get_append k k' v d :
  dict_get k' (dict_append k v d)
  = if decide (k = k') then Some (default [] (dict_get k d) ++ [v])
    else dict_get k' d.
Proof.
  induction d as [|[k0 l0] d IH]; simpl.
  - destruct (decide (k = k')); reflexivity.
  - destruct (decide (k0 = k)) as [->|Hne]; simpl.
    + destruct (decide (k = k')); reflexivity.
    + rewrite IH. destruct (decide (k0 = k')) as [->|Hne'].
      * destruct (decide (k = k')); [congruence | reflexivity].
      * reflexivity.
Qed.

Lemma dict_get_elem_of {W} k (w : W) (d : list (K * W)) :
  dict_get k d = Some w -> (k, w) ∈ d.
Proof.
  induction d as [|[k0 w0] d IH]; simpl; [discriminate|].
  destruct (decide (k0 = k)) as [->|Hne].
  - intros [= ->]. apply list_elem_of_here.
  - intros H'. apply list_elem_of_further, IH, H'.
Qed.

Lemma elem_of_dict_get {W} k (w : W) (d : list (K * W)) :
  NoDup (d.*1) -> (k, w) ∈ d -> dict_get k d = Some w.
Proof.
  induction d as [|[k0 w0] d IH]; simpl; intros Hnd Hin.
  - inversion Hin.
  - apply NoDup_cons in Hnd as [Hk0 Hnd].
    apply elem_of_cons in Hin as [[= -> ->]|Hin].
    + rewrite decide_True; reflexivity.
    + destruct (decide (k0 = k)) as [->|Hne]; [|auto].
      exfalso. apply Hk0. apply list_elem_of_fmap. exists (k, w). auto.
Qed.

Lemma dict_append_keys k v d :
  (k ∈ (d.*1) /\ (dict_append k v d).*1 = d.*1)
  \/ ((k ∉ d.*1) /\ (dict_append k v d).*1 = d.*1 ++ [k]).
Proof.
  induction d as [|[k0 l0] d IH]; csimpl.
  - right. split; [apply not_elem_of_nil | reflexivity].
  - destruct (decide (k0 = k)) as [->|Hne]; csimpl.
    + left. split; [apply list_elem_of_here | reflexivity].
    + destruct IH as [[Hin ->]|[Hnin ->]].
      * left. split; [apply list_elem_of_further, Hin | reflexivity].
      * right. split; [|reflexivity].
        intros [?|?]%elem_of_cons; [congruence | contradiction].
Qed.

Lemma dict_append_NoDup k v d : NoDup (d.*1) -> NoDup ((dict_append k v d).*1).
Proof.
  intros Hnd. destruct (dict_append_keys k v d) as [[_ ->]|[Hnin ->]]; [exact Hnd|].
  apply NoDup_app. split; [exact Hnd|]. split.
  - intros x Hx [->|Hx']%elem_of_cons; [contradiction | inversion Hx'].
  - apply NoDup_singleton.
Qed.
End DictFacts.

Lemma py_min_fold {A} (key : A -> Z) (l : list A) (best : A) :
  let r := fold_left (fun best y => if key y <? key best then y else best) l best in
  (r = best \/ r ∈ l) /\ key r <= key best /\ forall y, y ∈ l -> key r <= key y.
Proof.
  revert best. induction l as [|x l IH]; intros best; simpl.
  - split; [left; reflexivity|]. split; [lia|]. intros y Hy. inversion Hy.
  - destruct (Z.ltb_spec (key x) (key best)) as [Hlt|Hge].
    + destruct (IH x) as (Hin & Hle & Hall). split; [|split].
      * right. destruct Hin as [->|Hin]; [apply list_elem_of_here|].
        apply list_elem_of_further, Hin.
      * lia.
      * intros y [->|Hy]%elem_of_cons; [exact Hle | apply Hall, Hy].
    + destruct (IH best) as (Hin & Hle & Hall). split; [|split].
      * destruct Hin as [->|Hin]; [left; reflexivity|].
        right. apply list_elem_of_further, Hin.
      * exact Hle.
      * intros y [->|Hy]%elem_of_cons; [lia | apply Hall, Hy].
Qed.

Lemma py_min_spec {A} (key : A -> Z) (l : list A) :
  l <> [] ->
  exists x, py_min key l = Returned x /\ x ∈ l /\ forall y, y ∈ l -> key x <= key y.
Proof.
  destruct l as [|a l]; [congruence|]. intros _. simpl.
  destruct (py_min_fold key l a) as (Hin & Hle & Hall).
  eexists. split; [reflexivity|]. split.
  - destruct Hin as [->|Hin]; [apply list_elem_of_here | apply list_elem_of_further, Hin].
  - intros y [->|Hy]%elem_of_cons; [exact Hle | apply Hall, Hy].
Qed.

Lemma str_int_inj (a b : Z) : str_int a = str_int b -> a = b.
Proof.
  unfold str_int. intros H.
  assert (H' : Some (Z.to_int a) = Some (Z.to_int b)).
  { rewrite <- !DecimalString.NilEmpty.isi. rewrite H. reflexivity. }
  injection H' as H'. rewrite <- (DecimalZ.of_to a), <- (DecimalZ.of_to b), H'.
  reflexivity.
Qed.

(** ** The version vector *)

Section Counter.
Import VersionVector.
Implicit Types (e : VersionVectorEntry.t) (es : list VersionVectorEntry.t).

Lemma counts_for_step c es e :
  counts_for c es -> counts_for (dict_append (key e) e c) (es ++ [e]).
Proof.
  intros [Hnd Hget]. split; [apply dict_append_NoDup, Hnd|].
  intros k. rewrite dict_get_append, filter_app, Hget.
  destruct (decide (key e = k)) as [<-|Hne].
  - rewrite filter_cons_True by reflexivity. rewrite filter_nil.
    destruct (filter _ es) as [|x l]; reflexivity.
  - rewrite filter_cons_False by exact Hne. rewrite filter_nil, app_nil_r, Hget.
    reflexivity.
Qed.

Lemma counts_for_fold es : forall c es0,
  counts_for c es0 ->
  counts_for (fold_left (fun c e => dict_append (key e) e c) es c) (es0 ++ es).
Proof.
  induction es as [|e es IH]; intros c es0 Hc; simpl.
  - rewrite app_nil_r. exact Hc.
  - replace (es0 ++ e :: es) with ((es0 ++ [e]) ++ es)
      by (rewrite <- app_assoc; reflexivity).
    apply IH, counts_for_step, Hc.
Qed.

Lemma counter_flat (ls : list (list VersionVectorEntry.t)) : forall c,
  fold_left (fun c es => fold_left (fun c e => dict_append (key e) e c) es c) ls c
  = fold_left (fun c e => dict_append (key e) e c) (concat ls) c.
Proof.
  induction ls as [|l ls IH]; intros c; simpl; [reflexivity|].
  rewrite fold_left_app. apply IH.
Qed.

Lemma counter_spec vector : counts_for (counter vector) (all_entries vector).
Proof.
  unfold counter, all_entries. rewrite counter_flat.
  apply (counts_for_fold _ [] []). split; [constructor | reflexivity].
Qed.

Lemma key_same_state e e' : key e' = key e <-> same_state e e'.
Proof.
  unfold key, same_state. split.
  - intros [= Hs Hh]. split; [apply str_int_inj, Hs | exact Hh].
  - intros [-> ->]. reflexivity.
Qed.

Lemma group_by_key vector e :
  group vector e = filter (fun e' => key e' = key e) (all_entries vector).
Proof.
  unfold group. apply list_filter_iff. intros e'. symmetry. apply key_same_state.
Qed.
End Counter.

(** C5, as stated, fails: with [f = 1] no [(seq, digest)] pair is the
    latest entry of three principals (there is one principal), yet a
    state is returned. *)
Lemma get_current_system_state_latest_cex :
  VersionVector.spec_quorum_entries Scenario.one_principal_vector 1 = []
  /\ VersionVector.get_current_system_state Scenario.one_principal_vector 1
     = Returned (Some (VersionVectorEntry.mk 0 0 5 (HcdStr "h"))).
Proof. split; vm_compute; reflexivity. Qed.

(** C5, amended: [get_current_system_state(f)] never raises; it returns a
    stored entry whose [(seq, digest)] pair is carried by at least [2f+1]
    stored entries, all entries of all principals counted, and whose
    replica id is the least among the entries with that pair; it returns
    [None] exactly when no pair is carried by [2f+1] stored entries. *)
Theorem get_current_system_state_counts_all_entries
    (vector : VersionVector.t) (f : Z) :
  match VersionVector.get_current_system_state vector f with
  | Returned (Some e) =>
      e ∈ VersionVector.all_entries vector
      /\ 2 * f + 1 <= Z.of_nat (length (VersionVector.group vector e))
      /\ forall e', e' ∈ VersionVector.group vector e ->
                    VersionVectorEntry.replica_id e <= VersionVectorEntry.replica_id e'
  | Returned None =>
      forall e, e ∈ VersionVector.all_entries vector ->
                Z.of_nat (length (VersionVector.group vector e)) < 2 * f + 1
  | Raised _ => False
  end.
Proof.
  destruct (counter_spec vector) as [Hnd Hget].
  unfold VersionVector.get_current_system_state.
  destruct (find _ (VersionVector.counter vector)) as [[k l]|] eqn:Hfind.
  - apply find_some in Hfind as [Hin Hq]. simpl in Hq.
    apply list_elem_of_In in Hin. apply (elem_of_dict_get _ _ _ Hnd) in Hin.
    rewrite Hget in Hin.
    assert (Hl : l = filter (fun e => VersionVector.key e = k)
                        (VersionVector.all_entries vector) /\ l <> []).
    { destruct (filter _ _) as [|x l']; [discriminate|].
      injection Hin as <-. split; [reflexivity | discriminate]. }
    destruct Hl as [Hl Hne].
    destruct (py_min_spec VersionVectorEntry.replica_id l Hne) as (e & -> & He & Hmin).
    simpl.
    assert (Hk : VersionVector.key e = k /\ e ∈ VersionVector.all_entries vector).
    { rewrite Hl in He. apply list_elem_of_filter in He. tauto. }
    destruct Hk as [Hk Hall]. rewrite group_by_key, Hk, <- Hl.
    split; [exact Hall|]. split; [|exact Hmin].
    apply Z.leb_le, Hq.
  - intros e He. rewrite group_by_key.
    specialize (Hget (VersionVector.key e)).
    assert (Hne : filter (fun e' => VersionVector.key e' = VersionVector.key e)
                         (VersionVector.all_entries vector) <> []).
    { intros Habs.
      assert (Hm : e ∈ filter (fun e' => VersionVector.key e' = VersionVector.key e)
                              (VersionVector.all_entries vector))
        by (apply list_elem_of_filter; auto).
      rewrite Habs in Hm. inversion Hm. }
    destruct (filter _ _) as [|x l'] eqn:Hf; [congruence|].
    apply dict_get_elem_of, list_elem_of_In in Hget.
    apply (find_none _ _ Hfind) in Hget. simpl in Hget.
    apply Z.leb_gt in Hget. simpl. exact Hget.
Qed.

Lemma get_current_system_state_counts_all_entries_witness :
  2 * 1 + 1
  <= Z.of_nat (length (VersionVector.group Scenario.one_principal_vector
                         (VersionVectorEntry.mk 0 0 5 (HcdStr "h")))).
Proof.
  pose proof (get_current_system_state_counts_all_entries
                Scenario.one_principal_vector 1) as H.
  change (VersionVector.get_current_system_state Scenario.one_principal_vector 1)
    with (Returned (Some (VersionVectorEntry.mk 0 0 5 (HcdStr "h")))) in H.
  apply H.
Defined.

(** ** The primary of a view *)

Lemma init_primary id hcd_addr heap_next host port f view clients replicas :
  f <> -1 ->
  exists r,
    Replica.init id hcd_addr heap_next host port f view clients replicas = Returned r
    /\ Replica.replica_id r = id
    /\ Replica.is_primary r = bool_decide (view mod (3 * (f + 1)) = id).
Proof.
  intros Hf. unfold Replica.init, py_mod.
  destruct (Z.eqb_spec (3 * (f + 1)) 0) as [E|_]; [lia|].
  simpl. eexists. repeat split.
Qed.

(** C1 at [f = 1] with the [N = 3f+1 = 4] replicas 0..3: none of them is
    the primary of view 4, whereas [4 mod N = 0]. *)
Theorem init_primary_of_view_4 :
  map (fun id => match Replica.init id 100 200 "localhost" 5000 1 4 [] [] with
                 | Returned r => Some (Replica.is_primary r)
                 | Raised _ => None
                 end) [0; 1; 2; 3]
  = [Some false; Some false; Some false; Some false]
  /\ 4 mod 4 = 0.
Proof. split; reflexivity. Qed.

(** ** The dominance check of [receive_view_change] *)

Lemma receive_view_change_raises tail data self :
  exists e,
    outcome_of (Replica.receive_view_change tail data self) = Raised e
    /\ events_of (Replica.receive_view_change tail data self) = [].
Proof.
  unfold Replica.receive_view_change, Replica.reply_not_dominant,
    outcome_of, events_of, bind, get, modify, lift, ret. simpl.
  destruct (VersionVector.get_entry _ (KInt _) _) as [own|e]; simpl; [|eauto].
  destruct (_ <? _); simpl; eauto.
Qed.

(** C8 at a sender that is strictly behind: the receiver is at
    [(view 1, seq 5)], the message at [(view 0, seq 0)]; the handler
    raises [AttributeError] and sends nothing. *)
Theorem receive_view_change_behind_sender :
  lex_behind (ViewChangeMessage.version_vector_entry Scenario.view_change_behind)
             (VersionVectorEntry.mk 0 1 5 (HcdStr "h5")) = true
  /\ VersionVector.get_entry (Replica.version_vector Scenario.replica_ahead)
       (KInt 0) 0 = Returned (VersionVectorEntry.mk 0 1 5 (HcdStr "h5"))
  /\ forall tail,
       outcome_of (Replica.receive_view_change tail Scenario.view_change_behind
                     Scenario.replica_ahead) = Raised AttributeError
       /\ events_of (Replica.receive_view_change tail Scenario.view_change_behind
                       Scenario.replica_ahead) = [].
Proof. split; [reflexivity|]. split; [reflexivity|]. intros tail. split; reflexivity. Qed.

(** ** The client's reply quorum *)

Lemma counts_same_entry (reply_message received_reply : ReplyMessage.t) :
  Client.counts reply_message received_reply = true ->
  Entry.addr (ReplyMessage.entry received_reply)
  = Entry.addr (ReplyMessage.entry reply_message).
Proof.
  unfold Client.counts, Entry.eqb. intros H.
  apply andb_prop in H as [_ H]. apply bool_decide_eq_true in H. exact H.
Qed.

(** C9 at [f = 1]: the replies of replicas 0, 1 and 2 match pairwise in
    the sense of the specification, and after all three were handled the
    request is still pending, the version vector is still empty and every
    call returned [False]. *)
Theorem handle_reply_three_matching :
  Client.spec_match (Scenario.reply_of 0) (Scenario.reply_of 1) = true
  /\ Client.spec_match (Scenario.reply_of 0) (Scenario.reply_of 2) = true
  /\ Client.spec_match (Scenario.reply_of 1) (Scenario.reply_of 2) = true
  /\ let run := (Client.handle_reply (Scenario.reply_of 0) ;;;
                 Client.handle_reply (Scenario.reply_of 1) ;;;
                 Client.handle_reply (Scenario.reply_of 2)) Scenario.client1 in
     outcome_of run = Returned (Some false)
     /\ events_of run = []
     /\ Client.pending_requests (final_state run) = [Scenario.request]
     /\ Client.version_vector (final_state run) = []
     /\ length (Client.received_replies (final_state run)) = 3%nat.
Proof. repeat split; vm_compute; reflexivity. Qed.

(** ** Replica handlers *)

Lemma pyval_eqb_refl (v : pyval) : pyval_eqb v v = true.
Proof. destruct v; simpl; apply bool_decide_eq_true; reflexivity. Qed.

Lemma for_each_send (self : Replica.t) (m : payload) (l : list peer) (s : Replica.t) :
  for_each l (fun replica =>
                a <- lift (Replica.peer_address self replica) ;;
                emit (Send a.1 a.2 m)) s
  = (s, map (fun a => Send a.1 a.2 m) (Replica.leading_addresses self l),
     if Replica.all_replicas l then Returned tt else Raised AttributeError).
Proof.
  induction l as [|p l IH]; [reflexivity|].
  simpl. unfold bind at 1. unfold bind at 1.
  destruct p as [|id h pt vv|str]; simpl; try reflexivity; rewrite IH; reflexivity.
Qed.

Lemma multicast_message_spec (m : payload) (self : Replica.t) :
  Replica.multicast_message m self
  = (self,
     map (fun a => Send a.1 a.2 m)
         (Replica.leading_addresses self (Replica.replicas self)),
     if Replica.all_replicas (Replica.replicas self)
     then Returned tt else Raised AttributeError).
Proof.
  unfold Replica.multicast_message, bind at 1, get.
  rewrite for_each_send. reflexivity.
Qed.

Lemma find_replica_in_found (self : Replica.t) (l : list peer) (id : Z) (p : peer) :
  Replica.find_replica_in self l id = Returned (Found p) ->
  existsb (Replica.peer_eqb self p) l = true
  /\ Replica.leading_addresses self l <> [].
Proof.
  induction l as [|q l IH]; simpl; [discriminate|].
  destruct q as [|qid h pt vv|str]; simpl; try discriminate.
  - destruct (bool_decide (Replica.replica_id self = id)) eqn:E.
    + intros [= <-]. simpl. rewrite bool_decide_eq_true_2 by reflexivity.
      split; [reflexivity | discriminate].
    + intros H. destruct (IH H) as [-> _]. split; [apply orb_true_r | discriminate].
  - destruct (bool_decide (qid = id)) eqn:E.
    + intros [= <-]. simpl. rewrite bool_decide_eq_true_2 by reflexivity.
      split; [reflexivity | discriminate].
    + intros H. destruct (IH H) as [-> _]. split; [apply orb_true_r | discriminate].
Qed.

Lemma note_sender_found (self : Replica.t) (id : Z) (p : peer) :
  Replica.find_replica self id = Returned (Found p) ->
  Replica.note_sender id self = (self, [], Returned tt).
Proof.
  intros H. unfold Replica.note_sender, bind, get, lift. rewrite H. simpl.
  apply find_replica_in_found in H as [-> _]. reflexivity.
Qed.

(** C7, as stated, fails: replica 0 of the two-replica configuration is
    the primary of view 0, and on the pre-prepare it multicast itself it
    sends a PREPARE to each replica of its list. *)
Lemma receive_pre_prepare_primary_cex :
  Replica.is_primary Scenario.replica0 = true
  /\ Replica.view Scenario.replica0
     mod Z.of_nat (length (Replica.replicas Scenario.replica0))
     = Replica.replica_id Scenario.replica0
  /\ events_of (Replica.receive_pre_prepare Scenario.pre_prepare0 Scenario.replica0)
     = [Send "localhost" 5000
          (MsgPrepare (PrepareMessage.mk 0 0 0
             (PyStr "<library.request_message.RequestMessage object at 0x1>")));
        Send "localhost" 5001
          (MsgPrepare (PrepareMessage.mk 0 0 0
             (PyStr "<library.request_message.RequestMessage object at 0x1>")))].
Proof. repeat split; vm_compute; reflexivity. Qed.

Lemma find_replica_in_ext (s s' : Replica.t) (l : list peer) (id : Z) :
  Replica.replica_id s = Replica.replica_id s' ->
  Replica.find_replica_in s l id = Replica.find_replica_in s' l id.
Proof.
  intros Hid. induction l as [|q l IH]; [reflexivity|].
  simpl. destruct q; simpl; try reflexivity; rewrite ?Hid, IH; reflexivity.
Qed.

Lemma leading_addresses_ext (s s' : Replica.t) (l : list peer) :
  Replica.host s = Replica.host s' -> Replica.port s = Replica.port s' ->
  Replica.leading_addresses s l = Replica.leading_addresses s' l.
Proof.
  intros Hh Hp. induction l as [|q l IH]; [reflexivity|].
  simpl. destruct q; simpl; try reflexivity; rewrite ?Hh, ?Hp, IH; reflexivity.
Qed.

Lemma receive_pre_prepare_events
    (self : Replica.t) (data : PrePrepareMessage.t) (p : peer) :
  Replica.find_replica self (PrePrepareMessage.primary_replica_id data)
  = Returned (Found p) ->
  existsb (Replica.conflicts data) (Replica.received_pre_prepare_messages self) = false ->
  Replica.out_of_window self data = false ->
  events_of (Replica.receive_pre_prepare data self)
  = map (fun a => Send a.1 a.2
                    (MsgPrepare (PrepareMessage.mk (Replica.replica_id self)
                       (Replica.view self) (PrePrepareMessage.sequence_number data)
                       (PrePrepareMessage.request_msg data))))
        (Replica.leading_addresses self (Replica.replicas self)).
Proof.
  intros Hfind Hconf Hwin.
  unfold Replica.receive_pre_prepare, events_of.
  unfold bind at 1. rewrite (note_sender_found _ _ _ Hfind).
  unfold bind at 1, get at 1. unfold bind at 1.
  destruct (Replica.received_pre_prepare_messages self) as [|m0 ms] eqn:Hr.
  - rewrite bool_decide_eq_true_2 by reflexivity.
    unfold modify at 1, bind at 1, get at 1.
    cbn [existsb Replica.received_pre_prepare_messages
         Replica.set_received_pre_prepare_messages].
    unfold Replica.conflicts at 1. rewrite pyval_eqb_refl, andb_false_r. cbn [orb].
    change (Replica.out_of_window (Replica.set_received_pre_prepare_messages [data] self) data)
      with (Replica.out_of_window self data).
    rewrite Hwin. unfold bind at 1, modify at 1.
    rewrite multicast_message_spec. cbn [fst snd app].
    erewrite leading_addresses_ext; reflexivity.
  - rewrite bool_decide_eq_false_2 by discriminate.
    unfold ret at 1, bind at 1, get at 1. rewrite Hr, Hconf, Hwin.
    unfold bind at 1, modify at 1.
    rewrite multicast_message_spec. cbn [fst snd app].
    erewrite leading_addresses_ext; reflexivity.
Qed.

(** C7, amended: every replica, the primary included, answers a
    pre-prepare it accepts with a PREPARE.  When the sender is one of
    [self.replicas], no stored pre-prepare has the same sequence number
    with another request and the sequence number is within 2 of the last
    block's, [receive_pre_prepare] sends one PREPARE carrying its own id
    and view and the sequence number and request of the pre-prepare to
    each replica of its list, at least one; [is_primary] is not read. *)
Theorem receive_pre_prepare_sends_prepare
    (self : Replica.t) (data : PrePrepareMessage.t) (p : peer) :
  Replica.find_replica self (PrePrepareMessage.primary_replica_id data)
  = Returned (Found p) ->
  existsb (Replica.conflicts data) (Replica.received_pre_prepare_messages self) = false ->
  Replica.out_of_window self data = false ->
  let prepare :=
    MsgPrepare (PrepareMessage.mk (Replica.replica_id self) (Replica.view self)
                  (PrePrepareMessage.sequence_number data)
                  (PrePrepareMessage.request_msg data)) in
  events_of (Replica.receive_pre_prepare data self)
  = map (fun a => Send a.1 a.2 prepare)
        (Replica.leading_addresses self (Replica.replicas self))
  /\ events_of (Replica.receive_pre_prepare data self) <> []
  /\ forall b, events_of (Replica.receive_pre_prepare data (Replica.set_primary b self))
               = events_of (Replica.receive_pre_prepare data self).
Proof.
  intros Hfind Hconf Hwin prepare.
  pose proof (receive_pre_prepare_events self data p Hfind Hconf Hwin) as Hev.
  split; [exact Hev|]. split.
  - rewrite Hev.
    destruct (find_replica_in_found _ _ _ _ Hfind) as [_ Hne].
    destruct (Replica.leading_addresses _ _); [congruence | discriminate].
  - intros b. rewrite Hev.
    rewrite (receive_pre_prepare_events (Replica.set_primary b self) data p).
    + erewrite leading_addresses_ext; reflexivity.
    + unfold Replica.find_replica. erewrite find_replica_in_ext; [exact Hfind | reflexivity].
    + exact Hconf.
    + exact Hwin.
Qed.

Lemma receive_pre_prepare_sends_prepare_witness :
  events_of (Replica.receive_pre_prepare Scenario.pre_prepare0 Scenario.replica0) <> [].
Proof.
  apply (receive_pre_prepare_sends_prepare Scenario.replica0 Scenario.pre_prepare0 PeerSelf);
    reflexivity.
Defined.

(** ** The commit quorum *)

Lemma py_index_last {A} (l : list A) (a : A) :
  py_index (l ++ [a]) (Z.of_nat (length (l ++ [a])) - 1) = Returned a.
Proof.
  unfold py_index. cbv zeta. rewrite length_app. simpl length.
  replace (Z.of_nat (length l + 1) - 1) with (Z.of_nat (length l)) by lia.
  assert (H1 : (Z.of_nat (length l) <? 0) = false) by (apply Z.ltb_ge; lia).
  assert (H2 : (Z.of_nat (length l + 1) <=? Z.of_nat (length l)) = false)
    by (apply Z.leb_gt; lia).
  rewrite H1. cbv iota. rewrite H1, H2. cbn [orb].
  rewrite Nat2Z.id, lookup_app_r by lia. rewrite Nat.sub_diag. reflexivity.
Qed.

Lemma select_request_spec (self : Replica.t) :
  Replica.select_request self
  = match last (Replica.accepted_requests self) with
    | Some r => Returned r
    | None => Raised IndexError
    end.
Proof.
  unfold Replica.select_request.
  destruct (Replica.accepted_requests self) as [|a l] using rev_ind; [reflexivity|].
  rewrite last_snoc.
  rewrite (proj2 (Z.ltb_lt 0 (Z.of_nat (length (l ++ [a])))))
    by (rewrite length_app; simpl; lia).
  apply py_index_last.
Qed.

Lemma note_sender_preserves (id : Z) (self : Replica.t) :
  Replica.accepted_requests (final_state (Replica.note_sender id self))
  = Replica.accepted_requests self
  /\ Replica.f (final_state (Replica.note_sender id self)) = Replica.f self
  /\ events_of (Replica.note_sender id self) = [].
Proof.
  unfold Replica.note_sender, Replica.add_replica, final_state, events_of,
    bind, get, lift, modify, ret.
  destruct (Replica.find_replica self id) as [x|e]; simpl; [|auto].
  destruct (existsb _ _) eqn:E; simpl; rewrite ?E; simpl; auto.
Qed.

Lemma count_commits_preserves (data : CommitMessage.t) (self self' : Replica.t)
    (evs : list event) (total : Z) :
  Replica.count_commits data self = (self', evs, Returned total) ->
  Replica.accepted_requests self' = Replica.accepted_requests self
  /\ Replica.f self' = Replica.f self.
Proof.
  unfold Replica.count_commits. unfold bind at 1.
  destruct (note_sender_preserves (CommitMessage.replica_id data) self) as (Ha & Hf & _).
  destruct (Replica.note_sender _ self) as [[s1 ev1] [[]|e]]; [|discriminate].
  unfold final_state in Ha, Hf. simpl in Ha, Hf.
  unfold bind, modify, get, ret. simpl.
  destruct (existsb _ _); simpl; intros [= <- _ _]; simpl; auto.
Qed.

Lemma receive_commit_after_count
    (self self' : Replica.t) (data : CommitMessage.t) (evs : list event) (total : Z) :
  Replica.count_commits data self = (self', evs, Returned total) ->
  2 * Replica.f self + 1 <= total ->
  Replica.select_request self' = Raised IndexError ->
  Replica.receive_commit data self = (self', evs, Raised IndexError).
Proof.
  intros Hcount Hq Hsel.
  destruct (count_commits_preserves _ _ _ _ _ Hcount) as [_ Hf].
  unfold Replica.receive_commit. unfold bind at 1. rewrite Hcount.
  unfold bind at 1, get at 1. rewrite Hf.
  destruct (Z.leb_spec (2 * Replica.f self + 1) total) as [_|H]; [|lia].
  unfold bind at 1, lift at 1. rewrite Hsel. rewrite !app_nil_r. reflexivity.
Qed.

(** C10: when no request has been accepted and the handler's count of
    matching commits (the commit being delivered included) reaches
    [2f+1], [receive_commit] ends in [IndexError], raised by
    [accepted_requests[0]]; nothing more is done after the count. *)
Theorem receive_commit_without_accepted_request
    (self self' : Replica.t) (data : CommitMessage.t) (evs : list event) (total : Z) :
  Replica.accepted_requests self = [] ->
  Replica.count_commits data self = (self', evs, Returned total) ->
  2 * Replica.f self + 1 <= total ->
  Replica.select_request self' = py_index (Replica.accepted_requests self) 0
  /\ py_index (Replica.accepted_requests self) 0 = Raised IndexError
  /\ Replica.receive_commit data self = (self', evs, Raised IndexError).
Proof.
  intros Hacc Hcount Hq.
  destruct (count_commits_preserves _ _ _ _ _ Hcount) as [Ha Hf].
  assert (Hsel : Replica.select_request self' = Raised IndexError).
  { rewrite select_request_spec, Ha, Hacc. reflexivity. }
  split; [rewrite Hsel, Hacc; reflexivity|].
  split; [rewrite Hacc; reflexivity|].
  apply (receive_commit_after_count self self' data evs total); assumption.
Qed.

Lemma receive_commit_without_accepted_request_witness :
  Replica.receive_commit Scenario.commit1 Scenario.replica_idle
  = (final_state (Replica.count_commits Scenario.commit1 Scenario.replica_idle),
     [], Raised IndexError).
Proof.
  apply (receive_commit_without_accepted_request
           Scenario.replica_idle _ Scenario.commit1 [] 1);
    [reflexivity | vm_compute; reflexivity | vm_compute; discriminate].
Defined.

(** ** Requests of a client with a cached reply *)

Lemma receive_request_cached_string (self : Replica.t) (data : RequestMessage.t) (s : string) :
  ReplyCache.get_reply (Replica.reply_cache self) (RequestMessage.client_id data)
  = Some (CachedStr s) ->
  Replica.receive_request data self = (self, [], Raised AttributeError).
Proof.
  intros H. unfold Replica.receive_request, bind, get, lift, Replica.not_cached.
  rewrite H. reflexivity.
Qed.

(** C6 on a re-sent request: replica 0 accepts the request (timestamp 5)
    of client 0, reaches the commit quorum and stores the reply, as a
    string, in its cache.  When the same request arrives again, the
    handler raises [AttributeError]: nothing is sent to the client. *)
Theorem receive_request_resent :
  events_of ((Replica.receive_request Scenario.request ;;;
              Replica.receive_commit Scenario.commit1) Scenario.replica0)
  = [Send "localhost" 5000
       (MsgPrePrepare (PrePrepareMessage.mk 0 0 0 (PyRequest Scenario.request)));
     Send "localhost" 5001
       (MsgPrePrepare (PrePrepareMessage.mk 0 0 0 (PyRequest Scenario.request)));
     TimerStart 10;
     Print "Replica 0 executed operation: log in";
     Send "localhost" 6000
       (MsgReply (ReplyMessage.init 200 0 5 (ResBool true) 0 0 1 (HcdRef 100)))]
  /\ ReplyCache.get_reply (Replica.reply_cache Scenario.replica0_replied) 0
     = Some (CachedStr (ReplyMessage.to_string
                          (ReplyMessage.init 200 0 5 (ResBool true) 0 0 1 (HcdRef 100))))
  /\ RequestMessage.timestamp Scenario.request = 5
  /\ Replica.receive_request Scenario.request Scenario.replica0_replied
     = (Scenario.replica0_replied, [], Raised AttributeError).
Proof.
  split; [vm_compute; reflexivity|]. split; [vm_compute; reflexivity|].
  split; [reflexivity|].
  eapply receive_request_cached_string. vm_compute. reflexivity.
Qed.

(** Were the cache to hold the reply object itself, the timestamp of the
    request would still not be compared with the cached one: with an empty
    hash chain a request with the cached timestamp, or an older one, is
    accepted and pre-prepared. *)
Lemma receive_request_cached_object :
  forall t, t = 5 \/ t = 3 ->
    let data := RequestMessage.mk 1 "log in" t 0 "None" in
    Replica.accepted_requests
      (final_state (Replica.receive_request data Scenario.replica0_cached_object))
    = [data]
    /\ events_of (Replica.receive_request data Scenario.replica0_cached_object)
       = [Send "localhost" 5000
            (MsgPrePrepare (PrePrepareMessage.mk 0 0 0 (PyRequest data)));
          Send "localhost" 5001
            (MsgPrePrepare (PrePrepareMessage.mk 0 0 0 (PyRequest data)));
          TimerStart 10].
Proof. intros t [-> | ->]; split; vm_compute; reflexivity. Qed.

(** ** The count of [handle_reply] *)

Lemma fold_count {A} (p : A -> bool) (l : list A) (t0 : Z) :
  fold_left (fun total x => if p x then total + 1 else total) l t0
  = t0 + Z.of_nat (length (List.filter p l)).
Proof.
  revert t0. induction l as [|x l IH]; intros t0; simpl; [lia|].
  rewrite IH. destruct (p x); simpl; lia.
Qed.

Lemma filter_unique {A B} (p : A -> bool) (g : A -> B) (a : B) (l : list A) :
  (forall x, p x = true -> g x = a) ->
  NoDup (map g l) ->
  (length (List.filter p l) <= 1)%nat.
Proof.
  intros Hp. induction l as [|x l IH]; simpl; intros Hnd; [lia|].
  apply NoDup_cons in Hnd as [Hx Hnd].
  destruct (p x) eqn:Epx; [|auto].
  destruct (List.filter p l) as [|y ys] eqn:Ef; [simpl; lia|].
  exfalso. apply Hx.
  assert (Hy : In y (List.filter p l)) by (rewrite Ef; left; reflexivity).
  apply filter_In in Hy as [Hin Hpy].
  rewrite (Hp x Epx), <- (Hp y Hpy).
  apply list_elem_of_In, in_map, Hin.
Qed.

Lemma count_total_fold (pending : list RequestMessage.t) (received : list ReplyMessage.t)
    (reply_message : ReplyMessage.t) (acc : Z * option RequestMessage.t) :
  (fold_left
     (fun acc pending_request =>
        if RequestMessage.timestamp pending_request =? ReplyMessage.timestamp reply_message
        then (fold_left (fun total received_reply =>
                           if Client.counts reply_message received_reply
                           then total + 1 else total)
                        received acc.1,
              Some pending_request)
        else acc)
     pending acc).1
  = acc.1
    + Z.of_nat (length (List.filter
                          (fun q => RequestMessage.timestamp q
                                    =? ReplyMessage.timestamp reply_message) pending))
      * Z.of_nat (length (List.filter (Client.counts reply_message) received)).
Proof.
  revert acc. induction pending as [|q pending IH]; intros acc; simpl; [lia|].
  rewrite IH. destruct (_ =? _); simpl; [rewrite fold_count|]; lia.
Qed.

Lemma count_total_le_1 (self : Client.t) (reply_message : ReplyMessage.t) :
  NoDup (map RequestMessage.timestamp (Client.pending_requests self)) ->
  NoDup (map (fun r => Entry.addr (ReplyMessage.entry r))
             (Client.recorded self reply_message)) ->
  (Client.count_total (Client.pending_requests self)
     (Client.recorded self reply_message) reply_message).1 <= 1.
Proof.
  intros Hts Hen. unfold Client.count_total. rewrite count_total_fold. simpl.
  pose proof (filter_unique
                (fun q => RequestMessage.timestamp q =? ReplyMessage.timestamp reply_message)
                RequestMessage.timestamp (ReplyMessage.timestamp reply_message)
                (Client.pending_requests self)
                (fun q Hq => proj1 (Z.eqb_eq _ _) Hq) Hts) as Hk.
  pose proof (filter_unique (Client.counts reply_message)
                (fun r => Entry.addr (ReplyMessage.entry r))
                (Entry.addr (ReplyMessage.entry reply_message))
                (Client.recorded self reply_message)
                (counts_same_entry reply_message) Hen) as Hc.
  nia.
Qed.

(** With [f >= 1], distinct timestamps on the pending requests and one
    [Entry] object per recorded reply, [handle_reply] never reaches its
    quorum: it records the reply, returns [False] and leaves the pending
    requests and the version vector as they were. *)
Lemma handle_reply_never_completes (self : Client.t) (reply_message : ReplyMessage.t) :
  1 <= Client.f self ->
  NoDup (map RequestMessage.timestamp (Client.pending_requests self)) ->
  NoDup (map (fun r => Entry.addr (ReplyMessage.entry r))
             (Client.recorded self reply_message)) ->
  let run := Client.handle_reply reply_message self in
  outcome_of run = Returned (Some false)
  /\ events_of run = []
  /\ Client.received_replies (final_state run) = Client.recorded self reply_message
  /\ Client.pending_requests (final_state run) = Client.pending_requests self
  /\ Client.version_vector (final_state run) = Client.version_vector self.
Proof.
  intros Hf Hts Hen run.
  pose proof (count_total_le_1 self reply_message Hts Hen) as Hle.
  subst run. unfold Client.handle_reply, Client.recorded in *.
  unfold outcome_of, events_of, final_state, bind, get, modify, ret.
  destruct (existsb _ _); simpl;
    destruct (Client.count_total _ _ _) as [total founded]; simpl in *;
    destruct (Z.leb_spec (2 * Client.f self + 1) total) as [H|_]; try lia;
    simpl; auto.
Qed.

Lemma handle_reply_never_completes_witness :
  outcome_of (Client.handle_reply (Scenario.reply_of 0) Scenario.client1)
  = Returned (Some false).
Proof.
  apply (handle_reply_never_completes Scenario.client1 (Scenario.reply_of 0));
    [vm_compute; discriminate | apply NoDup_singleton | apply NoDup_singleton].
Defined.

(** ** The count of [receive_commit] on a list of [Replica] objects *)

Lemma find_replica_in_returns (self : Replica.t) (l : list peer) (id : Z) :
  Replica.all_replicas l = true ->
  exists x, Replica.find_replica_in self l id = Returned x.
Proof.
  induction l as [|q l IH]; simpl; [eauto|].
  destruct q as [|qid h pt vv|str]; simpl; try discriminate;
    intros Hl; destruct (bool_decide _); eauto.
Qed.

Lemma note_sender_returns (id : Z) (self : Replica.t) :
  Replica.all_replicas (Replica.replicas self) = true ->
  exists s1,
    Replica.note_sender id self = (s1, [], Returned tt)
    /\ Replica.received_commit_messages s1 = Replica.received_commit_messages self
    /\ Replica.f s1 = Replica.f self.
Proof.
  intros Hall.
  destruct (find_replica_in_returns self _ id Hall) as [x Hx].
  unfold Replica.note_sender, Replica.add_replica, bind, get, lift, modify, ret.
  unfold Replica.find_replica. rewrite Hx. simpl.
  destruct (existsb _ _) eqn:E; simpl; rewrite ?E; simpl; eauto.
Qed.

Lemma count_commits_returns (data : CommitMessage.t) (self : Replica.t) :
  Replica.all_replicas (Replica.replicas self) = true ->
  exists self',
    Replica.count_commits data self
    = (self', [],
       Returned (fold_left (fun total received =>
                              if Replica.matching_commit data received
                              then total + 1 else total)
                           (Replica.recorded_commits self data) 0)).
Proof.
  intros Hall.
  destruct (note_sender_returns (CommitMessage.replica_id data) self Hall)
    as (s1 & Hs1 & Hrecv & _).
  unfold Replica.count_commits. unfold bind at 1. rewrite Hs1.
  unfold bind, modify, get, ret, Replica.recorded_commits, Replica.commit_total.
  simpl. rewrite Hrecv.
  destruct (existsb _ _); simpl; rewrite ?Hrecv; eauto.
Qed.

(** When [self.replicas] holds [Replica] objects only, the count always
    returns: a commit that brings the matching commits of the store to
    [2f+1] while no request was accepted ends in [IndexError]. *)
Lemma receive_commit_index_error (self : Replica.t) (data : CommitMessage.t) :
  Replica.all_replicas (Replica.replicas self) = true ->
  Replica.accepted_requests self = [] ->
  2 * Replica.f self + 1
  <= fold_left (fun total received =>
                  if Replica.matching_commit data received then total + 1 else total)
               (Replica.recorded_commits self data) 0 ->
  outcome_of (Replica.receive_commit data self) = Raised IndexError.
Proof.
  intros Hall Hacc Hq.
  destruct (count_commits_returns data self Hall) as [self' Hc].
  destruct (count_commits_preserves _ _ _ _ _ Hc) as [Ha _].
  rewrite (receive_commit_after_count self self' data [] _ Hc Hq);
    [reflexivity|].
  rewrite select_request_spec, Ha, Hacc. reflexivity.
Qed.

Lemma receive_commit_index_error_witness :
  outcome_of (Replica.receive_commit Scenario.commit1 Scenario.replica_idle)
  = Raised IndexError.
Proof.
  apply receive_commit_index_error; [reflexivity | reflexivity | vm_compute; discriminate].
Defined.


(** * Further properties of the code *)

(** ** Hash chain: append-only, recomputable, determined by the data *)

(** X1: a chain only grows at its end.  After further [add_block] calls
    the chain built so far is still there, unchanged, the length is the
    number of calls, and [get_last_block] is the block of the last call
    ([None] exactly when there was no call). *)
Theorem build_append_only (calls more : list (float * pyval * Z)) :
  firstn (length calls) (HashChainDigest.build (calls ++ more))
  = HashChainDigest.build calls
  /\ length (HashChainDigest.build calls) = length calls
  /\ (HashChainBlock.data <$> HashChainDigest.get_last_block (HashChainDigest.build calls))
     = ((fun c => c.1.2) <$> last calls)
  /\ (HashChainBlock.sequence_number
        <$> HashChainDigest.get_last_block (HashChainDigest.build calls))
     = (snd <$> last calls).
Proof.
  assert (Hlen : forall cs, length (HashChainDigest.build cs) = length cs).
  { induction cs as [|[[now d] n] cs IH] using rev_ind; [reflexivity|].
    rewrite build_chain_snoc, add_block_unfold, !length_app, IH. reflexivity. }
  split; [|split; [apply Hlen|]].
  - induction more as [|[[now d] n] more IH] using rev_ind.
    + rewrite app_nil_r, <- Hlen. apply firstn_all.
    + rewrite app_assoc, build_chain_snoc, add_block_unfold.
      rewrite firstn_app, IH.
      replace (length calls - length (HashChainDigest.build (calls ++ more)))%nat
        with 0%nat by (rewrite Hlen, length_app; lia).
      apply app_nil_r.
  - destruct calls as [|c0 calls0] using rev_ind; [split; reflexivity|].
    destruct c0 as [[now d] n].
    rewrite build_chain_snoc, add_block_unfold. unfold HashChainDigest.get_last_block.
    rewrite length_app. simpl length.
    rewrite (proj2 (Z.ltb_lt 0 _)) by lia.
    rewrite !last_snoc. split; reflexivity.
Qed.

(** X2: every block of a chain built by [add_block] can be checked on its
    own: recomputing [calculate_hash] on the stored block gives the
    stored hash. *)
Theorem build_blocks_recomputable (calls : list (float * pyval * Z)) (b : HashChainBlock.t) :
  b ∈ HashChainDigest.build calls ->
  HashChainBlock.hash b = HashChainBlock.calculate_hash b.
Proof.
  induction calls as [|[[now d] n] calls IH] using rev_ind.
  - intros H. inversion H.
  - rewrite build_chain_snoc, add_block_unfold.
    intros [H|H]%elem_of_app; [apply IH, H|].
    apply list_elem_of_singleton in H. subst b. reflexivity.
Qed.

Lemma build_blocks_recomputable_witness :
  HashChainBlock.hash (HashChainBlock.init 0 (PyStr "a") 1 "0")
  = HashChainBlock.calculate_hash (HashChainBlock.init 0 (PyStr "a") 1 "0").
Proof.
  apply (build_blocks_recomputable [(0, PyStr "a", 1)]).
  apply list_elem_of_here.
Defined.

(** X3: the hashes of a chain are determined by the strings of the data
    alone: two runs of [add_block] calls whose data print alike give the
    same hashes, whatever the sequence numbers and the clock. *)
Theorem build_hashes_depend_on_data (calls calls' : list (float * pyval * Z)) :
  map (fun c => py_str c.1.2) calls = map (fun c => py_str c.1.2) calls' ->
  map HashChainBlock.hash (HashChainDigest.build calls)
  = map HashChainBlock.hash (HashChainDigest.build calls').
Proof.
  revert calls'.
  induction calls as [|[[now d] n] calls IH] using rev_ind; intros calls' Heq.
  - destruct calls' as [|c' calls']; [reflexivity | discriminate].
  - destruct calls' as [|[[now' d'] n'] calls'] using rev_ind.
    + rewrite map_app in Heq. destruct (map _ calls); discriminate.
    + clear IHcalls'. rewrite !map_app in Heq. simpl in Heq.
      apply app_inj_tail in Heq as [Heq Hd].
      rewrite !build_chain_snoc, !add_block_unfold, !map_app.
      specialize (IH calls' Heq). rewrite IH. simpl. rewrite Hd.
      unfold HashChainDigest.prev_of.
      assert (Hl : (HashChainBlock.hash <$> last (HashChainDigest.build calls))
                   = (HashChainBlock.hash <$> last (HashChainDigest.build calls'))).
      { rewrite <- !fmap_last. f_equal. exact IH. }
      destruct (last (HashChainDigest.build calls)),
               (last (HashChainDigest.build calls')); simpl in Hl; try discriminate.
      * injection Hl as ->. reflexivity.
      * reflexivity.
Qed.

Lemma build_hashes_depend_on_data_witness :
  map HashChainBlock.hash (HashChainDigest.build [(0, PyStr "a", 1); (3, PyStr "b", 2)])
  = map HashChainBlock.hash (HashChainDigest.build [(7, PyStr "a", 5); (9, PyStr "b", 5)]).
Proof. apply build_hashes_depend_on_data. reflexivity. Defined.

(** ** Version vector: storing and reading entries *)

(** X4: [update_entry] followed by [get_entries].  The entries of the
    updated principal are its previous entries (none if it was unknown)
    followed by the new one; the entries of every other principal, and the
    [KeyError] of an unknown one, are as before; a bound method used as key
    always gives [KeyError]; the vector is not empty afterwards. *)
Theorem update_entry_get_entries (vector : VersionVector.t)
    (vector_id entry_id view sequence_number : Z) (hcd : hcd_val) (k : Z) (name : string) :
  let vector' :=
    VersionVector.update_entry vector vector_id entry_id view sequence_number hcd in
  VersionVector.get_entries vector' (KInt vector_id)
  = Returned (match VersionVector.get_entries vector (KInt vector_id) with
              | Returned entries => entries
              | Raised _ => []
              end ++ [VersionVectorEntry.mk entry_id view sequence_number hcd])
  /\ (k <> vector_id ->
      VersionVector.get_entries vector' (KInt k) = VersionVector.get_entries vector (KInt k))
  /\ VersionVector.get_entries vector' (KMethod name) = Raised KeyError
  /\ VersionVector.is_empty vector' = false.
Proof.
  unfold VersionVector.update_entry, VersionVector.get_entries. simpl.
  split; [|split; [|split]].
  - rewrite dict_get_append, decide_True by reflexivity.
    destruct (dict_get vector_id vector); reflexivity.
  - intros Hk. rewrite dict_get_append, decide_False by congruence. reflexivity.
  - reflexivity.
  - destruct vector as [|[k0 l0] vector]; simpl; [reflexivity|].
    destruct (decide (k0 = vector_id)); reflexivity.
Qed.

Lemma update_entry_get_entries_witness :
  VersionVector.get_entries (VersionVector.update_entry [] 7 0 0 5 (HcdStr "h")) (KInt 3)
  = Raised KeyError.
Proof.
  destruct (update_entry_get_entries [] 7 0 0 5 (HcdStr "h") 3 "") as (_ & H & _).
  rewrite H; [reflexivity | discriminate].
Defined.

(** X5: the second argument of [get_entry] is a position in the list of
    the principal, not a replica id.  Right after [update_entry] the new
    entry is at position [n] (the number of entries the principal had) and
    at position [-1]; the older positions are unchanged; every position
    above [n] raises [IndexError]. *)
Theorem update_entry_get_entry (vector : VersionVector.t)
    (vector_id entry_id view sequence_number : Z) (hcd : hcd_val) :
  let vector' :=
    VersionVector.update_entry vector vector_id entry_id view sequence_number hcd in
  let n := Z.of_nat (length (default [] (dict_get vector_id vector))) in
  let e := VersionVectorEntry.mk entry_id view sequence_number hcd in
  VersionVector.get_entry vector' (KInt vector_id) n = Returned e
  /\ VersionVector.get_entry vector' (KInt vector_id) (-1) = Returned e
  /\ (forall i, 0 <= i < n ->
        VersionVector.get_entry vector' (KInt vector_id) i
        = VersionVector.get_entry vector (KInt vector_id) i)
  /\ (forall i, n < i ->
        VersionVector.get_entry vector' (KInt vector_id) i = Raised IndexError).
Proof.
  intros vector' n e.
  assert (Hget : VersionVector.get_entries vector' (KInt vector_id)
                 = Returned (default [] (dict_get vector_id vector) ++ [e])).
  { unfold vector', VersionVector.update_entry, VersionVector.get_entries.
    rewrite dict_get_append, decide_True by reflexivity. reflexivity. }
  unfold VersionVector.get_entry. rewrite Hget. simpl.
  set (old := default [] (dict_get vector_id vector)) in *.
  assert (Hlen : Z.of_nat (length (old ++ [e])) = n + 1)
    by (rewrite length_app; simpl; unfold n; lia).
  split; [|split; [|split]].
  - replace n with (Z.of_nat (length (old ++ [e])) - 1) by lia. apply py_index_last.
  - unfold py_index. cbv zeta. rewrite Hlen.
    change (-1 <? 0) with true. cbv iota.
    rewrite (proj2 (Z.ltb_ge (-1 + (n + 1)) 0)) by (unfold n; lia).
    rewrite (proj2 (Z.leb_gt (n + 1) (-1 + (n + 1)))) by lia. cbn [orb].
    replace (Z.to_nat (-1 + (n + 1))) with (length old) by (unfold n; lia).
    rewrite lookup_app_r by lia. rewrite Nat.sub_diag. reflexivity.
  - intros i Hi. unfold VersionVector.get_entries.
    assert (Hold : dict_get vector_id vector = Some old).
    { unfold old, n in *. destruct (dict_get vector_id vector); [reflexivity|].
      simpl in Hi. lia. }
    rewrite Hold. simpl. unfold py_index. cbv zeta. rewrite Hlen.
    fold n. rewrite (proj2 (Z.ltb_ge i 0)) by lia. cbv iota.
    rewrite (proj2 (Z.ltb_ge i 0)) by lia.
    rewrite (proj2 (Z.leb_gt (n + 1) i)) by lia.
    rewrite (proj2 (Z.leb_gt n i)) by lia. cbn [orb].
    rewrite lookup_app_l by (unfold n in Hi; lia). reflexivity.
  - intros i Hi. unfold py_index. cbv zeta. rewrite Hlen.
    rewrite (proj2 (Z.ltb_ge i 0)) by (unfold n in *; lia). cbv iota.
    rewrite (proj2 (Z.ltb_ge i 0)) by (unfold n in *; lia).
    rewrite (proj2 (Z.leb_le (n + 1) i)) by lia. reflexivity.
Qed.

(** A replica with id 1 that stored one entry under its own id cannot
    read it back with [get_entry(1, 1)]. *)
Lemma update_entry_get_entry_witness :
  VersionVector.get_entry (VersionVector.update_entry [] 1 1 0 5 (HcdStr "h")) (KInt 1) 1
  = Raised IndexError.
Proof.
  destruct (update_entry_get_entry [] 1 1 0 5 (HcdStr "h")) as (_ & _ & _ & H).
  apply H. simpl. lia.
Defined.

(** ** Version vector: which pair [get_current_system_state] returns *)

Section FirstKeys.
Context {K : Type} `{EqDecision K}.
Implicit Types (l acc : list K) (k : K).

Lemma first_keys_from_cons acc k l :
  first_keys_from acc (k :: l)
  = first_keys_from (if decide (k ∈ acc) then acc else acc ++ [k]) l.
Proof. reflexivity. Qed.

Lemma first_keys_from_app acc l1 l2 :
  first_keys_from acc (l1 ++ l2) = first_keys_from (first_keys_from acc l1) l2.
Proof. apply fold_left_app. Qed.

Lemma first_keys_from_prefix l : forall acc, exists r, first_keys_from acc l = acc ++ r.
Proof.
  induction l as [|k l IH]; intros acc.
  - exists []. symmetry. apply app_nil_r.
  - rewrite first_keys_from_cons. destruct (decide (k ∈ acc)); [apply IH|].
    destruct (IH (acc ++ [k])) as [r Hr]. exists (k :: r).
    rewrite Hr, <- app_assoc. reflexivity.
Qed.

Lemma first_keys_from_covers l : forall acc k,
  k ∈ acc \/ k ∈ l -> k ∈ first_keys_from acc l.
Proof.
  induction l as [|x l IH]; intros acc k.
  - intros [H|H]; [exact H | inversion H].
  - rewrite first_keys_from_cons. intros H. apply IH.
    destruct H as [H|[->|H]%elem_of_cons]; [| |right; exact H].
    + left. destruct (decide (x ∈ acc)); [exact H|]. apply elem_of_app. left. exact H.
    + left. destruct (decide (x ∈ acc)) as [Hin|Hnin]; [exact Hin|].
      apply elem_of_app. right. apply list_elem_of_here.
Qed.

Lemma first_keys_from_sound l : forall acc k,
  k ∈ first_keys_from acc l -> k ∈ acc \/ k ∈ l.
Proof.
  induction l as [|x l IH]; intros acc k; [auto|].
  rewrite first_keys_from_cons.
  intros H. apply IH in H as [H|H]; [|right; apply list_elem_of_further, H].
  destruct (decide (x ∈ acc)); [left; exact H|].
  apply elem_of_app in H as [H|H]; [left; exact H|].
  apply list_elem_of_singleton in H. subst. right. apply list_elem_of_here.
Qed.

Lemma NoDup_split_unique (a a' b b' : list K) k :
  NoDup (a ++ k :: b) -> a ++ k :: b = a' ++ k :: b' -> a = a'.
Proof.
  revert a'. induction a as [|x a IH]; intros a' Hnd Heq.
  - destruct a' as [|y a']; [reflexivity|].
    simpl in *. injection Heq as <- Heq.
    apply NoDup_cons in Hnd as [Hk _]. exfalso. apply Hk.
    rewrite Heq. apply elem_of_app. right. apply list_elem_of_here.
  - destruct a' as [|y a']; simpl in *.
    + injection Heq as -> Heq. apply NoDup_cons in Hnd as [Hk _].
      exfalso. apply Hk. apply elem_of_app. right. apply list_elem_of_here.
    + injection Heq as <- Heq. apply NoDup_cons in Hnd as [_ Hnd].
      f_equal. apply IH; assumption.
Qed.
End FirstKeys.

Lemma find_split {A} (p : A -> bool) (l : list A) (x : A) :
  find p l = Some x ->
  exists l1 l2, l = l1 ++ x :: l2 /\ p x = true /\ forall y, y ∈ l1 -> p y = false.
Proof.
  induction l as [|a l IH]; simpl; [discriminate|].
  destruct (p a) eqn:Ea.
  - intros [= ->]. exists [], l. split; [reflexivity|]. split; [exact Ea|].
    intros y Hy. inversion Hy.
  - intros H. destruct (IH H) as (l1 & l2 & -> & Hx & Hall).
    exists (a :: l1), l2. split; [reflexivity|]. split; [exact Hx|].
    intros y [->|Hy]%elem_of_cons; [exact Ea | apply Hall, Hy].
Qed.

Lemma counter_keys_fold (es : list VersionVectorEntry.t) :
  forall c : list (string * hcd_val * list VersionVectorEntry.t),
    (fold_left (fun c e => dict_append (VersionVector.key e) e c) es c).*1
    = first_keys_from (c.*1) (map VersionVector.key es).
Proof.
  induction es as [|e es IH]; intros c; [reflexivity|].
  cbn [fold_left]. rewrite IH.
  change (map VersionVector.key (e :: es))
    with (VersionVector.key e :: map VersionVector.key es).
  rewrite first_keys_from_cons. f_equal.
  destruct (dict_append_keys (VersionVector.key e) e c) as [[Hin ->]|[Hnin ->]].
  - rewrite decide_True by exact Hin. reflexivity.
  - rewrite decide_False by exact Hnin. reflexivity.
Qed.

Lemma counter_keys (vector : VersionVector.t) :
  (VersionVector.counter vector).*1
  = first_keys (map VersionVector.key (VersionVector.all_entries vector)).
Proof.
  unfold VersionVector.counter, VersionVector.all_entries.
  rewrite counter_flat, counter_keys_fold. reflexivity.
Qed.

Lemma get_current_system_state_found (vector : VersionVector.t) (f : Z)
    (e : VersionVectorEntry.t) :
  VersionVector.get_current_system_state vector f = Returned (Some e) ->
  exists l,
    find (fun kv => 2 * f + 1 <=? Z.of_nat (length kv.2)) (VersionVector.counter vector)
    = Some (VersionVector.key e, l).
Proof.
  destruct (counter_spec vector) as [Hnd Hget].
  unfold VersionVector.get_current_system_state.
  destruct (find _ (VersionVector.counter vector)) as [[k l]|] eqn:Hfind; [|discriminate].
  pose proof Hfind as Hf.
  apply find_some in Hf as [Hin _].
  apply list_elem_of_In in Hin. apply (elem_of_dict_get _ _ _ Hnd) in Hin.
  rewrite Hget in Hin.
  destruct (filter _ _) as [|x l'] eqn:Hfl; [discriminate|]. injection Hin as <-.
  destruct (py_min_spec VersionVectorEntry.replica_id (x :: l') ltac:(discriminate))
    as (m & -> & Hm & _).
  simpl. intros [= <-]. rewrite <- Hfl in Hm.
  apply list_elem_of_filter in Hm as [<- _]. eauto.
Qed.

(** X6: among the pairs carried by [2f+1] stored entries, the one that
    was stored first wins.  If a state is returned, every entry stored
    before the first entry with the returned [(seq, digest)] pair belongs
    to a pair that does not reach [2f+1] entries. *)
Theorem get_current_system_state_first_pair (vector : VersionVector.t) (f : Z)
    (e e0 : VersionVectorEntry.t) (l1 l2 : list VersionVectorEntry.t) :
  VersionVector.get_current_system_state vector f = Returned (Some e) ->
  VersionVector.all_entries vector = l1 ++ e0 :: l2 ->
  VersionVector.same_state e e0 ->
  (forall x, x ∈ l1 -> ~ VersionVector.same_state e x) ->
  forall x, x ∈ l1 ->
    Z.of_nat (length (VersionVector.group vector x)) < 2 * f + 1.
Proof.
  intros Hres Hall Hsame Hfirst x Hx.
  destruct (get_current_system_state_found vector f e Hres) as [l Hfind].
  destruct (counter_spec vector) as [Hnd Hget].
  apply find_split in Hfind as (c1 & c2 & Hc & _ & Hbefore).
  pose proof (counter_keys vector) as Hkeys.
  rewrite Hc, Hall, fmap_app, map_app in Hkeys. simpl in Hkeys.
  apply key_same_state in Hsame. rewrite Hsame in Hkeys.
  unfold first_keys in Hkeys.
  rewrite first_keys_from_app, first_keys_from_cons in Hkeys.
  set (A := first_keys_from [] (map VersionVector.key l1)) in *.
  assert (HkA : VersionVector.key e ∉ A).
  { intros Hin. apply first_keys_from_sound in Hin as [Hin|Hin]; [inversion Hin|].
    apply list_elem_of_fmap in Hin as (y & Hky & Hy).
    apply (Hfirst y Hy). apply key_same_state. symmetry. exact Hky. }
  rewrite decide_False in Hkeys by exact HkA.
  destruct (first_keys_from_prefix (map VersionVector.key l2) (A ++ [VersionVector.key e]))
    as [r Hr].
  rewrite Hr, <- app_assoc in Hkeys. simpl in Hkeys.
  assert (Hc1 : c1.*1 = A).
  { apply (NoDup_split_unique _ _ (c2.*1) r (VersionVector.key e)); [|exact Hkeys].
    rewrite Hc, fmap_app in Hnd. exact Hnd. }
  assert (HxA : VersionVector.key x ∈ c1.*1).
  { rewrite Hc1. apply first_keys_from_covers. right.
    apply list_elem_of_fmap. exists x. auto. }
  apply list_elem_of_fmap in HxA as ([kx lx] & Hkx & Hin). simpl in Hkx. subst kx.
  specialize (Hbefore _ Hin). simpl in Hbefore. apply Z.leb_gt in Hbefore.
  assert (Hin' : (VersionVector.key x, lx) ∈ VersionVector.counter vector).
  { rewrite Hc. apply elem_of_app. left. exact Hin. }
  apply (elem_of_dict_get _ _ _ Hnd) in Hin'. rewrite Hget in Hin'.
  rewrite group_by_key.
  destruct (filter _ _) as [|y l'] eqn:Hfl; [discriminate|]. injection Hin' as <-.
  exact Hbefore.
Qed.

Lemma get_current_system_state_first_pair_witness :
  VersionVector.get_current_system_state Scenario2.vector_two_states 1
  = Returned (Some (VersionVectorEntry.mk 0 0 2 (HcdStr "h2")))
  /\ Z.of_nat (length (VersionVector.group Scenario2.vector_two_states
                         (VersionVectorEntry.mk 0 0 1 (HcdStr "h1")))) < 2 * 1 + 1.
Proof.
  split; [reflexivity|].
  apply (get_current_system_state_first_pair Scenario2.vector_two_states 1
           (VersionVectorEntry.mk 0 0 2 (HcdStr "h2"))
           (VersionVectorEntry.mk 2 0 2 (HcdStr "h2"))
           [VersionVectorEntry.mk 0 0 1 (HcdStr "h1")]
           [VersionVectorEntry.mk 1 0 2 (HcdStr "h2");
            VersionVectorEntry.mk 0 0 2 (HcdStr "h2")]).
  - reflexivity.
  - reflexivity.
  - split; reflexivity.
  - intros x Hx [Hs _]. apply list_elem_of_singleton in Hx. subst x. discriminate Hs.
  - apply list_elem_of_here.
Defined.

(** X7: with [f <= 0], the value [Client.make_request] passes, a
    non-empty vector always has a state, and it is the state of the entry
    stored first: the oldest [(seq, digest)] pair, not the latest. *)
Theorem get_current_system_state_oldest (vector : VersionVector.t) (f : Z)
    (e0 : VersionVectorEntry.t) (rest : list VersionVectorEntry.t) :
  f <= 0 ->
  VersionVector.all_entries vector = e0 :: rest ->
  exists e,
    VersionVector.get_current_system_state vector f = Returned (Some e)
    /\ VersionVector.same_state e0 e
    /\ e ∈ VersionVector.all_entries vector.
Proof.
  intros Hf Hall.
  destruct (counter_spec vector) as [Hnd Hget].
  pose proof (counter_keys vector) as Hkeys.
  rewrite Hall in Hkeys. unfold first_keys in Hkeys.
  change (map VersionVector.key (e0 :: rest))
    with (VersionVector.key e0 :: map VersionVector.key rest) in Hkeys.
  rewrite first_keys_from_cons in Hkeys.
  rewrite decide_False in Hkeys by (intros H; inversion H).
  destruct (first_keys_from_prefix (map VersionVector.key rest) ([] ++ [VersionVector.key e0]))
    as [r Hr].
  rewrite Hr in Hkeys. simpl in Hkeys.
  destruct (VersionVector.counter vector) as [|[k0 l0] c'] eqn:Hc; [discriminate|].
  simpl in Hkeys. injection Hkeys as -> _.
  specialize (Hget (VersionVector.key e0)). simpl in Hget.
  rewrite decide_True in Hget by reflexivity.
  assert (Hin0 : e0 ∈ filter (fun e => VersionVector.key e = VersionVector.key e0)
                         (VersionVector.all_entries vector)).
  { apply list_elem_of_filter. split; [reflexivity|]. rewrite Hall. apply list_elem_of_here. }
  destruct (filter _ _) as [|y l'] eqn:Hfl; [inversion Hin0|]. injection Hget as ->.
  unfold VersionVector.get_current_system_state. rewrite Hc. simpl find.
  rewrite (proj2 (Z.leb_le (2 * f + 1) _)) by (simpl; lia).
  destruct (py_min_spec VersionVectorEntry.replica_id (y :: l') ltac:(discriminate))
    as (m & -> & Hm & _).
  exists m. split; [reflexivity|].
  rewrite <- Hfl in Hm. apply list_elem_of_filter in Hm as [Hk Hm].
  split; [apply key_same_state, Hk | exact Hm].
Qed.

Lemma get_current_system_state_oldest_witness :
  exists e,
    VersionVector.get_current_system_state Scenario2.vector_two_states 0 = Returned (Some e)
    /\ VersionVector.same_state (VersionVectorEntry.mk 0 0 1 (HcdStr "h1")) e
    /\ e ∈ VersionVector.all_entries Scenario2.vector_two_states.
Proof.
  apply (get_current_system_state_oldest Scenario2.vector_two_states 0
           (VersionVectorEntry.mk 0 0 1 (HcdStr "h1"))
           [VersionVectorEntry.mk 2 0 2 (HcdStr "h2");
            VersionVectorEntry.mk 1 0 2 (HcdStr "h2");
            VersionVectorEntry.mk 0 0 2 (HcdStr "h2")]);
    [lia | reflexivity].
Defined.

(** ** What the handlers never undo *)

Section Grows.
Import Replica ReplicaRest.

Lemma grows_refl (b : bool) (s : t) : grows b s s.
Proof. constructor; auto; lia. Qed.

Lemma grows_trans (b : bool) (s1 s2 s3 : t) :
  grows b s1 s2 -> grows b s2 s3 -> grows b s1 s3.
Proof.
  intros [] []. constructor; try congruence; try lia; try (etrans; eassumption); auto.
  intros Hb. rewrite grows_hcd_same1, grows_hcd_same0 by exact Hb. reflexivity.
Qed.

Lemma grows_weaken (b : bool) (s1 s2 : t) : grows false s1 s2 -> grows b s1 s2.
Proof. intros []. constructor; auto. Qed.

Ltac grows_setter :=
  constructor; simpl; rewrite ?add_block_unfold;
  try reflexivity; try lia; auto;
  try (apply prefix_app_r; reflexivity); try apply prefix_nil.

Lemma bind_final {S E A B} (m : Py S E A) (k : A -> Py S E B) (s : S) :
  final_state (bind m k s)
  = match m s with
    | (s1, _, Returned a) => final_state (k a s1)
    | (s1, _, Raised _) => s1
    end.
Proof.
  unfold bind, final_state. destruct (m s) as [[s1 ev] [a|e]]; [|reflexivity].
  destruct (k a s1) as [[s2 ev2] r]. reflexivity.
Qed.

(** Symbolic execution of one step of a handler towards a [grows] goal:
    [m] is a computation whose final state is known to have grown. *)
Lemma grows_bind {A B} (b : bool) (m : Py t event A) (k : A -> Py t event B)
    (s0 s : t) :
  grows b s0 (final_state (m s)) ->
  (forall a s1, grows b s0 s1 -> s1 = final_state (m s) ->
                outcome_of (m s) = Returned a -> grows b s0 (final_state (k a s1))) ->
  grows b s0 (final_state (bind m k s)).
Proof.
  intros Hm Hk. rewrite bind_final. unfold final_state, outcome_of in *.
  destruct (m s) as [[s1 ev] [a|e]]; simpl in *; [|exact Hm].
  apply Hk; auto.
Qed.

Lemma note_sender_grows (b : bool) (id : Z) (s : t) : grows b s (final_state (note_sender id s)).
Proof.
  unfold note_sender, add_replica, final_state, bind, get, lift, modify, ret.
  destruct (find_replica s id) as [x|e]; simpl; [|apply grows_refl].
  destruct (existsb _ _) eqn:E; simpl; rewrite ?E; simpl;
    [apply grows_refl | grows_setter].
Qed.

Lemma multicast_message_final (m : payload) (s : t) :
  final_state (multicast_message m s) = s.
Proof. rewrite multicast_message_spec. reflexivity. Qed.

Lemma start_timer_grows (b : bool) (s : t) : grows b s (final_state (start_timer s)).
Proof.
  unfold start_timer, final_state, bind, get, modify, emit, ret.
  destruct (timer s) eqn:E; simpl; [apply grows_refl | grows_setter].
Qed.

Lemma send_reply_final (c : Z) (r : option cached) (s : t) :
  final_state (send_reply c r s) = s.
Proof.
  unfold send_reply, final_state, bind, get, raise, emit.
  destruct (find_client s c); simpl; [|reflexivity].
  destruct r as [[|]|]; reflexivity.
Qed.

Lemma reissue_guard_never_true (O : list payload) :
  reissue_guard O <> Returned true.
Proof.
  unfold reissue_guard. destruct (py_index O 0) as [first|]; simpl; [|discriminate].
  destruct (get_message_type first) as [[]|]; simpl; discriminate.
Qed.

Lemma new_view_loop (reissue : NewViewMessage.t -> Py t event unit)
    (data : NewViewMessage.t) (V : list ViewChangeMessage.t) (s : t) :
  exists r,
    for_each V (fun _ =>
                  ok <- lift (reissue_guard (NewViewMessage.O data)) ;;
                  if ok : bool then reissue data else ret tt) s
    = (s, [], r).
Proof.
  pose proof (reissue_guard_never_true (NewViewMessage.O data)) as Hg.
  induction V as [|v V [r IH]]; [eexists; reflexivity|].
  simpl. unfold bind at 1. unfold bind at 1, lift at 1.
  destruct (reissue_guard (NewViewMessage.O data)) as [[|]|e];
    [congruence | | eexists; reflexivity].
  unfold ret at 1. rewrite IH. eexists. reflexivity.
Qed.
Lemma receive_new_view_run (reissue : NewViewMessage.t -> Py t event unit)
    (data : NewViewMessage.t) (s : t) :
  exists r,
    receive_new_view reissue data s
    = (if NewViewMessage.view data <=? view s then s
       else set_view (NewViewMessage.view data) s, [], r).
Proof.
  unfold receive_new_view, bind at 1, get at 1.
  destruct (NewViewMessage.view data <=? view s); [eexists; reflexivity|].
  unfold bind at 1, modify at 1.
  destruct (new_view_loop reissue data (NewViewMessage.V data)
              (set_view (NewViewMessage.view data) s)) as [r ->].
  eexists. reflexivity.
Qed.

Lemma receive_new_view_grows (b : bool) (reissue : NewViewMessage.t -> Py t event unit)
    (data : NewViewMessage.t) (s : t) :
  grows b s (final_state (receive_new_view reissue data s)).
Proof.
  destruct (receive_new_view_run reissue data s) as [r ->]. unfold final_state. simpl.
  destruct (Z.leb_spec (NewViewMessage.view data) (view s));
    [apply grows_refl | grows_setter].
Qed.

Lemma receive_prepare_grows (now : float) (data : PrepareMessage.t) (s : t) :
  grows true s (final_state (receive_prepare now data s)).
Proof.
  unfold receive_prepare.
  apply grows_bind; [apply note_sender_grows|]. intros [] s1 H1 _ _.
  apply grows_bind.
  { eapply grows_trans; [exact H1|]. unfold modify, final_state. simpl. grows_setter. }
  intros [] s2 H2 _ _.
  rewrite bind_final. unfold get at 1. cbn beta iota.
  destruct (2 * f s2 <=? total_matching_prepare s2 data); [|exact H2].
  destruct (2 * f s2 <=? total_matching_sequence_number s2 data); [|exact H2].
  rewrite bind_final. unfold modify at 1. cbn beta iota.
  rewrite bind_final. unfold modify at 1. cbn beta iota.
  rewrite bind_final. unfold modify at 1. cbn beta iota.
  rewrite multicast_message_final.
  eapply grows_trans; [exact H2|]. grows_setter.
Qed.

Lemma receive_request_grows (b : bool) (data : RequestMessage.t) (s : t) :
  grows b s (final_state (receive_request data s)).
Proof.
  unfold receive_request.
  rewrite bind_final. unfold get at 1. cbn beta iota zeta.
  rewrite bind_final. unfold lift at 1.
  destruct (not_cached s data) as [[|]|e]; try apply grows_refl.
  destruct (against_last_block Z.ltb s data); [apply grows_refl|].
  destruct (against_last_block Z.eqb s data).
  - apply grows_bind; [rewrite send_reply_final; apply grows_refl|].
    intros [] s1 H1 _ _. eapply grows_trans; [exact H1 | apply start_timer_grows].
  - rewrite bind_final. unfold lift at 1.
    destruct (known_state_ok s _ data) as [[|]|e]; try apply grows_refl.
    rewrite bind_final. unfold modify at 1. cbn beta iota.
    set (s1 := set_accepted_requests _ s).
    assert (H1 : grows b s s1) by (subst s1; grows_setter).
    apply grows_bind.
    { destruct (is_primary s); [rewrite multicast_message_final|]; exact H1. }
    intros [] s2 H2 _ _. eapply grows_trans; [exact H2 | apply start_timer_grows].
Qed.

Lemma receive_pre_prepare_grows (b : bool) (data : PrePrepareMessage.t) (s : t) :
  grows b s (final_state (receive_pre_prepare data s)).
Proof.
  unfold receive_pre_prepare.
  apply grows_bind; [apply note_sender_grows|]. intros [] s1 H1 _ _.
  rewrite bind_final. unfold get at 1. cbn beta iota.
  apply grows_bind.
  { destruct (bool_decide (received_pre_prepare_messages s1 = [])) eqn:E;
      [|exact H1].
    apply bool_decide_eq_true in E.
    eapply grows_trans; [exact H1|]. unfold modify, final_state. simpl.
    grows_setter. rewrite E. apply prefix_nil. }
  intros [] s2 H2 _ _.
  rewrite bind_final. unfold get at 1. cbn beta iota.
  destruct (existsb _ _); [exact H2|].
  destruct (out_of_window s2 data); [exact H2|].
  rewrite bind_final. unfold modify at 1. cbn beta iota.
  rewrite multicast_message_final.
  eapply grows_trans; [exact H2|]. grows_setter.
Qed.
Lemma checkpoint_loop_final (data : CommitMessage.t) (l : list peer) (s : t) :
  final_state (for_each l (checkpoint_entry data) s) = s.
Proof.
  induction l as [|p l IH]; [reflexivity|].
  cbn [for_each]. rewrite bind_final.
  assert (H : exists ev r, checkpoint_entry data p s = (s, ev, r)).
  { unfold checkpoint_entry, bind, get, lift, raise, ret.
    destruct (peer_version_vector s p) as [vv|e]; simpl; [|eauto].
    destruct (VersionVector.is_empty vv); simpl; [|eauto].
    destruct (peer_replica_id s p) as [id|e]; simpl; [|eauto].
    destruct (VersionVector.get_entry vv _ id) as [en|e]; simpl; [|eauto].
    destruct (_ <=? _); simpl; eauto. }
  destruct H as (ev & r & ->). destruct r; [exact IH | reflexivity].
Qed.

Lemma count_commits_grows (b : bool) (data : CommitMessage.t) (s : t) :
  grows b s (final_state (count_commits data s)).
Proof.
  unfold count_commits.
  apply grows_bind; [apply note_sender_grows|]. intros [] s1 H1 _ _.
  apply grows_bind.
  { eapply grows_trans; [exact H1|]. unfold modify, final_state. simpl. grows_setter. }
  intros [] s2 H2 _ _.
  rewrite bind_final. unfold get at 1. cbn beta iota.
  apply grows_bind.
  { destruct (existsb _ _); [exact H2|].
    eapply grows_trans; [exact H2|]. unfold modify, final_state. simpl. grows_setter. }
  intros [] s3 H3 _ _. exact H3.
Qed.

Lemma receive_commit_grows (b : bool) (data : CommitMessage.t) (s : t) :
  grows b s (final_state (receive_commit data s)).
Proof.
  unfold receive_commit.
  apply grows_bind; [apply count_commits_grows|]. intros total s1 H1 _ _.
  rewrite bind_final. unfold get at 1. cbn beta iota.
  destruct (2 * f s1 + 1 <=? total); [|exact H1].
  rewrite bind_final. unfold lift at 1.
  destruct (select_request s1) as [msg_n|e]; [|exact H1].
  rewrite bind_final.
  change (execute_operation (RequestMessage.operation msg_n) s1)
    with (s1, [Print ("Replica " +:+ str_int (replica_id s1) +:+ " executed operation: "
                      +:+ RequestMessage.operation msg_n)], Returned true).
  cbn beta iota.
  apply grows_bind.
  { rewrite bind_final. unfold modify at 1. cbn beta iota.
    rewrite bind_final. unfold modify at 1. cbn beta iota.
    rewrite send_reply_final. eapply grows_trans; [exact H1|]. grows_setter. }
  intros [] s2 H2 _ _.
  rewrite bind_final. unfold lift at 1.
  destruct (py_mod _ _) as [m|e]; [|exact H2].
  destruct (m =? 0); [|exact H2].
  rewrite bind_final. unfold get at 1. cbn beta iota.
  rewrite bind_final.
  pose proof (checkpoint_loop_final data (replicas s2) s2) as Hloop.
  unfold final_state in Hloop.
  destruct (for_each (replicas s2) (checkpoint_entry data) s2) as [[s3 ev3] [[]|e]];
    simpl in Hloop; subst s3; [|exact H2].
  rewrite bind_final. unfold modify at 1. cbn beta iota.
  rewrite multicast_message_final.
  eapply grows_trans; [exact H2|]. grows_setter.
Qed.

Lemma handle_all_grows (reissue : NewViewMessage.t -> Py t event unit)
    (cs : list call) :
  forall s, grows (existsb is_prepare_call cs) s (final_state (handle_all reissue cs s)).
Proof.
  unfold handle_all.
  induction cs as [|c cs IH]; intros s; [apply grows_refl|].
  cbn [for_each existsb].
  apply grows_bind.
  - destruct c; simpl;
      [apply receive_request_grows | apply receive_pre_prepare_grows
       | apply receive_prepare_grows | apply receive_commit_grows
       | apply receive_new_view_grows].
  - intros [] s1 H1 _ _. eapply grows_trans; [exact H1|].
    destruct (is_prepare_call c); simpl; [|apply IH].
    destruct (existsb is_prepare_call cs) eqn:E; [apply IH|].
    apply grows_weaken, IH.
Qed.

End Grows.

(** X8: the configuration of a replica is fixed at construction.  No run
    of handler calls changes [primary], not even one that adopts a new
    view, nor [f], the replica id, the address or the clients. *)
Theorem handlers_keep_configuration (reissue : NewViewMessage.t -> Py Replica.t event unit)
    (cs : list ReplicaRest.call) (s : Replica.t) :
  let s' := final_state (ReplicaRest.handle_all reissue cs s) in
  Replica.is_primary s' = Replica.is_primary s
  /\ Replica.f s' = Replica.f s
  /\ Replica.replica_id s' = Replica.replica_id s
  /\ Replica.host s' = Replica.host s
  /\ Replica.port s' = Replica.port s
  /\ Replica.clients s' = Replica.clients s.
Proof.
  destruct (handle_all_grows reissue cs s). unfold Replica.is_primary. auto 10.
Qed.

(** X9: the handlers only add.  After any run of handler calls the
    stores of requests, pre-prepares, prepares and commits, the replica
    list and the hash chain are the old ones with elements added at the
    end; an armed timer is still armed (no handler cancels it) and the
    view has not decreased. *)
Theorem handlers_only_add (reissue : NewViewMessage.t -> Py Replica.t event unit)
    (cs : list ReplicaRest.call) (s : Replica.t) :
  let s' := final_state (ReplicaRest.handle_all reissue cs s) in
  Replica.accepted_requests s `prefix_of` Replica.accepted_requests s'
  /\ Replica.received_pre_prepare_messages s
     `prefix_of` Replica.received_pre_prepare_messages s'
  /\ Replica.received_prepare_messages s `prefix_of` Replica.received_prepare_messages s'
  /\ Replica.received_commit_messages s `prefix_of` Replica.received_commit_messages s'
  /\ Replica.replicas s `prefix_of` Replica.replicas s'
  /\ Replica.hcd s `prefix_of` Replica.hcd s'
  /\ (Replica.timer s = true -> Replica.timer s' = true)
  /\ Replica.view s <= Replica.view s'.
Proof. destruct (handle_all_grows reissue cs s). auto 10. Qed.

Lemma handlers_only_add_witness :
  Replica.timer
    (final_state (ReplicaRest.handle_all (fun _ => ret tt)
                    [ReplicaRest.CallCommit Scenario.commit1]
                    (Replica.set_timer true Scenario.replica0_replied))) = true.
Proof.
  destruct (handlers_only_add (fun _ => ret tt) [ReplicaRest.CallCommit Scenario.commit1]
              (Replica.set_timer true Scenario.replica0_replied))
    as (_ & _ & _ & _ & _ & _ & H & _).
  apply H. reflexivity.
Defined.

(** ** [receive_new_view] *)

Lemma reissue_guard_value (O : list payload) :
  ReplicaRest.reissue_guard O
  = match O with
    | [] => Raised IndexError
    | (MsgPrePrepare _ | MsgStr _) :: _ => Raised AttributeError
    | _ :: _ => Returned false
    end.
Proof. destruct O as [|[] O]; reflexivity. Qed.

Lemma guard_loop_false {S E A} (g : outcome bool) (body : Py S E unit) (V : list A) (s : S) :
  g = Returned false ->
  for_each V (fun _ => ok <- lift g ;; if ok : bool then body else ret tt) s
  = (s, [], Returned tt).
Proof.
  intros ->. induction V as [|v V IH]; [reflexivity|].
  cbn [for_each]. unfold bind at 1. unfold bind at 1, lift at 1. unfold ret at 1.
  rewrite IH. reflexivity.
Qed.

Lemma guard_loop_raised {S E A} (e : pyexn) (body : Py S E unit) (v : A) (V : list A) (s : S) :
  for_each (v :: V) (fun _ => ok <- lift (Raised e) ;; if ok : bool then body else ret tt) s
  = (s, [], Raised e).
Proof. reflexivity. Qed.

(** X10: [receive_new_view] ignores a view that is not higher than its
    own; otherwise it adopts the view and nothing else: it sends nothing,
    whatever [O] holds.  With [V] non-empty it then raises [IndexError]
    when [O] is empty and [AttributeError] when [O] starts with a
    pre-prepare (or a string); the view has been changed by then. *)
Theorem receive_new_view_adopts (reissue : NewViewMessage.t -> Py Replica.t event unit)
    (data : NewViewMessage.t) (s : Replica.t) :
  ReplicaRest.receive_new_view reissue data s
  = if NewViewMessage.view data <=? Replica.view s then (s, [], Returned tt)
    else (ReplicaRest.set_view (NewViewMessage.view data) s, [],
          match NewViewMessage.V data, NewViewMessage.O data with
          | [], _ => Returned tt
          | _ :: _, [] => Raised IndexError
          | _ :: _, (MsgPrePrepare _ | MsgStr _) :: _ => Raised AttributeError
          | _ :: _, _ :: _ => Returned tt
          end).
Proof.
  unfold ReplicaRest.receive_new_view, bind at 1, get at 1.
  destruct (NewViewMessage.view data <=? Replica.view s); [reflexivity|].
  unfold bind at 1, modify at 1.
  set (s1 := ReplicaRest.set_view _ s).
  destruct (NewViewMessage.V data) as [|v V]; [reflexivity|].
  rewrite reissue_guard_value.
  destruct (NewViewMessage.O data) as [|o O].
  - rewrite guard_loop_raised. reflexivity.
  - destruct o; first [ rewrite guard_loop_raised; reflexivity
                      | rewrite guard_loop_false by reflexivity; reflexivity ].
Qed.

(** ** [receive_pre_prepare], [receive_prepare] *)

Lemma total_matching_prepare_snoc (s : Replica.t) (data : PrepareMessage.t) :
  ReplicaRest.total_matching_prepare
    (ReplicaRest.set_received_prepare_messages
       (Replica.received_prepare_messages s ++ [data]) s) data
  = ReplicaRest.total_matching_prepare s data + 1.
Proof.
  unfold ReplicaRest.total_matching_prepare. simpl.
  rewrite fold_left_app. simpl. rewrite pyval_eqb_refl. reflexivity.
Qed.

Lemma total_matching_prepare_nonneg (s : Replica.t) (data : PrepareMessage.t) :
  0 <= ReplicaRest.total_matching_prepare s data.
Proof. unfold ReplicaRest.total_matching_prepare. rewrite fold_count. lia. Qed.

Lemma total_matching_sequence_number_nonneg (s : Replica.t) (data : PrepareMessage.t) :
  0 <= ReplicaRest.total_matching_sequence_number s data.
Proof. unfold ReplicaRest.total_matching_sequence_number. rewrite fold_count. lia. Qed.

(** The run of [receive_prepare] for a sender of [self.replicas]. *)
Lemma receive_prepare_run (now : float) (data : PrepareMessage.t) (s : Replica.t) (p : peer) :
  Replica.find_replica s (PrepareMessage.replica_id data) = Returned (Found p) ->
  let s1 := ReplicaRest.set_received_prepare_messages
              (Replica.received_prepare_messages s ++ [data]) s in
  let commit :=
    MsgCommit (CommitMessage.mk (Replica.heap_next s) (Replica.replica_id s)
                 (Replica.view s) (PrepareMessage.sequence_number data)
                 (HcdRef (Replica.hcd_addr s))) in
  ReplicaRest.receive_prepare now data s
  = if (2 * Replica.f s <=? ReplicaRest.total_matching_prepare s data + 1)
       && (2 * Replica.f s <=? ReplicaRest.total_matching_sequence_number s data)
    then (Replica.set_heap_next (S (Replica.heap_next s))
            (Replica.set_version_vector
               (VersionVector.update_entry (Replica.version_vector s)
                  (Replica.replica_id s) (Replica.replica_id s) (Replica.view s)
                  (PrepareMessage.sequence_number data) (HcdRef (Replica.hcd_addr s)))
               (ReplicaRest.set_hcd
                  (HashChainDigest.add_block (Replica.hcd s) now
                     (PrepareMessage.request_msg data)
                     (PrepareMessage.sequence_number data)) s1)),
          map (fun a => Send a.1 a.2 commit)
              (Replica.leading_addresses s (Replica.replicas s)),
          if Replica.all_replicas (Replica.replicas s)
          then Returned tt else Raised AttributeError)
    else (s1, [], Returned tt).
Proof.
  intros Hfind s1 commit.
  unfold ReplicaRest.receive_prepare.
  unfold bind at 1. rewrite (note_sender_found _ _ _ Hfind).
  unfold bind at 1, modify at 1. fold s1.
  unfold bind at 1, get at 1.
  pose proof (total_matching_prepare_snoc s data) as Hc. fold s1 in Hc. rewrite Hc.
  change (Replica.f s1) with (Replica.f s).
  change (ReplicaRest.total_matching_sequence_number s1 data)
    with (ReplicaRest.total_matching_sequence_number s data).
  destruct (2 * Replica.f s <=? ReplicaRest.total_matching_prepare s data + 1);
    [|reflexivity].
  destruct (2 * Replica.f s <=? ReplicaRest.total_matching_sequence_number s data);
    [|reflexivity].
  cbn [andb].
  unfold bind at 1, modify at 1. unfold bind at 1, modify at 1.
  unfold bind at 1, modify at 1.
  rewrite multicast_message_spec. cbn [fst snd app].
  f_equal. f_equal. f_equal. apply leading_addresses_ext; reflexivity.
Qed.



(** Below the quorum: when the sender is one of [self.replicas] and
    either count is below [2f], [receive_prepare] records the prepare and
    does nothing else: no block, no version vector entry, no message. *)
Theorem receive_prepare_below_quorum (now : float) (data : PrepareMessage.t)
    (s : Replica.t) (p : peer) :
  Replica.find_replica s (PrepareMessage.replica_id data) = Returned (Found p) ->
  ReplicaRest.total_matching_prepare s data + 1 < 2 * Replica.f s
  \/ ReplicaRest.total_matching_sequence_number s data < 2 * Replica.f s ->
  ReplicaRest.receive_prepare now data s
  = (ReplicaRest.set_received_prepare_messages
       (Replica.received_prepare_messages s ++ [data]) s, [], Returned tt).
Proof.
  intros Hfind H.
  rewrite (receive_prepare_run now data s p Hfind).
  destruct H as [H|H].
  - rewrite (proj2 (Z.leb_gt _ _) H). reflexivity.
  - rewrite (proj2 (Z.leb_gt _ _) H), andb_false_r. reflexivity.
Qed.

Lemma receive_prepare_below_quorum_witness :
  Replica.hcd PrepareScenario.replica_f1_one_prepare = []
  /\ events_of (ReplicaRest.receive_prepare 10 PrepareScenario.prepare1
                  PrepareScenario.replica_f1) = [].
Proof.
  split; [reflexivity|].
  rewrite (receive_prepare_below_quorum 10 PrepareScenario.prepare1
             PrepareScenario.replica_f1 (PeerReplica 1 "localhost" 5001 []));
    [reflexivity | reflexivity | left; vm_compute; reflexivity].
Defined.

(** With [f <= 0], as in the configurations of the tests, every
    PREPARE of a replica of the list reaches the quorum at once: a block
    is appended and a COMMIT is sent although no pre-prepare is stored and
    no request was accepted. *)
Theorem receive_prepare_without_faults (now : float) (data : PrepareMessage.t)
    (s : Replica.t) (p : peer) :
  Replica.f s <= 0 ->
  Replica.find_replica s (PrepareMessage.replica_id data) = Returned (Found p) ->
  let run := ReplicaRest.receive_prepare now data s in
  Replica.hcd (final_state run)
  = HashChainDigest.add_block (Replica.hcd s) now (PrepareMessage.request_msg data)
      (PrepareMessage.sequence_number data)
  /\ events_of run
     = map (fun a => Send a.1 a.2
                       (MsgCommit (CommitMessage.mk (Replica.heap_next s)
                          (Replica.replica_id s) (Replica.view s)
                          (PrepareMessage.sequence_number data)
                          (HcdRef (Replica.hcd_addr s)))))
           (Replica.leading_addresses s (Replica.replicas s))
  /\ events_of run <> [].
Proof.
  intros Hf Hfind run. subst run.
  pose proof (total_matching_prepare_nonneg s data) as Hp.
  pose proof (total_matching_sequence_number_nonneg s data) as Hs.
  rewrite (receive_prepare_run now data s p Hfind).
  rewrite (proj2 (Z.leb_le _ _)) by lia. rewrite (proj2 (Z.leb_le _ _)) by lia.
  cbn [andb]. unfold final_state, events_of. cbn [fst snd].
  repeat split.
  destruct (find_replica_in_found _ _ _ _ Hfind) as [_ Hne].
  destruct (Replica.leading_addresses _ _); [congruence | discriminate].
Qed.

Lemma receive_prepare_without_faults_witness :
  Replica.received_pre_prepare_messages Scenario.replica0 = []
  /\ Replica.accepted_requests Scenario.replica0 = []
  /\ length (Replica.hcd (final_state (ReplicaRest.receive_prepare 10
                                         PrepareScenario.prepare1 Scenario.replica0)))
     = 1%nat.
Proof.
  split; [reflexivity|]. split; [reflexivity|].
  destruct (receive_prepare_without_faults 10 PrepareScenario.prepare1 Scenario.replica0
              (PeerReplica 1 "localhost" 5001 []))
    as (H & _); [vm_compute; discriminate | reflexivity |].
  rewrite H. reflexivity.
Defined.



(** X13: the first pre-prepare is stored twice.  A pre-prepare accepted
    while the store is empty is appended before the checks and again after
    them, so it alone counts for two in [receive_prepare]; an accepted
    pre-prepare that finds a non-empty store is appended once. *)
Theorem receive_pre_prepare_stores (data : PrePrepareMessage.t) (s : Replica.t) (p : peer) :
  Replica.find_replica s (PrePrepareMessage.primary_replica_id data)
  = Returned (Found p) ->
  existsb (Replica.conflicts data) (Replica.received_pre_prepare_messages s) = false ->
  Replica.out_of_window s data = false ->
  Replica.received_pre_prepare_messages
    (final_state (Replica.receive_pre_prepare data s))
  = match Replica.received_pre_prepare_messages s with
    | [] => [data; data]
    | stored => stored ++ [data]
    end.
Proof.
  intros Hfind Hconf Hwin.
  unfold Replica.receive_pre_prepare.
  rewrite bind_final, (note_sender_found _ _ _ Hfind).
  rewrite bind_final. unfold get at 1. rewrite bind_final.
  destruct (Replica.received_pre_prepare_messages s) as [|m0 ms] eqn:Hr.
  - rewrite bool_decide_eq_true_2 by reflexivity.
    unfold modify at 1. rewrite bind_final. unfold get at 1.
    cbn [existsb Replica.received_pre_prepare_messages
         Replica.set_received_pre_prepare_messages].
    unfold Replica.conflicts at 1. rewrite pyval_eqb_refl, andb_false_r. cbn [orb].
    change (Replica.out_of_window (Replica.set_received_pre_prepare_messages [data] s) data)
      with (Replica.out_of_window s data).
    rewrite Hwin. rewrite bind_final. unfold modify at 1.
    rewrite multicast_message_final. reflexivity.
  - rewrite bool_decide_eq_false_2 by discriminate.
    unfold ret at 1. rewrite bind_final. unfold get at 1. rewrite Hr, Hconf, Hwin.
    rewrite bind_final. unfold modify at 1.
    rewrite multicast_message_final. reflexivity.
Qed.

Lemma receive_pre_prepare_stores_witness :
  ReplicaRest.total_matching_sequence_number
    (final_state (Replica.receive_pre_prepare Scenario.pre_prepare0
                    PrepareScenario.replica_f1))
    PrepareScenario.prepare1
  = 2.
Proof.
  unfold ReplicaRest.total_matching_sequence_number.
  rewrite (receive_pre_prepare_stores Scenario.pre_prepare0 PrepareScenario.replica_f1
             PeerSelf); reflexivity.
Defined.

(** ** [find_replica] and a sender that is not in the list *)

Lemma all_replicas_snoc_str (l : list peer) (str : string) :
  Replica.all_replicas (l ++ [PeerStr str]) = false.
Proof.
  unfold Replica.all_replicas. rewrite forallb_app. simpl. apply andb_false_r.
Qed.

Lemma leading_addresses_snoc_str (s : Replica.t) (l : list peer) (str : string) :
  Replica.all_replicas l = true ->
  Replica.leading_addresses s (l ++ [PeerStr str]) = Replica.leading_addresses s l.
Proof.
  induction l as [|q l IH]; [reflexivity|].
  simpl. destruct q; simpl; try discriminate; intros H; rewrite IH; auto.
Qed.

Lemma existsb_peer_str (s : Replica.t) (l : list peer) (str : string) :
  Replica.all_replicas l = true ->
  existsb (Replica.peer_eqb s (PeerStr str)) l = false.
Proof.
  induction l as [|q l IH]; [reflexivity|].
  simpl. destruct q; simpl; try discriminate; exact IH.
Qed.

Lemma find_replica_in_split (s : Replica.t) (l : list peer) (id : Z) (p : peer) :
  Replica.find_replica_in s l id = Returned (Found p)
  <-> exists l1 l2,
        l = l1 ++ p :: l2
        /\ Replica.peer_replica_id s p = Returned id
        /\ Forall (fun q => exists i, Replica.peer_replica_id s q = Returned i /\ i <> id) l1.
Proof.
  induction l as [|q l IH]; simpl.
  - split; [discriminate|]. intros (l1 & l2 & H & _). destruct l1; discriminate.
  - destruct (Replica.peer_replica_id s q) as [i|e] eqn:Eq; simpl.
    + destruct (bool_decide (i = id)) eqn:Ei.
      * apply bool_decide_eq_true in Ei. subst i. split.
        -- intros [= <-]. exists [], l. auto.
        -- intros (l1 & l2 & H & Hp & Hall).
           destruct l1 as [|q' l1]; simpl in H; injection H as -> ->; [reflexivity|].
           apply Forall_cons in Hall as [(i & Hi & Hne) _]. congruence.
      * apply bool_decide_eq_false in Ei. rewrite IH. split.
        -- intros (l1 & l2 & -> & Hp & Hall). exists (q :: l1), l2.
           split; [reflexivity|]. split; [exact Hp|]. constructor; eauto.
        -- intros (l1 & l2 & H & Hp & Hall).
           destruct l1 as [|q' l1]; simpl in H; injection H as -> ->; [congruence|].
           apply Forall_cons in Hall as [_ Hall]. eauto.
    + split; [discriminate|]. intros (l1 & l2 & H & Hp & Hall).
      destruct l1 as [|q' l1]; simpl in H; injection H as -> ->; [congruence|].
      apply Forall_cons in Hall as [(i & Hi & _) _]. congruence.
Qed.

Lemma find_replica_in_none (s : Replica.t) (l : list peer) (id : Z) :
  Replica.find_replica_in s l id = Returned (NotFound "Replica not found")
  <-> Forall (fun q => exists i, Replica.peer_replica_id s q = Returned i /\ i <> id) l.
Proof.
  induction l as [|q l IH]; simpl; [split; auto|].
  destruct (Replica.peer_replica_id s q) as [i|e] eqn:Eq; simpl.
  - destruct (bool_decide (i = id)) eqn:Ei.
    + apply bool_decide_eq_true in Ei. split; [discriminate|].
      intros [(j & Hj & Hne) _]%Forall_cons. congruence.
    + apply bool_decide_eq_false in Ei. rewrite IH. split.
      * intros H. constructor; eauto.
      * intros [_ H]%Forall_cons. exact H.
  - split; [discriminate|]. intros [(j & Hj & _) _]%Forall_cons. congruence.
Qed.

(** X14: [find_replica] returns the first element of [self.replicas] whose
    id is the one asked for, provided every element before it is a replica
    with another id; it returns the string ['Replica not found'] exactly
    when every element is a replica with another id; and it raises
    [AttributeError] when it meets a string before any match. *)
Theorem find_replica_first_match (s : Replica.t) (id : Z) :
  let other q := exists i, Replica.peer_replica_id s q = Returned i /\ i <> id in
  (forall p, Replica.find_replica s id = Returned (Found p)
             <-> exists l1 l2, Replica.replicas s = l1 ++ p :: l2
                               /\ Replica.peer_replica_id s p = Returned id
                               /\ Forall other l1)
  /\ (Replica.find_replica s id = Returned (NotFound "Replica not found")
      <-> Forall other (Replica.replicas s))
  /\ (forall l1 str l2, Replica.replicas s = l1 ++ PeerStr str :: l2 -> Forall other l1 ->
        Replica.find_replica s id = Raised AttributeError).
Proof.
  intros other. unfold Replica.find_replica. split; [|split].
  - intros p. apply find_replica_in_split.
  - apply find_replica_in_none.
  - intros l1 str l2 -> Hall.
    induction Hall as [|q l1 (i & Hi & Hne) _ IH]; [reflexivity|].
    simpl. rewrite Hi. simpl. rewrite bool_decide_eq_false_2 by exact Hne. exact IH.
Qed.

Lemma find_replica_first_match_witness :
  Replica.find_replica Scenario.replica0 1
  = Returned (Found (PeerReplica 1 "localhost" 5001 [])).
Proof.
  destruct (find_replica_first_match Scenario.replica0 1) as (H & _).
  apply H. exists [PeerSelf], []. split; [reflexivity|]. split; [reflexivity|].
  constructor; [|constructor]. exists 0. split; [reflexivity | lia].
Defined.

(** X15: a pre-prepare whose sender id is not in the list.  When
    [self.replicas] holds replicas only, none with the id of the sender,
    [receive_pre_prepare] appends the string ['Replica not found'] to
    [self.replicas]; if the pre-prepare is then accepted, a PREPARE is
    sent to every replica of the old list and the call ends in
    [AttributeError], raised by [multicast_message] on the string. *)
Theorem receive_pre_prepare_unknown_sender (data : PrePrepareMessage.t) (s : Replica.t) :
  Replica.find_replica s (PrePrepareMessage.primary_replica_id data)
  = Returned (NotFound "Replica not found") ->
  existsb (Replica.conflicts data) (Replica.received_pre_prepare_messages s) = false ->
  Replica.out_of_window s data = false ->
  let run := Replica.receive_pre_prepare data s in
  Replica.replicas (final_state run)
  = Replica.replicas s ++ [PeerStr "Replica not found"]
  /\ events_of run
     = map (fun a => Send a.1 a.2
                       (MsgPrepare (PrepareMessage.mk (Replica.replica_id s)
                          (Replica.view s) (PrePrepareMessage.sequence_number data)
                          (PrePrepareMessage.request_msg data))))
           (Replica.leading_addresses s (Replica.replicas s))
  /\ length (events_of run) = length (Replica.replicas s)
  /\ outcome_of run = Raised AttributeError.
Proof.
  intros Hfind Hconf Hwin run.
  assert (Hall : Replica.all_replicas (Replica.replicas s) = true).
  { apply find_replica_in_none in Hfind. unfold Replica.all_replicas.
    apply forallb_forall. intros q Hq. rewrite Forall_forall in Hfind.
    apply list_elem_of_In in Hq. destruct (Hfind q Hq) as (i & Hi & _).
    destruct q; [reflexivity | reflexivity | discriminate]. }
  set (s0 := Replica.set_replicas (Replica.replicas s ++ [PeerStr "Replica not found"]) s).
  assert (Hnote : Replica.note_sender (PrePrepareMessage.primary_replica_id data) s
                  = (s0, [], Returned tt)).
  { unfold Replica.note_sender, Replica.add_replica, bind, get, lift, modify, ret.
    rewrite Hfind. simpl. rewrite (existsb_peer_str s _ _ Hall). simpl.
    rewrite (existsb_peer_str s _ _ Hall). reflexivity. }
  assert (Hlen : length (Replica.leading_addresses s (Replica.replicas s))
                 = length (Replica.replicas s)).
  { clear - Hall. induction (Replica.replicas s) as [|q l IH]; [reflexivity|].
    simpl in *. destruct q; simpl in *; try discriminate; rewrite IH; auto. }
  assert (Hrun : run
    = (Replica.set_received_pre_prepare_messages
         (match Replica.received_pre_prepare_messages s with
          | [] => [data; data]
          | stored => stored ++ [data]
          end) s0,
       map (fun a => Send a.1 a.2
                       (MsgPrepare (PrepareMessage.mk (Replica.replica_id s)
                          (Replica.view s) (PrePrepareMessage.sequence_number data)
                          (PrePrepareMessage.request_msg data))))
           (Replica.leading_addresses s (Replica.replicas s)),
       Raised AttributeError)).
  { subst run. unfold Replica.receive_pre_prepare.
    unfold bind at 1. rewrite Hnote.
    unfold bind at 1, get at 1. unfold bind at 1.
    change (Replica.received_pre_prepare_messages s0)
      with (Replica.received_pre_prepare_messages s).
    destruct (Replica.received_pre_prepare_messages s) as [|m0 ms] eqn:Hr.
    - rewrite bool_decide_eq_true_2 by reflexivity.
      unfold modify at 1, bind at 1, get at 1.
      cbn [existsb Replica.received_pre_prepare_messages
           Replica.set_received_pre_prepare_messages].
      unfold Replica.conflicts at 1. rewrite pyval_eqb_refl, andb_false_r. cbn [orb].
      change (Replica.out_of_window (Replica.set_received_pre_prepare_messages [data] s0) data)
        with (Replica.out_of_window s data).
      rewrite Hwin. unfold bind at 1, modify at 1.
      rewrite multicast_message_spec. cbn [fst snd app].
      cbn [Replica.replicas Replica.set_received_pre_prepare_messages s0
           Replica.set_replicas].
      rewrite all_replicas_snoc_str.
      erewrite leading_addresses_ext; [|reflexivity|reflexivity].
      rewrite leading_addresses_snoc_str by exact Hall.
      erewrite (leading_addresses_ext _ s); reflexivity.
    - rewrite bool_decide_eq_false_2 by discriminate.
      unfold ret at 1, bind at 1, get at 1.
      change (Replica.received_pre_prepare_messages s0)
        with (Replica.received_pre_prepare_messages s).
      change (Replica.out_of_window s0 data) with (Replica.out_of_window s data).
      rewrite Hr, Hconf, Hwin.
      unfold bind at 1, modify at 1.
      rewrite multicast_message_spec. cbn [fst snd app].
      cbn [Replica.replicas Replica.set_received_pre_prepare_messages s0
           Replica.set_replicas].
      rewrite all_replicas_snoc_str.
      rewrite leading_addresses_snoc_str by exact Hall.
      erewrite (leading_addresses_ext _ s); reflexivity. }
  rewrite Hrun. unfold final_state, events_of, outcome_of. cbn [fst snd].
  split; [reflexivity|]. split; [reflexivity|]. split; [|reflexivity].
  rewrite length_map. exact Hlen.
Qed.

Lemma receive_pre_prepare_unknown_sender_witness :
  outcome_of (Replica.receive_pre_prepare
                (PrePrepareMessage.mk 9 0 0 (PyStr "r")) Scenario.replica0)
  = Raised AttributeError.
Proof.
  apply (receive_pre_prepare_unknown_sender
           (PrePrepareMessage.mk 9 0 0 (PyStr "r")) Scenario.replica0); reflexivity.
Defined.

(** ** [receive_commit] at the quorum *)

Lemma count_commits_facts (data : CommitMessage.t) (s s1 : Replica.t)
    (evs : list event) (total : Z) :
  Replica.count_commits data s = (s1, evs, Returned total) ->
  total = Replica.commit_total s1 data
  /\ Replica.f s1 = Replica.f s
  /\ Replica.accepted_requests s1 = Replica.accepted_requests s
  /\ Replica.clients s1 = Replica.clients s
  /\ Replica.received_commit_messages s
     `prefix_of` Replica.received_commit_messages s1.
Proof.
  intros H.
  pose proof (count_commits_grows false data s) as Hg.
  rewrite H in Hg. unfold final_state in Hg. cbn [fst] in Hg.
  destruct Hg. destruct (count_commits_preserves _ _ _ _ _ H) as [Ha Hf].
  repeat split; auto.
  revert H. unfold Replica.count_commits. unfold bind at 1.
  destruct (Replica.note_sender _ s) as [[s0 ev0] [[]|e]]; [|discriminate].
  unfold bind, modify, get, ret. simpl.
  destruct (existsb _ _); simpl; intros [= <- _ <-]; reflexivity.
Qed.

Lemma find_client_ext (s s' : Replica.t) (id : Z) :
  Replica.clients s' = Replica.clients s ->
  Replica.find_client s' id = Replica.find_client s id.
Proof. intros H. unfold Replica.find_client. rewrite H. reflexivity. Qed.

(** The run of [receive_commit] at the quorum, up to the checkpoint
    test. *)
Lemma receive_commit_reply_run (data : CommitMessage.t) (s s1 : Replica.t)
    (evs : list event) (total : Z) (r : RequestMessage.t) (c : Client.t) :
  Replica.count_commits data s = (s1, evs, Returned total) ->
  2 * Replica.f s + 1 <= total ->
  last (Replica.accepted_requests s) = Some r ->
  Replica.find_client s (RequestMessage.client_id r) = Found c ->
  let reply :=
    Replica.create_reply s1 (Replica.heap_next s1) (RequestMessage.client_id r)
      (RequestMessage.timestamp r) (ResBool true) (Replica.view s1)
      (CommitMessage.sequence_number data) (HcdRef (Replica.hcd_addr s1)) in
  let s2 :=
    Replica.set_reply_cache
      (ReplyCache.update_cache (Replica.reply_cache s1) (RequestMessage.client_id r)
         (CachedStr (ReplyMessage.to_string reply)))
      (Replica.set_heap_next (S (Replica.heap_next s1)) s1) in
  let sent :=
    [Print ("Replica " +:+ str_int (Replica.replica_id s1) +:+ " executed operation: "
            +:+ RequestMessage.operation r);
     Send (Client.host c) (Client.port c) (MsgReply reply)] in
  Replica.receive_commit data s
  = if CommitMessage.sequence_number data mod CHECKPOINT_INTERVAL =? 0 then
      let checkpoint_message :=
        CheckpointMessage.mk (Replica.replica_id s1) (CommitMessage.sequence_number data)
          (Some (CachedStr (ReplyMessage.to_string reply))) (Replica.version_vector s1) [] in
      match for_each (Replica.replicas s1) (Replica.checkpoint_entry data) s2 with
      | (_, ev, Raised e) => (s2, evs ++ sent ++ ev, Raised e)
      | (_, ev, Returned _) =>
          (Replica.set_pending_checkpoints
             (<[CommitMessage.sequence_number data := checkpoint_message]>
                (Replica.pending_checkpoints s1)) s2,
           evs ++ sent ++ ev
           ++ map (fun a => Send a.1 a.2 (MsgCheckpoint checkpoint_message))
                  (Replica.leading_addresses s1 (Replica.replicas s1)),
           if Replica.all_replicas (Replica.replicas s1)
           then Returned tt else Raised AttributeError)
      end
    else (s2, evs ++ sent, Returned tt).
Proof.
  intros Hcount Hq Hlast Hclient reply s2 sent.
  destruct (count_commits_facts _ _ _ _ _ Hcount) as (_ & Hf & Hacc & Hcl & _).
  unfold Replica.receive_commit. unfold bind at 1. rewrite Hcount.
  unfold bind at 1, get at 1. rewrite Hf.
  rewrite (proj2 (Z.leb_le _ _) Hq).
  unfold bind at 1, lift at 1. rewrite select_request_spec, Hacc, Hlast.
  unfold bind at 1.
  change (Replica.execute_operation (RequestMessage.operation r) s1)
    with (s1, [Print ("Replica " +:+ str_int (Replica.replica_id s1)
                      +:+ " executed operation: " +:+ RequestMessage.operation r)],
          Returned true).
  cbn beta iota.
  unfold bind at 1. unfold bind at 1, modify at 1. unfold bind at 1, modify at 1.
  fold reply.
  change (Replica.set_reply_cache _ (Replica.set_heap_next _ s1)) with s2.
  unfold Replica.send_reply, bind at 1, get at 1.
  rewrite (find_client_ext s s2) by exact Hcl. rewrite Hclient.
  unfold emit at 1. cbn beta iota.
  unfold bind at 1, lift at 1, py_mod.
  change (CHECKPOINT_INTERVAL =? 0) with false. cbn beta iota.
  destruct (CommitMessage.sequence_number data mod CHECKPOINT_INTERVAL =? 0).
  - unfold bind at 1, get at 1. unfold bind at 1.
    change (Replica.replicas s2) with (Replica.replicas s1).
    pose proof (checkpoint_loop_final data (Replica.replicas s1) s2) as Hloop.
    unfold final_state in Hloop.
    destruct (for_each (Replica.replicas s1) (Replica.checkpoint_entry data) s2)
      as [[s3 ev3] [[]|e]]; simpl in Hloop; subst s3.
    + unfold bind at 1, modify at 1. rewrite multicast_message_spec.
      cbn [fst snd].
      assert (Hget : ReplyCache.get_reply (Replica.reply_cache s2)
                       (RequestMessage.client_id r)
                     = Some (CachedStr (ReplyMessage.to_string reply))).
      { unfold ReplyCache.get_reply, s2, ReplyCache.update_cache. simpl.
        apply lookup_insert_eq. }
      rewrite Hget.
      change (Replica.replica_id s2) with (Replica.replica_id s1).
      change (Replica.version_vector s2) with (Replica.version_vector s1).
      change (Replica.pending_checkpoints s2) with (Replica.pending_checkpoints s1).
      match goal with
      | |- context [Replica.replicas (Replica.set_pending_checkpoints ?m s2)] =>
          change (Replica.replicas (Replica.set_pending_checkpoints m s2))
            with (Replica.replicas s1)
      end.
      erewrite (leading_addresses_ext _ s1) by reflexivity.
      cbn [app]. rewrite ?app_nil_r. reflexivity.
    + cbn [app]. rewrite ?app_nil_r. reflexivity.
  - cbn [app]. rewrite ?app_nil_r. reflexivity.
Qed.


(** The checkpoint loop has no effect: it returns when every element of
    the list is a replica with a non-empty version vector, and raises at
    the first element that is not. *)
Lemma checkpoint_loop_run (data : CommitMessage.t) (l : list peer) (s : Replica.t) :
  for_each l (Replica.checkpoint_entry data) s
  = (s, [],
     match find (fun p => negb (has_entries s p)) l with
     | None => Returned tt
     | Some (PeerStr _) => Raised AttributeError
     | Some _ => Raised KeyError
     end).
Proof.
  induction l as [|p l IH]; [reflexivity|].
  cbn [for_each find]. unfold bind at 1. unfold has_entries at 1.
  unfold Replica.checkpoint_entry at 1, bind at 1, get at 1, bind at 1, lift at 1.
  destruct p as [|id h pt vv|str]; cbn [Replica.peer_version_vector].
  - destruct (Replica.version_vector s) as [|kv vv'] eqn:Hvv; cbn [VersionVector.is_empty negb].
    + reflexivity.
    + unfold ret at 1. rewrite IH. reflexivity.
  - destruct vv as [|kv vv']; cbn [VersionVector.is_empty negb].
    + reflexivity.
    + unfold ret at 1. rewrite IH. reflexivity.
  - reflexivity.
Qed.

Lemma has_entries_ext (s s' : Replica.t) (p : peer) :
  Replica.version_vector s' = Replica.version_vector s ->
  has_entries s' p = has_entries s p.
Proof. intros H. unfold has_entries. destruct p; simpl; rewrite ?H; reflexivity. Qed.

Lemma find_ext_eq {A} (g h : A -> bool) (l : list A) :
  (forall x, g x = h x) -> find g l = find h l.
Proof. intros H. induction l as [|x l IH]; simpl; [reflexivity|]. rewrite H, IH. reflexivity. Qed.

Lemma has_entries_all_replicas (s : Replica.t) (l : list peer) :
  forallb (has_entries s) l = true -> Replica.all_replicas l = true.
Proof.
  unfold Replica.all_replicas. induction l as [|p l IH]; [reflexivity|].
  simpl. intros [Hp Hl]%andb_true_iff. rewrite IH by exact Hl.
  destruct p; [reflexivity | reflexivity | discriminate].
Qed.

Lemma find_negb_forallb {A} (g : A -> bool) (l : list A) :
  forallb g l = true -> find (fun x => negb (g x)) l = None.
Proof.
  induction l as [|x l IH]; [reflexivity|].
  simpl. intros [-> Hl]%andb_true_iff. simpl. auto.
Qed.

Lemma find_negb_not_forallb {A} (g : A -> bool) (l : list A) :
  forallb g l = false -> exists x, find (fun x => negb (g x)) l = Some x /\ g x = false.
Proof.
  induction l as [|x l IH]; [discriminate|].
  simpl. destruct (g x) eqn:E; simpl; [exact IH | eauto].
Qed.

(** X16: the reply at the commit quorum.  When the count of matching
    commits reaches [2f+1], a request was accepted, its client is known
    and the sequence number is no multiple of the checkpoint interval,
    [receive_commit] executes the operation of the request accepted LAST,
    whatever the sequence number of the commit, sends that client one
    reply carrying the timestamp of that request and the sequence number
    of the commit, and stores the string of the reply in the reply
    cache. *)
Theorem receive_commit_quorum (data : CommitMessage.t) (s s1 : Replica.t)
    (evs : list event) (total : Z) (r : RequestMessage.t) (c : Client.t) :
  Replica.count_commits data s = (s1, evs, Returned total) ->
  2 * Replica.f s + 1 <= total ->
  last (Replica.accepted_requests s) = Some r ->
  Replica.find_client s (RequestMessage.client_id r) = Found c ->
  CommitMessage.sequence_number data mod CHECKPOINT_INTERVAL <> 0 ->
  let reply :=
    Replica.create_reply s1 (Replica.heap_next s1) (RequestMessage.client_id r)
      (RequestMessage.timestamp r) (ResBool true) (Replica.view s1)
      (CommitMessage.sequence_number data) (HcdRef (Replica.hcd_addr s1)) in
  Replica.receive_commit data s
  = (Replica.set_reply_cache
       (ReplyCache.update_cache (Replica.reply_cache s1) (RequestMessage.client_id r)
          (CachedStr (ReplyMessage.to_string reply)))
       (Replica.set_heap_next (S (Replica.heap_next s1)) s1),
     evs ++ [Print ("Replica " +:+ str_int (Replica.replica_id s1)
                    +:+ " executed operation: " +:+ RequestMessage.operation r);
             Send (Client.host c) (Client.port c) (MsgReply reply)],
     Returned tt).
Proof.
  intros Hcount Hq Hlast Hclient Hmod reply.
  rewrite (receive_commit_reply_run data s s1 evs total r c Hcount Hq Hlast Hclient).
  rewrite (proj2 (Z.eqb_neq _ _) Hmod). reflexivity.
Qed.

Lemma receive_commit_quorum_witness :
  outcome_of (Replica.receive_commit Scenario.commit1
                (final_state (Replica.receive_request Scenario.request Scenario.replica0)))
  = Returned tt.
Proof.
  erewrite (receive_commit_quorum Scenario.commit1
              (final_state (Replica.receive_request Scenario.request Scenario.replica0))
              _ _ _ Scenario.request Scenario.client0);
    [reflexivity | vm_compute; reflexivity | vm_compute; discriminate
     | reflexivity | reflexivity | vm_compute; discriminate].
Defined.



(** X18: the checkpoint branch.  At a quorum whose sequence number is a
    multiple of the checkpoint interval (0 included) the reply is sent
    first.  Then, if every element of [self.replicas] is a replica with a
    non-empty version vector, a checkpoint with an empty [E] is stored
    under the sequence number and multicast; otherwise the call ends in
    [KeyError] or [AttributeError] and no checkpoint is stored or sent.
    [E] is never filled. *)
Theorem receive_commit_checkpoint (data : CommitMessage.t) (s s1 : Replica.t)
    (evs : list event) (total : Z) (r : RequestMessage.t) (c : Client.t) :
  Replica.count_commits data s = (s1, evs, Returned total) ->
  2 * Replica.f s + 1 <= total ->
  last (Replica.accepted_requests s) = Some r ->
  Replica.find_client s (RequestMessage.client_id r) = Found c ->
  CommitMessage.sequence_number data mod CHECKPOINT_INTERVAL = 0 ->
  let run := Replica.receive_commit data s in
  let reply :=
    Replica.create_reply s1 (Replica.heap_next s1) (RequestMessage.client_id r)
      (RequestMessage.timestamp r) (ResBool true) (Replica.view s1)
      (CommitMessage.sequence_number data) (HcdRef (Replica.hcd_addr s1)) in
  let sent :=
    [Print ("Replica " +:+ str_int (Replica.replica_id s1) +:+ " executed operation: "
            +:+ RequestMessage.operation r);
     Send (Client.host c) (Client.port c) (MsgReply reply)] in
  let checkpoint_message :=
    CheckpointMessage.mk (Replica.replica_id s1) (CommitMessage.sequence_number data)
      (Some (CachedStr (ReplyMessage.to_string reply))) (Replica.version_vector s1) [] in
  if forallb (has_entries s1) (Replica.replicas s1) then
    Replica.pending_checkpoints (final_state run)
    = <[CommitMessage.sequence_number data := checkpoint_message]>
        (Replica.pending_checkpoints s1)
    /\ events_of run
       = evs ++ sent
         ++ map (fun a => Send a.1 a.2 (MsgCheckpoint checkpoint_message))
                (Replica.leading_addresses s1 (Replica.replicas s1))
    /\ outcome_of run = Returned tt
  else
    Replica.pending_checkpoints (final_state run) = Replica.pending_checkpoints s1
    /\ events_of run = evs ++ sent
    /\ (outcome_of run = Raised KeyError \/ outcome_of run = Raised AttributeError).
Proof.
  intros Hcount Hq Hlast Hclient Hmod run reply sent checkpoint_message. subst run.
  rewrite (receive_commit_reply_run data s s1 evs total r c Hcount Hq Hlast Hclient).
  rewrite Hmod. cbn [Z.eqb]. cbv zeta.
  rewrite checkpoint_loop_run.
  rewrite (find_ext_eq _ (fun p => negb (has_entries s1 p)))
    by (intros p; f_equal; apply has_entries_ext; reflexivity).
  destruct (forallb (has_entries s1) (Replica.replicas s1)) eqn:Hall.
  - rewrite (find_negb_forallb _ _ Hall), (has_entries_all_replicas _ _ Hall).
    unfold final_state, events_of, outcome_of. cbn [fst snd app].
    split; [reflexivity|]. split; reflexivity.
  - destruct (find_negb_not_forallb _ _ Hall) as (p & -> & Hp).
    unfold final_state, events_of, outcome_of.
    destruct p; cbn [fst snd app]; rewrite ?app_nil_r; auto.
Qed.

Lemma receive_commit_checkpoint_witness :
  outcome_of (Replica.receive_commit (CommitMessage.mk 2 1 0 0 (HcdStr "h"))
                (final_state (Replica.receive_request Scenario.request Scenario.replica0)))
  = Raised KeyError.
Proof.
  pose proof (receive_commit_checkpoint (CommitMessage.mk 2 1 0 0 (HcdStr "h"))
                (final_state (Replica.receive_request Scenario.request Scenario.replica0))
                _ [] 1 Scenario.request Scenario.client0
                ltac:(vm_compute; reflexivity) ltac:(vm_compute; discriminate)
                eq_refl eq_refl eq_refl) as H.
  vm_compute in H. vm_compute. destruct H as (_ & _ & [H|H]); [exact H | discriminate H].
Defined.

(** ** [Client.handle_reply] at the quorum *)

Lemma for_each_modify {S E A} (g : A -> S -> S) (l : list A) (s : S) :
  for_each l (fun x => @modify S E (g x)) s
  = (fold_left (fun s x => g x s) l s, [], Returned tt).
Proof.
  revert s. induction l as [|x l IH]; intros s; [reflexivity|].
  cbn [for_each fold_left]. unfold bind at 1, modify at 1. rewrite IH. reflexivity.
Qed.

Lemma store_entries_keep (l : list ReplyMessage.t) (c : Client.t) :
  Client.f (fold_left store_entry l c) = Client.f c
  /\ Client.client_id (fold_left store_entry l c) = Client.client_id c
  /\ Client.pending_requests (fold_left store_entry l c) = Client.pending_requests c
  /\ Client.received_replies (fold_left store_entry l c) = Client.received_replies c.
Proof.
  revert c. induction l as [|x l IH]; intros c; [auto|].
  cbn [fold_left]. destruct (IH (store_entry c x)) as (-> & -> & -> & ->). auto.
Qed.

(** The run of [handle_reply]. *)
Lemma handle_reply_run (reply_message : ReplyMessage.t) (c : Client.t) :
  let c1 := Client.set_received_replies (Client.recorded c reply_message) c in
  let count := Client.count_total (Client.pending_requests c)
                 (Client.recorded c reply_message) reply_message in
  Client.handle_reply reply_message c
  = if 2 * Client.f c + 1 <=? count.1 then
      match count.2 with
      | None => (c1, [], Raised UnboundLocalError)
      | Some q =>
          match Client.remove_request q (Client.pending_requests c) with
          | Raised e => (c1, [], Raised e)
          | Returned pending =>
              let c2 := fold_left store_entry (Client.recorded c reply_message)
                          (Client.set_pending_requests pending c1) in
              match VersionVector.get_current_system_state
                      (Client.version_vector c2) (Client.f c) with
              | Raised e => (c2, [], Raised e)
              | Returned None => (c2, [], Raised AttributeError)
              | Returned (Some st) =>
                  if bool_decide (VersionVectorEntry.hcd st
                                  = Entry.hcd (ReplyMessage.entry reply_message))
                  then (c2, [Print "Consensus reached"], Raised SystemExit)
                  else (c2, [], Returned None)
              end
          end
      end
    else (c1, [], Returned (Some false)).
Proof.
  intros c1 count.
  assert (Hstep : (if existsb (ReplyMessage.eqb reply_message) (Client.received_replies c)
                   then ret tt
                   else modify (Client.set_received_replies
                                  (Client.received_replies c ++ [reply_message]))) c
                  = (c1, @nil event, Returned tt)).
  { unfold c1, Client.recorded. destruct (existsb _ _); [|reflexivity].
    destruct c; reflexivity. }
  unfold Client.handle_reply. unfold bind at 1, get at 1. unfold bind at 1.
  rewrite Hstep. unfold bind at 1, get at 1.
  change (Client.pending_requests c1) with (Client.pending_requests c).
  change (Client.received_replies c1) with (Client.recorded c reply_message).
  change (Client.f c1) with (Client.f c).
  fold count. destruct count as [total founded]. cbn [fst snd].
  destruct (2 * Client.f c + 1 <=? total); [|reflexivity].
  unfold bind at 1.
  destruct founded as [q|]; [|reflexivity].
  unfold ret at 1. unfold bind at 1, lift at 1.
  destruct (Client.remove_request q (Client.pending_requests c)) as [pending|e];
    [|reflexivity].
  unfold bind at 1, modify at 1. unfold bind at 1.
  rewrite (for_each_modify (E := event)
             (fun received_reply c => store_entry c received_reply)).
  unfold bind at 1, get at 1. unfold bind at 1, lift at 1.
  match goal with |- context [fold_left ?g ?l ?a] =>
    change (fold_left g l a)
      with (fold_left store_entry (Client.recorded c reply_message)
              (Client.set_pending_requests pending c1)) end.
  set (c2 := fold_left store_entry _ _).
  assert (Hf : Client.f c2 = Client.f c).
  { unfold c2. rewrite (proj1 (store_entries_keep _ _)). reflexivity. }
  rewrite Hf.
  destruct (VersionVector.get_current_system_state _ _) as [[st|]|e]; try reflexivity.
  destruct (bool_decide _); reflexivity.
Qed.

Lemma remove_request_raises (q : RequestMessage.t) (l : list RequestMessage.t) (e : pyexn) :
  Client.remove_request q l = Raised e -> e = ValueError.
Proof.
  induction l as [|y l IH]; simpl; [congruence|].
  destruct (bool_decide _); [discriminate|].
  destruct (Client.remove_request q l) as [l''|e']; simpl; [discriminate|].
  intros [= <-]. apply IH. reflexivity.
Qed.

Lemma get_current_system_state_raises (vector : VersionVector.t) (f : Z) (e : pyexn) :
  VersionVector.get_current_system_state vector f = Raised e -> e = ValueError.
Proof.
  unfold VersionVector.get_current_system_state.
  destruct (find _ _) as [[k entries]|]; [|discriminate].
  destruct entries as [|x entries]; [simpl; congruence|].
  destruct (py_min_spec VersionVectorEntry.replica_id (x :: entries) ltac:(discriminate))
    as (m & Hm & _).
  rewrite Hm. discriminate.
Qed.

(** X19: [handle_reply] never returns [True].  Its result is [False]
    (below the quorum), [None], or an exception; when it prints
    ["Consensus reached"], and only then, it leaves through [sys.exit()],
    so the [return True] of the source is not reached. *)
Theorem handle_reply_never_returns_true (reply_message : ReplyMessage.t) (c : Client.t) :
  let run := Client.handle_reply reply_message c in
  outcome_of run <> Returned (Some true)
  /\ (events_of run = [] \/ events_of run = [Print "Consensus reached"])
  /\ (events_of run = [Print "Consensus reached"] <-> outcome_of run = Raised SystemExit).
Proof.
  intros run. subst run. rewrite handle_reply_run. cbv zeta.
  destruct (_ <=? _).
  2:{ unfold outcome_of, events_of; simpl. split; [discriminate|].
      split; [auto|]. split; discriminate. }
  destruct (Client.count_total _ _ _).2 as [q|].
  2:{ unfold outcome_of, events_of; simpl. split; [discriminate|].
      split; [auto|]. split; discriminate. }
  destruct (Client.remove_request q _) as [pending|e] eqn:Hrm.
  2:{ apply remove_request_raises in Hrm. subst e.
      unfold outcome_of, events_of; simpl. split; [discriminate|]. split; [auto|].
      split; discriminate. }
  destruct (VersionVector.get_current_system_state _ _) as [[st|]|e] eqn:Hst.
  - destruct (bool_decide _); unfold outcome_of, events_of; simpl.
    + split; [discriminate|]. split; [auto|]. split; reflexivity.
    + split; [discriminate|]. split; [auto|]. split; discriminate.
  - unfold outcome_of, events_of; simpl. split; [discriminate|]. split; [auto|].
    split; discriminate.
  - apply get_current_system_state_raises in Hst. subst e.
    unfold outcome_of, events_of; simpl. split; [discriminate|]. split; [auto|].
    split; discriminate.
Qed.

(** X20: with [f = 0] the first reply ends the client.  For a client that
    tolerates no fault, has one pending request and has received nothing
    yet, the first reply carrying the timestamp of the request completes
    it: the request is removed, the entry of the reply is stored under the
    id of the client, ["Consensus reached"] is printed and the call leaves
    through [sys.exit()]. *)
Theorem handle_reply_first_reply (reply_message : ReplyMessage.t) (c : Client.t)
    (q : RequestMessage.t) :
  Client.f c = 0 ->
  Client.received_replies c = [] ->
  Client.version_vector c = [] ->
  Client.pending_requests c = [q] ->
  RequestMessage.timestamp q = ReplyMessage.timestamp reply_message ->
  let e := ReplyMessage.entry reply_message in
  Client.handle_reply reply_message c
  = (Client.mk (Client.host c) (Client.port c) (Client.client_id c)
       [(Client.client_id c,
         [VersionVectorEntry.mk (Entry.replica_id e) (Entry.view e)
            (Entry.sequence_number e) (Entry.hcd e)])]
       0 [reply_message] [],
     [Print "Consensus reached"], Raised SystemExit).
Proof.
  intros Hf Hrecv Hvv Hpend Hts e.
  rewrite handle_reply_run. cbv zeta.
  unfold Client.recorded. rewrite Hrecv, Hpend, Hf. cbn [existsb app].
  unfold Client.count_total. cbn [fold_left fst snd].
  rewrite Hts, Z.eqb_refl. cbn [fold_left fst snd].
  assert (Hc : Client.counts reply_message reply_message = true).
  { unfold Client.counts, Entry.eqb. rewrite !Z.eqb_refl.
    rewrite !bool_decide_eq_true_2 by reflexivity. reflexivity. }
  rewrite Hc. cbn [Z.add Z.mul Z.leb Z.compare Pos.compare Pos.compare_cont].
  cbn [Client.remove_request]. rewrite bool_decide_eq_true_2 by reflexivity.
  cbn [fold_left]. unfold store_entry at 1.
  cbn [Client.version_vector Client.set_version_vector Client.set_pending_requests
       Client.set_received_replies Client.client_id Client.f Client.host Client.port
       Client.received_replies Client.pending_requests].
  rewrite Hvv.
  unfold VersionVector.update_entry. cbn [dict_append].
  unfold VersionVector.get_current_system_state, VersionVector.counter.
  cbn [map snd fold_left dict_append find length Z.of_nat].
  change (2 * 0 + 1 <=? 0 + 1) with true.
  change (2 * 0 + 1 <=? Z.of_nat 1) with true. cbn iota.
  cbn [py_min obind fold_left]. cbn [VersionVectorEntry.hcd].
  rewrite bool_decide_eq_true_2 by reflexivity.
  unfold store_entry.
  cbn [Client.version_vector Client.set_version_vector Client.set_pending_requests
       Client.set_received_replies Client.client_id Client.f Client.host Client.port
       Client.received_replies Client.pending_requests].
  rewrite Hvv.
  unfold Client.set_version_vector, Client.set_pending_requests,
    Client.set_received_replies.
  simpl. rewrite Hf. reflexivity.
Qed.

Lemma handle_reply_first_reply_witness :
  outcome_of (Client.handle_reply (Scenario.reply_of 0)
                (Client.mk "localhost" 6000 0 [] 0 [] [Scenario.request]))
  = Raised SystemExit.
Proof.
  rewrite (handle_reply_first_reply (Scenario.reply_of 0)
             (Client.mk "localhost" 6000 0 [] 0 [] [Scenario.request]) Scenario.request);
    reflexivity.
Defined.

(** ** [receive_request] *)

Lemma final_state_run {S E A} (s : S) (ev : list E) (r : outcome A) :
  final_state (s, ev, r) = s.
Proof. reflexivity. Qed.

Lemma events_of_run {S E A} (s : S) (ev : list E) (r : outcome A) :
  events_of (s, ev, r) = ev.
Proof. reflexivity. Qed.

(** The run of [receive_request] for a request that passes its guards,
    on a list of replicas. *)
Lemma receive_request_accept_run (data : RequestMessage.t) (s : Replica.t) :
  Replica.not_cached s data = Returned true ->
  Replica.against_last_block Z.ltb s data = false ->
  Replica.against_last_block Z.eqb s data = false ->
  Replica.known_state_ok s (Replica.find_client s (RequestMessage.client_id data)) data
  = Returned true ->
  Replica.all_replicas (Replica.replicas s) = true ->
  let sequence_number :=
    match HashChainDigest.get_last_block (Replica.hcd s) with
    | Some b => HashChainBlock.sequence_number b + 1
    | None => 0
    end in
  let pre_prepare :=
    MsgPrePrepare (PrePrepareMessage.mk (Replica.replica_id s) (Replica.view s)
                     sequence_number (PyRequest data)) in
  let s1 := Replica.set_accepted_requests (Replica.accepted_requests s ++ [data]) s in
  Replica.receive_request data s
  = (if Replica.timer s then s1 else Replica.set_timer true s1,
     (if Replica.is_primary s
      then map (fun a => Send a.1 a.2 pre_prepare)
               (Replica.leading_addresses s (Replica.replicas s))
      else [])
     ++ (if Replica.timer s then [] else [TimerStart VIEW_TIMEOUT]),
     Returned tt).
Proof.
  intros Hfresh Hlt Heq Hok Hall sequence_number pre_prepare s1.
  unfold Replica.receive_request. unfold bind at 1, get at 1.
  cbv zeta. unfold bind at 1, lift at 1. rewrite Hfresh, Hlt, Heq.
  unfold bind at 1, lift at 1. rewrite Hok.
  unfold bind at 1, modify at 1. fold s1.
  unfold bind at 1.
  assert (Hstart : Replica.start_timer s1
                   = (if Replica.timer s then s1 else Replica.set_timer true s1,
                      if Replica.timer s then [] else [TimerStart VIEW_TIMEOUT],
                      Returned tt)).
  { unfold Replica.start_timer, bind, get, modify, emit, ret.
    change (Replica.timer s1) with (Replica.timer s).
    destruct (Replica.timer s); reflexivity. }
  destruct (Replica.is_primary s).
  - rewrite multicast_message_spec.
    change (Replica.replicas s1) with (Replica.replicas s). rewrite Hall.
    rewrite Hstart. cbn [app].
    erewrite (leading_addresses_ext s1 s) by reflexivity.
    rewrite ?app_nil_r. reflexivity.
  - unfold ret at 1. rewrite Hstart. reflexivity.
Qed.

(** X21: a request that passes the guards of [receive_request] (not the
    cached one, not older than or as old as the last block, known state
    consistent) is appended to [accepted_requests]; the primary multicasts
    a PRE_PREPARE for it whose sequence number is that of the last block
    of its chain plus one, or 0 for an empty chain; a backup sends
    nothing; the timer is started unless it is already running. *)
Theorem receive_request_accepts (data : RequestMessage.t) (s : Replica.t) :
  Replica.not_cached s data = Returned true ->
  Replica.against_last_block Z.ltb s data = false ->
  Replica.against_last_block Z.eqb s data = false ->
  Replica.known_state_ok s (Replica.find_client s (RequestMessage.client_id data)) data
  = Returned true ->
  Replica.all_replicas (Replica.replicas s) = true ->
  let run := Replica.receive_request data s in
  let sequence_number :=
    match last (Replica.hcd s) with
    | Some b => HashChainBlock.sequence_number b + 1
    | None => 0
    end in
  Replica.accepted_requests (final_state run) = Replica.accepted_requests s ++ [data]
  /\ Replica.timer (final_state run) = true
  /\ events_of run
     = (if Replica.is_primary s
        then map (fun a => Send a.1 a.2
                    (MsgPrePrepare (PrePrepareMessage.mk (Replica.replica_id s)
                       (Replica.view s) sequence_number (PyRequest data))))
                 (Replica.leading_addresses s (Replica.replicas s))
        else [])
       ++ (if Replica.timer s then [] else [TimerStart VIEW_TIMEOUT])
  /\ outcome_of run = Returned tt.
Proof.
  intros Hfresh Hlt Heq Hok Hall run sequence_number. subst run.
  rewrite (receive_request_accept_run data s Hfresh Hlt Heq Hok Hall).
  unfold final_state, events_of, outcome_of. cbn [fst snd].
  assert (Hseq : match HashChainDigest.get_last_block (Replica.hcd s) with
                 | Some b => HashChainBlock.sequence_number b + 1
                 | None => 0
                 end = sequence_number).
  { unfold sequence_number, HashChainDigest.get_last_block.
    destruct (Replica.hcd s) as [|b0 chain]; [reflexivity|].
    rewrite (proj2 (Z.ltb_lt 0 _)) by (simpl length; lia). reflexivity. }
  rewrite Hseq.
  destruct (Replica.timer s) eqn:Et; repeat split; try reflexivity; exact Et.
Qed.

Lemma receive_request_accepts_witness :
  Replica.accepted_requests
    (final_state (Replica.receive_request Scenario.request Scenario.replica0))
  = [Scenario.request].
Proof.
  apply (receive_request_accepts Scenario.request Scenario.replica0); reflexivity.
Defined.

(** X22: sequence numbers are not advanced by requests.  Two requests
    accepted one after the other by the primary, with no block appended in
    between, are announced with the same sequence number. *)
Theorem receive_request_same_sequence_number (data data' : RequestMessage.t)
    (s : Replica.t) :
  Replica.is_primary s = true ->
  Replica.all_replicas (Replica.replicas s) = true ->
  Replica.not_cached s data = Returned true ->
  Replica.against_last_block Z.ltb s data = false ->
  Replica.against_last_block Z.eqb s data = false ->
  Replica.known_state_ok s (Replica.find_client s (RequestMessage.client_id data)) data
  = Returned true ->
  Replica.not_cached s data' = Returned true ->
  Replica.against_last_block Z.ltb s data' = false ->
  Replica.against_last_block Z.eqb s data' = false ->
  Replica.known_state_ok s (Replica.find_client s (RequestMessage.client_id data')) data'
  = Returned true ->
  exists sequence_number,
    let announce (d : RequestMessage.t) :=
      map (fun a => Send a.1 a.2
             (MsgPrePrepare (PrePrepareMessage.mk (Replica.replica_id s) (Replica.view s)
                               sequence_number (PyRequest d))))
          (Replica.leading_addresses s (Replica.replicas s)) in
    events_of (Replica.receive_request data s)
    = announce data ++ (if Replica.timer s then [] else [TimerStart VIEW_TIMEOUT])
    /\ events_of (Replica.receive_request data'
                    (final_state (Replica.receive_request data s)))
       = announce data'
    /\ Replica.accepted_requests
         (final_state (Replica.receive_request data'
                         (final_state (Replica.receive_request data s))))
       = Replica.accepted_requests s ++ [data; data'].
Proof.
  intros Hprim Hall Hfresh Hlt Heq Hok Hfresh' Hlt' Heq' Hok'.
  eexists. cbv zeta.
  rewrite (receive_request_accept_run data s Hfresh Hlt Heq Hok Hall).
  rewrite !final_state_run, events_of_run.
  rewrite Hprim. split; [reflexivity|].
  set (s' := if Replica.timer s then _ else _).
  assert (Hs' : s' = Replica.set_timer true
                       (Replica.set_accepted_requests
                          (Replica.accepted_requests s ++ [data]) s)).
  { subst s'. destruct (Replica.timer s) eqn:Et; [|reflexivity].
    destruct s. simpl in Et. subst. reflexivity. }
  rewrite Hs'. clear Hs' s'.
  set (s' := Replica.set_timer true _).
  rewrite (receive_request_accept_run data' s').
  - unfold final_state, events_of. cbn [fst snd].
    change (Replica.is_primary s') with (Replica.is_primary s). rewrite Hprim.
    change (Replica.timer s') with true. cbn iota.
    rewrite app_nil_r.
    split.
    + change (Replica.hcd s') with (Replica.hcd s).
      change (Replica.replica_id s') with (Replica.replica_id s).
      change (Replica.view s') with (Replica.view s).
      change (Replica.replicas s') with (Replica.replicas s).
      erewrite (leading_addresses_ext s' s) by reflexivity. reflexivity.
    + simpl. rewrite <- app_assoc. reflexivity.
  - exact Hfresh'.
  - exact Hlt'.
  - exact Heq'.
  - exact Hok'.
  - exact Hall.
Qed.

Lemma receive_request_same_sequence_number_witness :
  Replica.accepted_requests
    (final_state (Replica.receive_request (RequestMessage.mk 2 "log out" 6 0 "None")
                    (final_state (Replica.receive_request Scenario.request
                                    Scenario.replica0))))
  = [Scenario.request; RequestMessage.mk 2 "log out" 6 0 "None"].
Proof.
  destruct (receive_request_same_sequence_number Scenario.request
              (RequestMessage.mk 2 "log out" 6 0 "None") Scenario.replica0
              eq_refl eq_refl eq_refl eq_refl eq_refl eq_refl eq_refl eq_refl eq_refl
              eq_refl)
    as (n & _ & _ & H).
  exact H.
Defined.

(** X23: a request of an unknown client has no effect.  When no client of
    [self.clients] has the id of the request, [receive_request] changes
    nothing and sends nothing: it returns, or raises [AttributeError]. *)
Theorem receive_request_unknown_client (data : RequestMessage.t) (s : Replica.t)
    (str : string) :
  Replica.find_client s (RequestMessage.client_id data) = NotFound str ->
  Replica.receive_request data s = (s, [], Returned tt)
  \/ Replica.receive_request data s = (s, [], Raised AttributeError).
Proof.
  intros Hfind.
  assert (Hfresh : forall e, Replica.not_cached s data = Raised e -> e = AttributeError).
  { unfold Replica.not_cached.
    destruct (ReplyCache.get_reply _ _) as [[|]|]; try discriminate. congruence. }
  unfold Replica.receive_request, Replica.send_reply, bind, get, lift, raise, ret.
  rewrite Hfind. cbv zeta.
  destruct (Replica.not_cached s data) as [[|]|e]; simpl; auto.
  - destruct (Replica.against_last_block Z.ltb s data); simpl; auto.
    destruct (Replica.against_last_block Z.eqb s data); simpl; rewrite ?Hfind; auto.
  - rewrite (Hfresh e eq_refl). auto.
Qed.

Lemma receive_request_unknown_client_witness :
  final_state (Replica.receive_request (RequestMessage.mk 2 "log in" 5 9 "None")
                 Scenario.replica0)
  = Scenario.replica0.
Proof.
  destruct (receive_request_unknown_client (RequestMessage.mk 2 "log in" 5 9 "None")
              Scenario.replica0 "Client not found" eq_refl) as [H|H];
    rewrite H; reflexivity.
Defined.

(** ** What a run never sends *)

Section Tracks.
Import Replica ReplicaRest.
Variable Inv : t -> Prop.
Variable P : event -> bool.
Variable mu : t -> nat.

Lemma tracks_ret {A} (a : A) : tracks Inv P mu (ret a).
Proof. intros s Hs. split; [exact Hs | reflexivity]. Qed.

Lemma tracks_raise {A} (e : pyexn) : tracks Inv P mu (@raise t event A e).
Proof. intros s Hs. split; [exact Hs | reflexivity]. Qed.

Lemma tracks_lift {A} (o : outcome A) : tracks Inv P mu (lift o).
Proof. intros s Hs. split; [exact Hs | reflexivity]. Qed.

Lemma tracks_emit (e : event) : P e = false -> tracks Inv P mu (emit e).
Proof.
  intros He s Hs. split; [exact Hs|].
  unfold emit, events_of, final_state, count_events. simpl. rewrite He. reflexivity.
Qed.

Lemma tracks_modify (g : t -> t) :
  (forall s, Inv s -> Inv (g s) /\ mu (g s) = mu s) -> tracks Inv P mu (modify g).
Proof.
  intros Hg s Hs. destruct (Hg s Hs) as [HI Hmu].
  split; [exact HI|]. unfold modify, events_of, final_state. simpl. auto.
Qed.

Lemma tracks_bind {A B} (m : Py t event A) (k : A -> Py t event B) :
  tracks Inv P mu m -> (forall a, tracks Inv P mu (k a)) -> tracks Inv P mu (bind m k).
Proof.
  intros Hm Hk s Hs. destruct (Hm s Hs) as [HI Hc].
  unfold bind, final_state, events_of in *.
  destruct (m s) as [[s1 ev1] [a|e]]; simpl in *; [|auto].
  destruct (Hk a s1 HI) as [HI' Hc']. unfold final_state, events_of in *.
  destruct (k a s1) as [[s2 ev2] r]. simpl in *.
  split; [exact HI'|].
  unfold count_events in *. rewrite List.filter_app, length_app. lia.
Qed.

Lemma tracks_get {B} (k : t -> Py t event B) :
  (forall self, Inv self -> tracks Inv P mu (k self)) -> tracks Inv P mu (bind get k).
Proof.
  intros Hk s Hs. destruct (Hk s Hs s Hs) as [HI Hc].
  unfold bind, get. unfold final_state, events_of in *.
  destruct (k s s) as [[s2 ev2] r]. simpl in *. auto.
Qed.

Lemma tracks_for_each {A} (l : list A) (body : A -> Py t event unit) :
  (forall x, tracks Inv P mu (body x)) -> tracks Inv P mu (for_each l body).
Proof.
  intros Hb. induction l as [|x l IH]; [apply tracks_ret|].
  cbn [for_each]. apply tracks_bind; [apply Hb | intros _; exact IH].
Qed.
End Tracks.

(** One step of the proof that a handler tracks a measure: the shape of
    the computation decides; [tac] is tried first. *)
Ltac tracks_with tac :=
  repeat first
    [ tac
    | solve [exfalso; unfold Replica.is_primary in *; congruence]
    | apply tracks_ret | apply tracks_raise | apply tracks_lift
    | apply tracks_emit; reflexivity
    | apply tracks_modify; intros ? ?; split;
      [ first [exact Logic.I | assumption | simpl; assumption] | reflexivity ]
    | apply tracks_get; intros ? ?
    | apply tracks_bind; [| intros ?]
    | apply tracks_for_each; intros ?
    | match goal with
      | |- tracks _ _ _ (if ?b then _ else _) => destruct b eqn:?
      | |- tracks _ _ _ (match ?x with _ => _ end) => destruct x eqn:?
      end
    | progress cbv zeta ].

Lemma start_timer_timed : tracks (fun _ => True) is_timer_start armed Replica.start_timer.
Proof.
  intros s _. split; [exact Logic.I|].
  unfold Replica.start_timer, bind, get, modify, emit, ret, armed, final_state,
    events_of, count_events.
  destruct (Replica.timer s) eqn:E; simpl; rewrite ?E; reflexivity.
Qed.

Lemma receive_new_view_tracks (Inv : Replica.t -> Prop) (P : event -> bool)
    (mu : Replica.t -> nat) (reissue : NewViewMessage.t -> Py Replica.t event unit)
    (data : NewViewMessage.t) :
  (forall v s, Inv s -> Inv (ReplicaRest.set_view v s) /\ mu (ReplicaRest.set_view v s) = mu s) ->
  tracks Inv P mu (ReplicaRest.receive_new_view reissue data).
Proof.
  intros Hset s Hs. destruct (receive_new_view_run reissue data s) as [r ->].
  unfold final_state, events_of. cbn [fst snd].
  destruct (_ <=? _); [auto|]. destruct (Hset (NewViewMessage.view data) s Hs). auto.
Qed.

Lemma handle_timed (reissue : NewViewMessage.t -> Py Replica.t event unit)
    (c : ReplicaRest.call) :
  tracks (fun _ => True) is_timer_start armed (ReplicaRest.handle reissue c).
Proof.
  destruct c as [data|data|now data|data|data]; cbn [ReplicaRest.handle].
  - tracks_with ltac:(apply start_timer_timed).
  - tracks_with fail.
  - tracks_with fail.
  - tracks_with fail.
  - apply receive_new_view_tracks. intros v s _. split; [exact Logic.I | reflexivity].
Qed.

Lemma handle_backup_quiet (reissue : NewViewMessage.t -> Py Replica.t event unit)
    (c : ReplicaRest.call) :
  tracks (fun s => Replica.primary s = false) is_pre_prepare_send (fun _ => 0%nat)
         (ReplicaRest.handle reissue c).
Proof.
  destruct c as [data|data|now data|data|data]; cbn [ReplicaRest.handle].
  - tracks_with fail.
  - tracks_with fail.
  - tracks_with fail.
  - tracks_with fail.
  - apply receive_new_view_tracks. intros v s Hs. split; [exact Hs | reflexivity].
Qed.

Lemma handle_commit_quiet (reissue : NewViewMessage.t -> Py Replica.t event unit)
    (c : ReplicaRest.call) :
  ReplicaRest.is_prepare_call c = false ->
  tracks (fun _ => True) is_commit_send (fun _ => 0%nat) (ReplicaRest.handle reissue c).
Proof.
  destruct c as [data|data|now data|data|data]; cbn [ReplicaRest.handle];
    intros Hc; try discriminate.
  - tracks_with fail.
  - tracks_with fail.
  - tracks_with fail.
  - apply receive_new_view_tracks. intros v s _. split; [exact Logic.I | reflexivity].
Qed.

(** X24: the view-change timer is started at most once.  In any run of
    handler calls the number of timers started is 1 if the timer was not
    armed before and is armed after, and 0 otherwise; a replica whose
    timer is armed never starts another. *)
Theorem timer_started_at_most_once (reissue : NewViewMessage.t -> Py Replica.t event unit)
    (cs : list ReplicaRest.call) (s : Replica.t) :
  let run := ReplicaRest.handle_all reissue cs s in
  (count_events is_timer_start (events_of run) + armed s = armed (final_state run))%nat
  /\ (count_events is_timer_start (events_of run) <= 1)%nat
  /\ (Replica.timer s = true -> count_events is_timer_start (events_of run) = 0%nat).
Proof.
  intros run.
  assert (H : tracks (fun _ => True) is_timer_start armed
                (ReplicaRest.handle_all reissue cs)).
  { apply tracks_for_each. intros c. apply handle_timed. }
  destruct (H s Logic.I) as [_ Hc]. fold run in Hc.
  split; [exact Hc|]. unfold armed in Hc.
  split.
  - destruct (Replica.timer s), (Replica.timer (final_state run)); lia.
  - intros Ht. rewrite Ht in Hc.
    destruct (Replica.timer (final_state run)); lia.
Qed.

Lemma timer_started_at_most_once_witness :
  count_events is_timer_start
    (events_of (ReplicaRest.handle_all (fun _ => ret tt)
                  [ReplicaRest.CallRequest Scenario.request]
                  (Replica.set_timer true Scenario.replica0)))
  = 0%nat.
Proof.
  destruct (timer_started_at_most_once (fun _ => ret tt)
              [ReplicaRest.CallRequest Scenario.request]
              (Replica.set_timer true Scenario.replica0)) as (_ & _ & H).
  apply H. reflexivity.
Defined.

(** X25: a replica whose [primary] flag is false never sends a
    PRE_PREPARE, in any run of handler calls, also after it has adopted a
    view in which it would be the primary. *)
Theorem backup_never_sends_pre_prepare
    (reissue : NewViewMessage.t -> Py Replica.t event unit)
    (cs : list ReplicaRest.call) (s : Replica.t) :
  Replica.is_primary s = false ->
  count_events is_pre_prepare_send (events_of (ReplicaRest.handle_all reissue cs s))
  = 0%nat.
Proof.
  intros Hs.
  assert (H : tracks (fun s => Replica.primary s = false) is_pre_prepare_send
                (fun _ => 0%nat) (ReplicaRest.handle_all reissue cs)).
  { apply tracks_for_each. intros c. apply handle_backup_quiet. }
  destruct (H s Hs) as [_ Hc]. lia.
Qed.

Lemma backup_never_sends_pre_prepare_witness :
  count_events is_pre_prepare_send
    (events_of (ReplicaRest.handle_all (fun _ => ret tt)
                  [ReplicaRest.CallNewView (NewViewMessage.mk 1 [] []);
                   ReplicaRest.CallRequest Scenario.request]
                  (Replica.set_primary false Scenario.replica0)))
  = 0%nat.
Proof.
  apply (backup_never_sends_pre_prepare (fun _ => ret tt)
           [ReplicaRest.CallNewView (NewViewMessage.mk 1 [] []);
            ReplicaRest.CallRequest Scenario.request]
           (Replica.set_primary false Scenario.replica0)).
  reflexivity.
Defined.

(** X26: [receive_prepare] is the only handler that appends to the hash
    chain or sends a COMMIT.  A run of requests, pre-prepares, commits and
    new views leaves the chain as it was and sends no COMMIT; in
    particular reaching the commit quorum appends nothing. *)
Theorem hash_chain_changes_in_receive_prepare_only
    (reissue : NewViewMessage.t -> Py Replica.t event unit)
    (cs : list ReplicaRest.call) (s : Replica.t) :
  existsb ReplicaRest.is_prepare_call cs = false ->
  Replica.hcd (final_state (ReplicaRest.handle_all reissue cs s)) = Replica.hcd s
  /\ count_events is_commit_send (events_of (ReplicaRest.handle_all reissue cs s))
     = 0%nat.
Proof.
  intros Hcs. split.
  - destruct (handle_all_grows reissue cs s) as [Hsame]. apply Hsame, Hcs.
  - assert (H : tracks (fun _ => True) is_commit_send (fun _ => 0%nat)
                  (ReplicaRest.handle_all reissue cs)).
    { unfold ReplicaRest.handle_all.
      induction cs as [|c cs IH]; [apply tracks_ret|].
      cbn [existsb] in Hcs. apply orb_false_iff in Hcs as [Hc Hcs].
      cbn [for_each]. apply tracks_bind; [apply handle_commit_quiet, Hc | intros _; auto]. }
    destruct (H s Logic.I) as [_ Hc]. lia.
Qed.

Lemma hash_chain_changes_in_receive_prepare_only_witness :
  Replica.hcd
    (final_state (ReplicaRest.handle_all (fun _ => ret tt)
                    [ReplicaRest.CallRequest Scenario.request;
                     ReplicaRest.CallCommit Scenario.commit1] Scenario.replica0))
  = [].
Proof.
  apply (hash_chain_changes_in_receive_prepare_only (fun _ => ret tt)
           [ReplicaRest.CallRequest Scenario.request;
            ReplicaRest.CallCommit Scenario.commit1] Scenario.replica0).
  reflexivity.
Defined.

(** ** The wire format *)

Lemma string_app_cons (x : ascii) (a b : string) : String x a +:+ b = String x (a +:+ b).
Proof. reflexivity. Qed.

Lemma string_app_nil_l (b : string) : "" +:+ b = b.
Proof. reflexivity. Qed.

Lemma string_app_assoc (a b c : string) : (a +:+ b) +:+ c = a +:+ (b +:+ c).
Proof.
  induction a as [|x a IH]; [reflexivity|].
  rewrite !string_app_cons, IH. reflexivity.
Qed.

Lemma string_app_nil_r (a : string) : a +:+ "" = a.
Proof. induction a as [|x a IH]; [reflexivity|]. rewrite string_app_cons, IH. reflexivity. Qed.

Lemma no_char_app (c : ascii) (a b : string) :
  no_char c (a +:+ b) = no_char c a && no_char c b.
Proof.
  induction a as [|x a IH]; [reflexivity|].
  rewrite string_app_cons. simpl. rewrite IH, andb_assoc. reflexivity.
Qed.

Lemma split_go_skip (sep x rest cur : string) :
  split_go sep (x +:+ rest) cur (String.length x)
  = match rest with
    | EmptyString => [cur]
    | _ => split_go sep rest cur 0
    end.
Proof.
  induction x as [|c x IH].
  - rewrite string_app_nil_l. destruct rest; reflexivity.
  - rewrite string_app_cons. simpl. exact IH.
Qed.

Lemma prefix_app (sep rest : string) : String.prefix sep (sep +:+ rest) = true.
Proof.
  induction sep as [|c sep IH]; [destruct rest; reflexivity|].
  rewrite string_app_cons. simpl. destruct (ascii_dec c c); [exact IH | congruence].
Qed.

(** A piece without the first character of the separator ends at the
    separator that follows it. *)
Lemma split_go_piece (c0 : ascii) (sep' a rest cur : string) :
  no_char c0 a = true ->
  split_go (String c0 sep') (a +:+ String c0 sep' +:+ rest) cur 0
  = (cur +:+ a)
    :: match rest with
       | EmptyString => [""]
       | _ => split_go (String c0 sep') rest "" 0
       end.
Proof.
  revert cur. induction a as [|x a IH]; intros cur Ha.
  - rewrite string_app_nil_l, string_app_nil_r.
    pose proof (prefix_app (String c0 sep') rest) as Hp.
    rewrite string_app_cons in Hp |- *.
    cbn [split_go]. rewrite Hp. f_equal.
    cbn [String.length]. rewrite Nat.sub_succ, Nat.sub_0_r.
    apply split_go_skip.
  - simpl in Ha. apply andb_true_iff in Ha as [Hx Ha].
    rewrite string_app_cons. cbn [split_go].
    assert (Hp : String.prefix (String c0 sep') (String x (a +:+ String c0 sep' +:+ rest))
                 = false).
    { simpl. destruct (ascii_dec c0 x) as [->|]; [|reflexivity].
      rewrite Ascii.eqb_refl in Hx. discriminate. }
    rewrite Hp, (IH _ Ha). rewrite string_app_assoc. reflexivity.
Qed.

Lemma split_go_last (c0 : ascii) (sep' a cur : string) :
  no_char c0 a = true ->
  split_go (String c0 sep') a cur 0 = [cur +:+ a].
Proof.
  revert cur. induction a as [|x a IH]; intros cur Ha.
  - rewrite string_app_nil_r. reflexivity.
  - simpl in Ha. apply andb_true_iff in Ha as [Hx Ha].
    cbn [split_go].
    assert (Hp : String.prefix (String c0 sep') (String x a) = false).
    { simpl. destruct (ascii_dec c0 x) as [->|]; [|reflexivity].
      rewrite Ascii.eqb_refl in Hx. discriminate. }
    rewrite Hp, (IH _ Ha), string_app_assoc. reflexivity.
Qed.

(** [sep.join(l).split(sep) == l] when no element of [l] holds the first
    character of [sep]. *)
Lemma py_split_join (c0 : ascii) (sep' : string) (l : list string) :
  l <> [] ->
  forallb (no_char c0) l = true ->
  py_split (String c0 sep') (py_join (String c0 sep') l) = l.
Proof.
  unfold py_split. intros Hne Hl.
  induction l as [|a l IH]; [congruence|].
  simpl in Hl. apply andb_true_iff in Hl as [Ha Hl].
  destruct l as [|b l].
  - simpl. rewrite (split_go_last c0 sep' a "" Ha). reflexivity.
  - change (py_join (String c0 sep') (a :: b :: l))
      with (a +:+ String c0 sep' +:+ py_join (String c0 sep') (b :: l)).
    rewrite (split_go_piece c0 sep' a _ "" Ha). rewrite string_app_nil_l.
    f_equal.
    specialize (IH ltac:(discriminate) Hl).
    destruct (py_join (String c0 sep') (b :: l)) eqn:Ej; [|exact IH].
    simpl in IH. exact IH.
Qed.

Lemma no_char_uint (c : ascii) (d : Decimal.uint) :
  no_char c "0123456789" = true ->
  no_char c (DecimalString.NilEmpty.string_of_uint d) = true.
Proof.
  intros H. simpl in H.
  repeat match type of H with
         | _ && _ = true => let H' := fresh "Hd" in apply andb_true_iff in H as [H' H]
         end.
  induction d; simpl; rewrite ?IHd; try reflexivity;
    repeat match goal with Hd : negb _ = true |- _ => rewrite ?Hd; clear Hd end;
    reflexivity.
Qed.

Lemma no_char_str_int (c : ascii) (z : Z) :
  no_char c "-0123456789" = true -> no_char c (str_int z) = true.
Proof.
  intros H. simpl in H. apply andb_true_iff in H as [Hm H].
  unfold str_int, DecimalString.NilEmpty.string_of_int.
  destruct (Z.to_int z) as [d|d]; simpl; rewrite ?Hm; apply no_char_uint; exact H.
Qed.

Lemma plain_str_int (z : Z) : plain (str_int z) = true.
Proof. unfold plain. rewrite !no_char_str_int; reflexivity. Qed.

Lemma plain_app (a b : string) : plain (a +:+ b) = plain a && plain b.
Proof.
  unfold plain. rewrite !no_char_app.
  destruct (no_char "," a), (no_char ":" a), (no_char "," b), (no_char ":" b); reflexivity.
Qed.

(** [(name + ': ' + value).split(': ')] *)
Lemma field_at_value (name value : string) :
  no_char ":" name = true -> no_char ":" value = true ->
  field_at (name +:+ ": " +:+ value) 1 = Returned value.
Proof.
  intros Hn Hv. unfold field_at.
  change (name +:+ ": " +:+ value) with (py_join ": " [name; value]).
  rewrite (py_split_join ":" " " [name; value]); [reflexivity | discriminate|].
  simpl. rewrite Hn, Hv. reflexivity.
Qed.

Lemma decimal_int_str_int (z : Z) : decimal_int (str_int z) = Some z.
Proof.
  unfold decimal_int, str_int. rewrite DecimalString.NilEmpty.isi, DecimalZ.of_to.
  reflexivity.
Qed.

Lemma strip_dot0_app (a : string) : strip_dot0 (a +:+ ".0") = Some a.
Proof.
  induction a as [|x a IH]; [reflexivity|].
  rewrite string_app_cons. cbn [strip_dot0]. rewrite <- string_app_cons.
  destruct (String.eqb (String x a +:+ ".0") ".0") eqn:E.
  - apply String.eqb_eq in E. rewrite string_app_cons in E.
    injection E as _ E. destruct a as [|y a]; [discriminate|].
    rewrite string_app_cons in E. injection E as _ E.
    destruct a; discriminate.
  - rewrite IH. reflexivity.
Qed.

Lemma decimal_float_str_float (t : float) : decimal_float (str_float t) = Some t.
Proof.
  unfold decimal_float, str_float. rewrite strip_dot0_app. apply decimal_int_str_int.
Qed.

Lemma no_char_join (c : ascii) (sep : string) (l : list string) :
  no_char c sep = true -> forallb (no_char c) l = true ->
  no_char c (py_join sep l) = true.
Proof.
  intros Hsep. induction l as [|a l IH]; [reflexivity|].
  simpl forallb. intros [Ha Hl]%andb_true_iff.
  destruct l as [|b l]; [exact Ha|].
  change (py_join sep (a :: b :: l)) with (a +:+ sep +:+ py_join sep (b :: l)).
  rewrite !no_char_app, Ha, Hsep, (IH Hl). reflexivity.
Qed.

Lemma py_index_map {A B} (g : A -> B) (l : list A) (i : Z) :
  py_index (map g l) i = (x <~ py_index l i ;; Returned (g x)).
Proof.
  unfold py_index. cbv zeta. rewrite length_map.
  destruct (_ || _); [reflexivity|].
  rewrite list_lookup_fmap. destruct (l !! _); reflexivity.
Qed.

(** A message is a list of rows joined by [', '], each row a list of
    cells joined by [': '].  When no cell holds a comma or a colon,
    [components[i].split(': ')[j]] is cell [j] of row [i]. *)
Lemma cell_at (rows : list (list string)) (i j : Z) :
  rows <> [] ->
  forallb (fun row => negb (bool_decide (row = [])) && forallb plain row) rows = true ->
  (component <~ py_index (py_split ", " (py_join ", " (map (py_join ": ") rows))) i ;;
   field_at component j)
  = (row <~ py_index rows i ;; py_index row j).
Proof.
  intros Hne Hok.
  rewrite (py_split_join "," " ").
  - rewrite py_index_map. destruct (py_index rows i) as [row|e] eqn:Hi; [|reflexivity].
    simpl. unfold field_at.
    assert (Hrow : row ∈ rows).
    { unfold py_index in Hi. cbv zeta in Hi. destruct (_ || _); [discriminate|].
      destruct (rows !! _) eqn:El; [|discriminate]. injection Hi as ->.
      eapply list_elem_of_lookup_2, El. }
    rewrite forallb_forall in Hok. apply list_elem_of_In in Hrow.
    specialize (Hok row Hrow). apply andb_true_iff in Hok as [Hnil Hcells].
    rewrite (py_split_join ":" " "); [reflexivity | |].
    + intros ->. rewrite bool_decide_eq_true_2 in Hnil by reflexivity. discriminate.
    + rewrite forallb_forall in Hcells |- *. intros cell Hc.
      specialize (Hcells cell Hc). unfold plain in Hcells.
      apply andb_true_iff in Hcells as [_ H]. exact H.
  - destruct rows; [congruence | discriminate].
  - rewrite forallb_forall in Hok |- *. intros comp Hc.
    apply in_map_iff in Hc as (row & <- & Hrow). specialize (Hok row Hrow).
    apply andb_true_iff in Hok as [_ Hcells].
    apply no_char_join; [reflexivity|].
    rewrite forallb_forall in Hcells |- *. intros cell Hcell.
    specialize (Hcells cell Hcell). unfold plain in Hcells.
    apply andb_true_iff in Hcells as [H _]. exact H.
Qed.

Lemma pre_prepare_rows (m : PrePrepareMessage.t) :
  PrePrepareWire.to_string m
  = py_join ", " (map (py_join ": ")
      [["Type"; "MessageType.PRE_PREPARE"];
       ["View"; str_int (PrePrepareMessage.view m)];
       ["Sequence Number"; str_int (PrePrepareMessage.sequence_number m)];
       ["Primary Replica ID"; str_int (PrePrepareMessage.primary_replica_id m)];
       ["Hashed Request Message"; py_str (PrePrepareMessage.request_msg m)]]).
Proof.
  unfold PrePrepareWire.to_string, Message_to_string. cbn [map py_join].
  rewrite !string_app_assoc. reflexivity.
Qed.

Lemma value_of_rows (rows : list (list string)) (i : Z) (x : string) :
  rows <> [] ->
  forallb (fun row => negb (bool_decide (row = [])) && forallb plain row) rows = true ->
  (row <~ py_index rows i ;; py_index row 1) = Returned x ->
  value_of (py_split ", " (py_join ", " (map (py_join ": ") rows))) i = Returned x.
Proof. intros Hne Hok Hx. unfold value_of. rewrite cell_at by assumption. exact Hx. Qed.

(** The side condition of [cell_at] on rows whose cells are literals,
    printed integers and strings assumed [plain]. *)
Ltac rows_ok :=
  cbn [forallb]; unfold str_float;
  repeat (rewrite bool_decide_eq_false_2 by discriminate);
  rewrite ?plain_app, ?plain_str_int;
  repeat match goal with H : plain _ = true |- _ => rewrite H end;
  reflexivity.

Ltac read_fields :=
  repeat (erewrite value_of_rows by first [discriminate | rows_ok | reflexivity]);
  cbn [obind].

Lemma prepare_rows (m : PrepareMessage.t) :
  PrepareWire.to_string m
  = py_join ", " (map (py_join ": ")
      [["Type"; "MessageType.PREPARE"];
       ["View"; str_int (PrepareMessage.view m)];
       ["Sequence Number"; str_int (PrepareMessage.sequence_number m)];
       ["Replica ID"; str_int (PrepareMessage.replica_id m)];
       ["Hashed Request Message"; py_str (PrepareMessage.request_msg m)]]).
Proof.
  unfold PrepareWire.to_string, Message_to_string. cbn [map py_join].
  rewrite !string_app_assoc. reflexivity.
Qed.

Lemma commit_rows (m : CommitMessage.t) :
  CommitWire.to_string m
  = py_join ", " (map (py_join ": ")
      [["Type"; "MessageType.COMMIT"];
       ["View"; str_int (CommitMessage.view m)];
       ["Sequence Number"; str_int (CommitMessage.sequence_number m)];
       ["Replica ID"; str_int (CommitMessage.replica_id m)];
       ["HCD"; hcd_str (CommitMessage.hcd m)]]).
Proof.
  unfold CommitWire.to_string, Message_to_string. cbn [map py_join].
  rewrite !string_app_assoc. reflexivity.
Qed.

Lemma request_rows (m : RequestMessage.t) :
  RequestMessage.to_string m
  = py_join ", " (map (py_join ": ")
      [["Type"; "MessageType.REQUEST"];
       ["View"; "None"];
       ["Sequence Number"; "None"];
       ["Client ID"; str_int (RequestMessage.client_id m)];
       ["Operation"; RequestMessage.operation m];
       ["Timestamp"; str_float (RequestMessage.timestamp m)];
       ["Current System State"; RequestMessage.current_system_state m]]).
Proof.
  unfold RequestMessage.to_string, Message_to_string. cbn [map py_join].
  rewrite !string_app_assoc. reflexivity.
Qed.

Lemma reply_rows (m : ReplyMessage.t) :
  ReplyMessage.to_string m
  = py_join ", " (map (py_join ": ")
      [["Type"; "MessageType.REPLY"];
       ["View"; "None"];
       ["Sequence Number"; "None"];
       ["Client ID"; str_int (ReplyMessage.client_id m)];
       ["Timestamp"; str_float (ReplyMessage.timestamp m)];
       ["Result"; result_str (ReplyMessage.result m)];
       ["Entry"; "Replica ID"; str_int (Entry.replica_id (ReplyMessage.entry m))];
       ["View"; str_int (Entry.view (ReplyMessage.entry m))];
       ["Sequence Number"; str_int (Entry.sequence_number (ReplyMessage.entry m))];
       ["HCD"; hcd_str (Entry.hcd (ReplyMessage.entry m))]]).
Proof.
  unfold ReplyMessage.to_string, Entry.to_string, Message_to_string. cbn [map py_join].
  rewrite !string_app_assoc. reflexivity.
Qed.

(** X27: what a replica sends, a replica reads back.  The string of a
    PRE_PREPARE, a PREPARE or a COMMIT whose request or digest prints
    without comma and colon deserializes to a message with the same ids,
    view and sequence number; the request or digest it carries is the
    string that was printed, for a request object its default [repr]. *)
Theorem deserialize_message_round_trip (py_int : string -> option Z)
    (py_float : string -> option float) (addr : nat) :
  (forall z, py_int (str_int z) = Some z) ->
  (forall m, plain (py_str (PrePrepareMessage.request_msg m)) = true ->
     deserialize_message py_int py_float addr (PrePrepareWire.to_string m)
     = Message (MPrePrepare
                  (PrePrepareMessage.mk (PrePrepareMessage.primary_replica_id m)
                     (PrePrepareMessage.view m) (PrePrepareMessage.sequence_number m)
                     (PyStr (py_str (PrePrepareMessage.request_msg m))))))
  /\ (forall m, plain (py_str (PrepareMessage.request_msg m)) = true ->
        deserialize_message py_int py_float addr (PrepareWire.to_string m)
        = Message (MPrepare
                     (PrepareMessage.mk (PrepareMessage.replica_id m)
                        (PrepareMessage.view m) (PrepareMessage.sequence_number m)
                        (PyStr (py_str (PrepareMessage.request_msg m))))))
  /\ (forall m, plain (hcd_str (CommitMessage.hcd m)) = true ->
        deserialize_message py_int py_float addr (CommitWire.to_string m)
        = Message (MCommit
                     (CommitMessage.mk addr (CommitMessage.replica_id m)
                        (CommitMessage.view m) (CommitMessage.sequence_number m)
                        (HcdStr (hcd_str (CommitMessage.hcd m)))))).
Proof.
  intros Hint. split; [|split]; intros m Hm; unfold deserialize_message; cbv zeta.
  - rewrite pre_prepare_rows.
    erewrite (value_of_rows _ 0) by first [discriminate | rows_ok | reflexivity].
    cbn [String.eqb Ascii.eqb Bool.eqb andb].
    read_fields. unfold int_of. rewrite !Hint. reflexivity.
  - rewrite prepare_rows.
    erewrite (value_of_rows _ 0) by first [discriminate | rows_ok | reflexivity].
    cbn [String.eqb Ascii.eqb Bool.eqb andb].
    read_fields. unfold int_of. rewrite !Hint. reflexivity.
  - rewrite commit_rows.
    erewrite (value_of_rows _ 0) by first [discriminate | rows_ok | reflexivity].
    cbn [String.eqb Ascii.eqb Bool.eqb andb].
    read_fields. unfold int_of. rewrite !Hint. reflexivity.
Qed.

Lemma deserialize_message_round_trip_witness :
  deserialize_message decimal_int decimal_float 7
    (PrePrepareWire.to_string
       (PrePrepareMessage.mk 0 0 3 (PyRequest Scenario.request)))
  = Message (MPrePrepare (PrePrepareMessage.mk 0 0 3
               (PyStr "<library.request_message.RequestMessage object at 0x1>"))).
Proof.
  destruct (deserialize_message_round_trip decimal_int decimal_float 7
              decimal_int_str_int) as (H & _).
  apply (H (PrePrepareMessage.mk 0 0 3 (PyRequest Scenario.request))). reflexivity.
Defined.

(** X28: a request is read back when its operation and its known state
    print without comma and colon: the client id, the operation, the
    timestamp and the known state are those that were sent. *)
Theorem deserialize_message_request (py_int : string -> option Z)
    (py_float : string -> option float) (addr : nat) (m : RequestMessage.t) :
  (forall z, py_int (str_int z) = Some z) ->
  (forall t, py_float (str_float t) = Some t) ->
  plain (RequestMessage.operation m) = true ->
  plain (RequestMessage.current_system_state m) = true ->
  deserialize_message py_int py_float addr (RequestMessage.to_string m)
  = Message (MRequest
               (RequestMessage.mk addr (RequestMessage.operation m)
                  (RequestMessage.timestamp m) (RequestMessage.client_id m)
                  (RequestMessage.current_system_state m))).
Proof.
  intros Hint Hfloat Hop Hcss. unfold deserialize_message; cbv zeta.
  rewrite request_rows.
  erewrite (value_of_rows _ 0) by first [discriminate | rows_ok | reflexivity].
  cbn [String.eqb Ascii.eqb Bool.eqb andb].
  read_fields. unfold int_of, float_of.
  fold (str_float (RequestMessage.timestamp m)). rewrite Hint, Hfloat. reflexivity.
Qed.

Lemma deserialize_message_request_witness :
  deserialize_message decimal_int decimal_float 9
    (RequestMessage.to_string Scenario.request)
  = Message (MRequest (RequestMessage.mk 9 "log in" 5 0 "None")).
Proof.
  apply (deserialize_message_request decimal_int decimal_float 9 Scenario.request
           decimal_int_str_int decimal_float_str_float); reflexivity.
Defined.

Lemma py_index_app_l {A} (pre tail : list A) (i : Z) :
  0 <= i < Z.of_nat (length pre) ->
  py_index (pre ++ tail) i = py_index pre i.
Proof.
  intros Hi. unfold py_index. cbv zeta. rewrite length_app.
  rewrite (proj2 (Z.ltb_ge i 0)) by lia.
  rewrite (proj2 (Z.ltb_ge i 0)) by lia.
  rewrite (proj2 (Z.leb_gt _ _)) by lia.
  rewrite (proj2 (Z.leb_gt _ _)) by lia.
  cbn [orb]. rewrite lookup_app_l by lia. reflexivity.
Qed.

(** The first three components of a message that starts with the string
    of [Message.to_string]. *)
Lemma message_prefix_components (ty view sequence_number rest : string) :
  plain ty = true -> plain view = true -> plain sequence_number = true ->
  exists tail,
    py_split ", " (Message_to_string ty view sequence_number +:+ rest)
    = ["Type: " +:+ ty; "View: " +:+ view; "Sequence Number: " +:+ sequence_number]
      ++ tail.
Proof.
  unfold plain. intros [Ht _]%andb_true_iff [Hv _]%andb_true_iff [Hn _]%andb_true_iff.
  unfold Message_to_string, py_split.
  assert (E : ("Type: " +:+ ty +:+ ", View: " +:+ view +:+ ", Sequence Number: "
               +:+ sequence_number +:+ ", ") +:+ rest
              = ("Type: " +:+ ty) +:+ ", "
                +:+ (("View: " +:+ view) +:+ ", "
                     +:+ (("Sequence Number: " +:+ sequence_number) +:+ ", " +:+ rest))).
  { rewrite !string_app_assoc. reflexivity. }
  rewrite E.
  rewrite (split_go_piece "," " " ("Type: " +:+ ty))
    by (rewrite no_char_app, Ht; reflexivity).
  assert (Hne : forall a b, a +:+ ", " +:+ b <> "").
  { intros a b. destruct a; discriminate. }
  destruct (("View: " +:+ view) +:+ ", " +:+ _) eqn:E1; [exfalso; eapply Hne, E1|].
  rewrite <- E1. clear E1.
  rewrite (split_go_piece "," " " ("View: " +:+ view))
    by (rewrite no_char_app, Hv; reflexivity).
  destruct (("Sequence Number: " +:+ sequence_number) +:+ ", " +:+ rest) eqn:E2;
    [exfalso; eapply Hne, E2|].
  rewrite <- E2. clear E2.
  rewrite (split_go_piece "," " " ("Sequence Number: " +:+ sequence_number))
    by (rewrite no_char_app, Hn; reflexivity).
  rewrite !string_app_nil_l. eexists. reflexivity.
Qed.

Lemma value_of_prefix (pre tail : list string) (i : Z) :
  0 <= i < Z.of_nat (length pre) ->
  value_of (pre ++ tail) i = value_of pre i.
Proof. intros Hi. unfold value_of. rewrite py_index_app_l by exact Hi. reflexivity. Qed.

(** X29: view changes do not arrive.  A string that starts as
    [to_string] makes every VIEW_CHANGE start (sequence number [None])
    deserializes to a [ValueError], raised by [int('None')], and one that
    starts as every NEW_VIEW does to a [TypeError], raised by [int] of a
    list, whatever follows the common prefix: [deserialize_message]
    returns the exception, not a message. *)
Theorem deserialize_message_view_change (py_int : string -> option Z)
    (py_float : string -> option float) (addr : nat) (view : Z) (rest : string) :
  (forall z, py_int (str_int z) = Some z) ->
  py_int "None" = None ->
  deserialize_message py_int py_float addr
    (Message_to_string "MessageType.VIEW_CHANGE" (str_int view) "None" +:+ rest)
  = Error ValueError
  /\ deserialize_message py_int py_float addr
       (Message_to_string "MessageType.NEW_VIEW" (str_int view) "None" +:+ rest)
     = TypeError.
Proof.
  intros Hint Hnone. split; unfold deserialize_message; cbv zeta.
  - destruct (message_prefix_components "MessageType.VIEW_CHANGE" (str_int view) "None"
                rest eq_refl (plain_str_int view) eq_refl) as [tail ->].
    rewrite (value_of_prefix _ tail 0), (value_of_prefix _ tail 1),
      (value_of_prefix _ tail 2) by (simpl; lia).
    assert (H0 : value_of ["Type: MessageType.VIEW_CHANGE"; "View: " +:+ str_int view;
                           "Sequence Number: None"] 0
                 = Returned "MessageType.VIEW_CHANGE") by reflexivity.
    assert (H1 : value_of ["Type: MessageType.VIEW_CHANGE"; "View: " +:+ str_int view;
                           "Sequence Number: None"] 1
                 = Returned (str_int view)).
    { unfold value_of. cbn [obind].
      change (py_index _ 1) with (@Returned string ("View: " +:+ str_int view)).
      cbn [obind].
      apply (field_at_value "View" (str_int view)); [reflexivity|].
      apply no_char_str_int. reflexivity. }
    assert (H2 : value_of ["Type: MessageType.VIEW_CHANGE"; "View: " +:+ str_int view;
                           "Sequence Number: None"] 2
                 = Returned "None") by reflexivity.
    change ("Sequence Number: " +:+ "None") with "Sequence Number: None".
    change ("Type: " +:+ "MessageType.VIEW_CHANGE") with "Type: MessageType.VIEW_CHANGE".
    rewrite H0. cbn [String.eqb Ascii.eqb Bool.eqb andb].
    rewrite H1, H2. cbn [obind]. unfold int_of. rewrite Hint, Hnone. reflexivity.
  - destruct (message_prefix_components "MessageType.NEW_VIEW" (str_int view) "None"
                rest eq_refl (plain_str_int view) eq_refl) as [tail ->].
    rewrite (value_of_prefix _ tail 0) by (simpl; lia).
    rewrite py_index_app_l by (simpl; lia).
    assert (H0 : value_of ["Type: MessageType.NEW_VIEW"; "View: " +:+ str_int view;
                           "Sequence Number: None"] 0
                 = Returned "MessageType.NEW_VIEW") by reflexivity.
    change ("Sequence Number: " +:+ "None") with "Sequence Number: None".
    change ("Type: " +:+ "MessageType.NEW_VIEW") with "Type: MessageType.NEW_VIEW".
    rewrite H0. cbn [String.eqb Ascii.eqb Bool.eqb andb]. reflexivity.
Qed.

Lemma deserialize_message_view_change_witness :
  deserialize_message decimal_int decimal_float 7
    (Message_to_string "MessageType.VIEW_CHANGE" (str_int 1) "None"
     +:+ "New View: 1, Version Vector Entry: e, P: []")
  = Error ValueError.
Proof.
  apply (deserialize_message_view_change decimal_int decimal_float 7 1
           "New View: 1, Version Vector Entry: e, P: []" decimal_int_str_int eq_refl).
Defined.

(** X30: what a replica replies, the client reads back.  The string of a
    reply whose result and digest print without comma and colon
    deserializes to a reply with the same client id, timestamp, replica
    id, view and sequence number; the result and the digest are the
    strings that were printed, so the result is the string ['True'], not
    the boolean. *)
Theorem client_deserialize_message_round_trip (py_int : string -> option Z)
    (py_float : string -> option float) (addr : nat) (m : ReplyMessage.t) :
  (forall z, py_int (str_int z) = Some z) ->
  (forall t, py_float (str_float t) = Some t) ->
  plain (result_str (ReplyMessage.result m)) = true ->
  plain (hcd_str (Entry.hcd (ReplyMessage.entry m))) = true ->
  client_deserialize_message py_int py_float addr (ReplyMessage.to_string m)
  = Some (ReplyMessage.init addr (ReplyMessage.client_id m) (ReplyMessage.timestamp m)
            (ResStr (result_str (ReplyMessage.result m)))
            (Entry.replica_id (ReplyMessage.entry m))
            (Entry.view (ReplyMessage.entry m))
            (Entry.sequence_number (ReplyMessage.entry m))
            (HcdStr (hcd_str (Entry.hcd (ReplyMessage.entry m))))).
Proof.
  intros Hint Hfloat Hres Hhcd. unfold client_deserialize_message; cbv zeta.
  rewrite reply_rows.
  erewrite (value_of_rows _ 0) by first [discriminate | rows_ok | reflexivity].
  cbn [String.eqb Ascii.eqb Bool.eqb andb].
  read_fields.
  rewrite cell_at by first [discriminate | rows_ok].
  change (row <~ py_index _ 6 ;; py_index row 2)
    with (@Returned string (str_int (Entry.replica_id (ReplyMessage.entry m)))).
  cbn [obind]. unfold int_of, float_of.
  fold (str_float (ReplyMessage.timestamp m)). rewrite !Hint, Hfloat. reflexivity.
Qed.

Lemma client_deserialize_message_round_trip_witness :
  client_deserialize_message decimal_int decimal_float 300
    (ReplyMessage.to_string (Scenario.reply_of 0))
  = Some (ReplyMessage.init 300 (ReplyMessage.client_id (Scenario.reply_of 0))
            (ReplyMessage.timestamp (Scenario.reply_of 0))
            (ResStr (result_str (ReplyMessage.result (Scenario.reply_of 0))))
            0 (Entry.view (ReplyMessage.entry (Scenario.reply_of 0)))
            (Entry.sequence_number (ReplyMessage.entry (Scenario.reply_of 0)))
            (HcdStr (hcd_str (Entry.hcd (ReplyMessage.entry (Scenario.reply_of 0)))))).
Proof.
  apply (client_deserialize_message_round_trip decimal_int decimal_float 300
           (Scenario.reply_of 0) decimal_int_str_int decimal_float_str_float);
    reflexivity.
Defined.
